(** * AI Call Center Assistant: the call-processing pipeline

    A shallow embedding of the pipeline of [call_center_analytics]
    (agents/workflow.py, agents/call_intake_agent.py,
    agents/content_safety_agent.py, utils/guardrails.py,
    agents/quality_scoring_agent.py, agents/data_storage_agent.py) and the
    properties its specification states about it.

    Conventions of the embedding.
    - A Python [str] is a [string] whose characters are the code points
      0..255; the character classes below are those of CPython on that range.
      Code points above 255 are outside the modelled alphabet, so the few
      decoration glyphs of log messages are left out of the message texts.
    - A Python [float] that holds a score is an exact rational ([Qc]):
      rounding of binary floating point is not modelled.
    - External capabilities (the language model, the moderation service, the
      JSON parser, the hash function, the clock, the type inference of
      [pd.read_csv] on the names of the agents) are inputs of the functions
      that call them. *)

From stdpp Require Import base strings list gmap numbers.
From Stdlib Require Import Ascii String QArith Qcanon Qround DecimalString Lia.

#[local] Open Scope string_scope.

(** ** Python strings *)

Module Py.

Definition code (c : ascii) : nat := nat_of_ascii c.

Definition between (lo hi n : nat) : bool := (lo <=? n)%nat && (n <=? hi)%nat.

(** [str.isspace] of one character, also the class [\s] of [re]. *)
Definition isspace (c : ascii) : bool :=
  let n := code c in
  between 9 13 n || between 28 32 n || (n =? 133)%nat || (n =? 160)%nat.

(** The class [\d] of [re]. *)
Definition isdigit (c : ascii) : bool := between 48 57 (code c).

(** [str.isalnum] of one character. *)
Definition isalnum (c : ascii) : bool :=
  let n := code c in
  between 48 57 n || between 65 90 n || between 97 122 n
  || (n =? 170)%nat || (n =? 178)%nat || (n =? 179)%nat || (n =? 181)%nat
  || (n =? 185)%nat || (n =? 186)%nat || between 188 190 n
  || between 192 214 n || between 216 246 n || between 248 255 n.

Definition lower_char (c : ascii) : ascii :=
  let n := code c in
  if between 65 90 n || between 192 214 n || between 216 222 n
  then ascii_of_nat (n + 32) else c.

(** [s.lower()] *)
Fixpoint lower (s : string) : string :=
  match s with
  | EmptyString => EmptyString
  | String c s' => String (lower_char c) (lower s')
  end.

Definition is_empty (s : string) : bool :=
  match s with EmptyString => true | _ => false end.

Fixpoint lstrip (s : string) : string :=
  match s with
  | String c s' => if isspace c then lstrip s' else s
  | EmptyString => EmptyString
  end.

Fixpoint rstrip (s : string) : string :=
  match s with
  | EmptyString => EmptyString
  | String c s' =>
      let r := rstrip s' in
      if isspace c && is_empty r then EmptyString else String c r
  end.

(** [s.strip()] *)
Definition strip (s : string) : string := rstrip (lstrip s).

(** [s.lstrip(chars)] *)
Fixpoint lstrip_chars (chars : list ascii) (s : string) : string :=
  match s with
  | String c s' =>
      if bool_decide (c ∈ chars) then lstrip_chars chars s' else s
  | EmptyString => EmptyString
  end.


(** The string has a character that is not whitespace. *)
Fixpoint has_nonspace (s : string) : bool :=
  match s with
  | EmptyString => false
  | String c s' => negb (isspace c) || has_nonspace s'
  end.

(** [s.split()]: the maximal runs of non-whitespace characters. [cur] is the
    run being read. *)
Fixpoint split_from (cur : string) (s : string) : list string :=
  match s with
  | EmptyString => if is_empty cur then [] else [cur]
  | String c s' =>
      if isspace c
      then (if is_empty cur then split_from "" s' else cur :: split_from "" s')
      else split_from (cur +:+ String c "") s'
  end.

Definition split (s : string) : list string := split_from "" s.

(** [s.split(sep)] for a one-character separator: empty pieces are kept. *)
Fixpoint split_on_from (sep : ascii) (cur : string) (s : string) : list string :=
  match s with
  | EmptyString => [cur]
  | String c s' =>
      if bool_decide (c = sep)
      then cur :: split_on_from sep "" s'
      else split_on_from sep (cur +:+ String c "") s'
  end.

Definition split_on (sep : ascii) (s : string) : list string :=
  split_on_from sep "" s.

(** [sep.join(parts)] *)
Definition join (sep : string) (parts : list string) : string :=
  String.concat sep parts.

(** [needle in hay] *)
Fixpoint contains (needle hay : string) : bool :=
  String.prefix needle hay
  || match hay with
     | EmptyString => false
     | String _ hay' => contains needle hay'
     end.

(** [s.count(c)] for a one-character [c]. *)
Fixpoint count (c : ascii) (s : string) : nat :=
  match s with
  | EmptyString => 0
  | String d s' => (if bool_decide (d = c) then 1 else 0) + count c s'
  end.

(** [sum(1 for c in s if p(c))] *)
Fixpoint count_if (p : ascii -> bool) (s : string) : nat :=
  match s with
  | EmptyString => 0
  | String d s' => (if p d then 1 else 0) + count_if p s'
  end.

(** [s[:n]] *)
Definition take (n : nat) (s : string) : string := String.substring 0 n s.

(** [len(s)] *)
Definition len (s : string) : Z := Z.of_nat (String.length s).

(** [str(n)] for a natural number. *)
Definition str_nat (n : nat) : string :=
  NilZero.string_of_uint (Nat.to_uint n).

Definition str_Z (n : Z) : string :=
  NilZero.string_of_uint (N.to_uint (Z.to_N n)).

(** The digits of a number, last digit first, with a comma before every
    fourth, seventh, ... digit; [k] digits of the current group are out. *)
Fixpoint group3 (k : nat) (l : list ascii) : list ascii :=
  match l with
  | [] => []
  | c :: l' =>
      if (k =? 3)%nat then ","%char :: c :: group3 1 l'
      else c :: group3 (S k) l'
  end.

(** [f"{n:,}"] for a natural number. *)
Definition format_thousands (n : Z) : string :=
  string_of_list_ascii
    (rev (group3 0 (rev (list_ascii_of_string (str_Z n))))).

(** Truth value of an optional string: [None] and the empty string are
    false. *)
Definition truthy (o : option string) : bool :=
  match o with
  | Some s => negb (is_empty s)
  | None => false
  end.

Definition newline : ascii := ascii_of_nat 10.

End Py.

(** ** The score pattern of the fallback parser

    [re.search(label + r'[^:]*:\s*(\d+(?:\.\d+)?)', text, re.IGNORECASE)]
    for a lower-case ASCII [label]. *)

Module Re.

(** The literal [label], ignoring case: the rest of the text after it. *)
Fixpoint match_label (label s : string) : option string :=
  match label, s with
  | EmptyString, _ => Some s
  | String p label', String c s' =>
      if bool_decide (Py.lower_char c = p) then match_label label' s' else None
  | String _ _, EmptyString => None
  end.

(** [[^:]*:] is greedy, and can only end at the first colon. *)
Fixpoint after_colon (s : string) : option string :=
  match s with
  | EmptyString => None
  | String c s' => if bool_decide (c = ":"%char) then Some s' else after_colon s'
  end.

(** [\s*]: whitespace and digits are disjoint, so only the longest run can be
    followed by a digit. *)
Definition skip_spaces (s : string) : string := Py.lstrip s.

(** The longest run of digits at the head of [s], and what follows it. *)
Fixpoint span_digits (s : string) : string * string :=
  match s with
  | String c s' =>
      if Py.isdigit c
      then let '(d, r) := span_digits s' in (String c d, r)
      else (EmptyString, s)
  | EmptyString => (EmptyString, EmptyString)
  end.

(** The group [(\d+(?:\.\d+)?)]. *)
Definition match_number (s : string) : option string :=
  let '(d1, r) := span_digits s in
  if Py.is_empty d1 then None
  else match r with
       | String c r' =>
           if bool_decide (c = "."%char)
           then let '(d2, _) := span_digits r' in
                if Py.is_empty d2 then Some d1
                else Some (d1 +:+ "." +:+ d2)
           else Some d1
       | EmptyString => Some d1
       end.

(** A match that starts at the head of [s]: its group 1. *)
Definition match_here (label s : string) : option string :=
  match match_label label s with
  | Some s1 =>
      match after_colon s1 with
      | Some s2 => match_number (skip_spaces s2)
      | None => None
      end
  | None => None
  end.

(** [re.search]: the leftmost start position at which the pattern matches. *)
Fixpoint search (label s : string) : option string :=
  match match_here label s with
  | Some g => Some g
  | None =>
      match s with
      | EmptyString => None
      | String _ s' => search label s'
      end
  end.

Fixpoint digits_value (acc : N) (s : string) : N :=
  match s with
  | EmptyString => acc
  | String c s' => digits_value (10 * acc + (N_of_ascii c - 48)) s'
  end.

(** [float(g)] for a group [g] of the pattern, as an exact rational. *)
Definition float (g : string) : Qc :=
  let '(i, r) := span_digits g in
  let f := match r with
           | String _ r' => fst (span_digits r')
           | EmptyString => EmptyString
           end in
  Q2Qc (Z.of_N (digits_value 0 (i +:+ f))
        # Z.to_pos (10 ^ Z.of_nat (String.length f))).

End Re.

(** ** Data model (utils/models.py) *)

Record CallMetadata := {
  call_id : option string;
  caller_name : option string;
  agent_name : option string;
  call_duration : option string;
  date_time : option string
}.

Record ConversationTurn := {
  speaker : string;
  text : string
}.

Record CallData := {
  metadata : CallMetadata;
  conversation : string;
  conversation_turns : list ConversationTurn
}.

Record CallSummary := {
  brief_summary : string;
  key_points : list string;
  customer_issue : option string;
  resolution : option string;
  action_items : list string
}.

Record QualityScore := {
  overall_score : Qc;
  tone_score : Qc;
  professionalism_score : Qc;
  resolution_score : Qc;
  response_time_score : Qc;
  feedback : string;
  strengths : list string;
  areas_for_improvement : list string
}.

(** ** Quality scoring: the fallback parser
    (agents/quality_scoring_agent.py, [_create_fallback_score]) *)

Module QualityScoring.

(** The dictionary [extracted_scores]: its items, in insertion order. *)
Definition Scores : Type := list (string * Qc).

(** [d.get(key)] *)
Fixpoint get (key : string) (d : Scores) : option Qc :=
  match d with
  | [] => None
  | (k, v) :: d' => if String.eqb k key then Some v else get key d'
  end.

(** [d[key] = v] *)
Fixpoint set (key : string) (v : Qc) (d : Scores) : Scores :=
  match d with
  | [] => [(key, v)]
  | (k, w) :: d' =>
      if String.eqb k key then (k, v) :: d' else (k, w) :: set key v d'
  end.

(** [if m: extracted_scores[key] = float(m.group(1))] *)
Definition record_match (key label raw : string) (d : Scores) : Scores :=
  match Re.search label raw with
  | Some g => set key (Re.float g) d
  | None => d
  end.

(** The five searches, in the order of the source. *)
Definition scan_scores (raw : string) : Scores :=
  let d := record_match "tone" "tone" raw [] in
  let d := record_match "professionalism" "professionalism" raw d in
  let d := record_match "resolution" "resolution" raw d in
  let d := record_match "response_time" "response" raw d in
  record_match "overall" "overall" raw d.

Definition sum_scores (l : list Qc) : Qc := foldr Qcplus (Q2Qc 0) l.

Definition mean (l : list Qc) : Qc :=
  (sum_scores l / Q2Qc (inject_Z (Z.of_nat (List.length l))))%Qc.

(** [key in d] *)
Definition has_key (k : string) (d : Scores) : bool :=
  match get k d with Some _ => true | None => false end.

Definition is_nil {A} (l : list A) : bool :=
  match l with [] => true | _ => false end.

(** The overall score is derived from the dimensions found, when the text
    gave none. *)
Definition derive_overall (d : Scores) : Scores :=
  if negb (has_key "overall" d) && negb (is_nil d)
  then
    let individual_scores :=
      [get "tone" d; get "professionalism" d; get "resolution" d;
       get "response_time" d] in
    let valid_scores := omap id individual_scores in
    if is_nil valid_scores then d
    else set "overall" (mean valid_scores) d
  else d.

Definition has_enough_data (d : Scores) : bool :=
  has_key "overall" d || (2 <=? List.length d)%nat.

Inductive section := Strengths | Improvements.

Definition is_bullet (line : string) : bool :=
  String.prefix "-" line || String.prefix "*" line.

Definition bullet_text (line : string) : string :=
  Py.lstrip_chars ["-"%char; "*"%char; " "%char] line.

(** One iteration of the loop over the lines of the response. *)
Definition scan_line (st : option section * list string * list string)
    (line0 : string) : option section * list string * list string :=
  let '(current_section, strengths, improvements) := st in
  let line := Py.strip line0 in
  if Py.contains "strength" (Py.lower line) then
    (Some Strengths, strengths, improvements)
  else if Py.contains "improvement" (Py.lower line)
          || Py.contains "area" (Py.lower line) then
    (Some Improvements, strengths, improvements)
  else
    match current_section with
    | Some Strengths =>
        if is_bullet line
        then (current_section, (strengths ++ [bullet_text line])%list, improvements)
        else st
    | Some Improvements =>
        if is_bullet line
        then (current_section, strengths, (improvements ++ [bullet_text line])%list)
        else st
    | None => st
    end.

Definition scan_lines (raw : string) : list string * list string :=
  let '(_, strengths, improvements) :=
    foldl scan_line (None, [], []) (Py.split_on Py.newline raw) in
  (strengths, improvements).

Definition or_default (l d : list string) : list string :=
  match l with [] => d | _ => l end.

Definition _create_fallback_score (raw_text : string) : option QualityScore :=
  let extracted_scores := derive_overall (scan_scores raw_text) in
  if negb (has_enough_data extracted_scores) then None
  else
    let '(strengths, improvements) := scan_lines raw_text in
    let strengths := or_default strengths ["Professional communication"] in
    let improvements :=
      or_default improvements
        ["Manual review needed - automated scoring incomplete"] in
    Some {|
      overall_score := default (Q2Qc 0) (get "overall" extracted_scores);
      tone_score := default (Q2Qc 0) (get "tone" extracted_scores);
      professionalism_score :=
        default (Q2Qc 0) (get "professionalism" extracted_scores);
      resolution_score := default (Q2Qc 0) (get "resolution" extracted_scores);
      response_time_score :=
        default (Q2Qc 0) (get "response_time" extracted_scores);
      feedback :=
        "Partial extraction (" +:+ Py.str_nat (List.length extracted_scores)
        +:+ " scores found). "
        +:+ (if (400 <? String.length raw_text)%nat
             then Py.take 400 raw_text else raw_text);
      strengths := strengths;
      areas_for_improvement := improvements
    |}.

(** What the text itself gave: the dimensions and the overall score found by
    the searches, before any value is derived. *)
Definition recovered (key label raw : string) : option Qc :=
  Re.float <$> Re.search label raw.

Definition recovered_dimensions (raw : string) : list (option Qc) :=
  [recovered "tone" "tone" raw;
   recovered "professionalism" "professionalism" raw;
   recovered "resolution" "resolution" raw;
   recovered "response_time" "response" raw].

Definition recovered_overall (raw : string) : option Qc :=
  recovered "overall" "overall" raw.

Definition dimensions_found (raw : string) : nat :=
  List.length (omap id (recovered_dimensions raw)).

End QualityScoring.

(** ** Exceptions

    A call that can raise returns [Raise msg] ([msg] is [str(e)]) or
    [Ok v]. *)

Inductive Exc (A : Type) : Type :=
  | Raise (msg : string)
  | Ok (a : A).
Arguments Raise {A} msg.
Arguments Ok {A} a.

Definition bind {A B} (m : Exc A) (k : A -> Exc B) : Exc B :=
  match m with
  | Raise e => Raise e
  | Ok a => k a
  end.

Notation "x <-! m ; k" := (bind m (fun x => k))
  (at level 100, m at next level, right associativity).

(** [try: return body  except Exception as e: return handler(e)] *)
Definition try_except {A} (body : Exc A) (handler : string -> A) : A :=
  match body with
  | Raise e => handler e
  | Ok a => a
  end.

(** [[f(x) for x in l]], where [f] can raise. *)
Fixpoint for_each {A B} (f : A -> Exc B) (l : list A) : Exc (list B) :=
  match l with
  | [] => Ok []
  | x :: l' => y <-! f x; ys <-! for_each f l'; Ok (y :: ys)
  end.

(** ** JSON values, as [json.loads] builds them *)

#[local] Set Warnings "-register-all".

Inductive Json :=
  | JNull
  | JBool (b : bool)
  | JNum (q : Qc)
  | JStr (s : string)
  | JList (items : list Json)
  | JObj (items : list (string * Json)).

Module PyJson.

Fixpoint assoc (key : string) (items : list (string * Json)) : option Json :=
  match items with
  | [] => None
  | (k, v) :: items' => if bool_decide (k = key) then Some v else assoc key items'
  end.

(** [v.get(key, dflt)]: only a dict has [get]. *)
Definition get (v : Json) (key : string) (dflt : Json) : Exc Json :=
  match v with
  | JObj items => Ok (default dflt (assoc key items))
  | _ => Raise "AttributeError"
  end.

Fixpoint chars (s : string) : list Json :=
  match s with
  | EmptyString => []
  | String c s' => JStr (String c EmptyString) :: chars s'
  end.

(** [for x in v]: a list gives its items, a dict its keys, a string its
    characters; nothing else can be iterated. *)
Definition iter (v : Json) : Exc (list Json) :=
  match v with
  | JList items => Ok items
  | JObj items => Ok (map (fun kv => JStr (fst kv)) items)
  | JStr s => Ok (chars s)
  | _ => Raise "TypeError"
  end.

End PyJson.

(** ** Content safety results (utils/guardrails.py) *)

(** One result of the moderation service: [result.flagged],
    [result.categories.model_dump()], [result.category_scores.model_dump()]. *)
Record ModerationResult := {
  flagged : bool;
  categories : list (string * bool);
  category_scores : list (string * Qc)
}.

(** The details dictionary of [check_content]: the keys [flagged],
    [categories], [all_scores], or the keys [error], [check_failed]. *)
Inductive ModerationDetails :=
  | Checked (flagged : bool) (categories : list string)
      (all_scores : list (string * Qc))
  | CheckFailed (error : string).

Record Violation := {
  violation_type : string;
  violation_message : string;
  violation_details : ModerationDetails
}.

(** The results dictionary of [check_transcript_safety]. *)
Record SafetyResults := {
  passed : bool;
  violations : list Violation;
  warnings : list string;
  flagged_categories : list string
}.

(** The values [content_safety_details] takes: the empty dictionary, a
    results dictionary, or a dictionary with the one key [error]. *)
Inductive SafetyDetails :=
  | NoDetails
  | Results (r : SafetyResults)
  | ErrorDetails (e : string).

(** ** The pipeline state (agents/workflow.py, [GraphState])

    A key that the source reads with [state.get] is a field; [None] is a
    missing key or the value [None]. [duplicate_detected] is the key the
    intake agent adds. *)

Record GraphState := {
  input_type : string;
  input_content : string;
  transcript : option string;
  call_data : option CallData;
  summary : option CallSummary;
  quality_score : option QualityScore;
  storage_path : option string;
  needs_manual_review : bool;
  error : option string;
  validation_failed : bool;
  duplicate_detected : bool;
  content_safety_passed : option bool;
  content_safety_details : SafetyDetails;
  processing_steps : list string
}.

(** [state[key] = v], and [{**state, key: v}] *)

Definition set_transcript (v : option string) (st : GraphState) : GraphState :=
  {| input_type := input_type st;
     input_content := input_content st;
     transcript := v;
     call_data := call_data st;
     summary := summary st;
     quality_score := quality_score st;
     storage_path := storage_path st;
     needs_manual_review := needs_manual_review st;
     error := error st;
     validation_failed := validation_failed st;
     duplicate_detected := duplicate_detected st;
     content_safety_passed := content_safety_passed st;
     content_safety_details := content_safety_details st;
     processing_steps := processing_steps st |}.

Definition set_call_data (v : option CallData) (st : GraphState) : GraphState :=
  {| input_type := input_type st;
     input_content := input_content st;
     transcript := transcript st;
     call_data := v;
     summary := summary st;
     quality_score := quality_score st;
     storage_path := storage_path st;
     needs_manual_review := needs_manual_review st;
     error := error st;
     validation_failed := validation_failed st;
     duplicate_detected := duplicate_detected st;
     content_safety_passed := content_safety_passed st;
     content_safety_details := content_safety_details st;
     processing_steps := processing_steps st |}.

Definition set_quality_score (v : option QualityScore) (st : GraphState) : GraphState :=
  {| input_type := input_type st;
     input_content := input_content st;
     transcript := transcript st;
     call_data := call_data st;
     summary := summary st;
     quality_score := v;
     storage_path := storage_path st;
     needs_manual_review := needs_manual_review st;
     error := error st;
     validation_failed := validation_failed st;
     duplicate_detected := duplicate_detected st;
     content_safety_passed := content_safety_passed st;
     content_safety_details := content_safety_details st;
     processing_steps := processing_steps st |}.

Definition set_storage_path (v : option string) (st : GraphState) : GraphState :=
  {| input_type := input_type st;
     input_content := input_content st;
     transcript := transcript st;
     call_data := call_data st;
     summary := summary st;
     quality_score := quality_score st;
     storage_path := v;
     needs_manual_review := needs_manual_review st;
     error := error st;
     validation_failed := validation_failed st;
     duplicate_detected := duplicate_detected st;
     content_safety_passed := content_safety_passed st;
     content_safety_details := content_safety_details st;
     processing_steps := processing_steps st |}.

Definition set_needs_manual_review (v : bool) (st : GraphState) : GraphState :=
  {| input_type := input_type st;
     input_content := input_content st;
     transcript := transcript st;
     call_data := call_data st;
     summary := summary st;
     quality_score := quality_score st;
     storage_path := storage_path st;
     needs_manual_review := v;
     error := error st;
     validation_failed := validation_failed st;
     duplicate_detected := duplicate_detected st;
     content_safety_passed := content_safety_passed st;
     content_safety_details := content_safety_details st;
     processing_steps := processing_steps st |}.

Definition set_error (v : option string) (st : GraphState) : GraphState :=
  {| input_type := input_type st;
     input_content := input_content st;
     transcript := transcript st;
     call_data := call_data st;
     summary := summary st;
     quality_score := quality_score st;
     storage_path := storage_path st;
     needs_manual_review := needs_manual_review st;
     error := v;
     validation_failed := validation_failed st;
     duplicate_detected := duplicate_detected st;
     content_safety_passed := content_safety_passed st;
     content_safety_details := content_safety_details st;
     processing_steps := processing_steps st |}.

Definition set_validation_failed (v : bool) (st : GraphState) : GraphState :=
  {| input_type := input_type st;
     input_content := input_content st;
     transcript := transcript st;
     call_data := call_data st;
     summary := summary st;
     quality_score := quality_score st;
     storage_path := storage_path st;
     needs_manual_review := needs_manual_review st;
     error := error st;
     validation_failed := v;
     duplicate_detected := duplicate_detected st;
     content_safety_passed := content_safety_passed st;
     content_safety_details := content_safety_details st;
     processing_steps := processing_steps st |}.

Definition set_duplicate_detected (v : bool) (st : GraphState) : GraphState :=
  {| input_type := input_type st;
     input_content := input_content st;
     transcript := transcript st;
     call_data := call_data st;
     summary := summary st;
     quality_score := quality_score st;
     storage_path := storage_path st;
     needs_manual_review := needs_manual_review st;
     error := error st;
     validation_failed := validation_failed st;
     duplicate_detected := v;
     content_safety_passed := content_safety_passed st;
     content_safety_details := content_safety_details st;
     processing_steps := processing_steps st |}.

Definition set_content_safety_passed (v : option bool) (st : GraphState) : GraphState :=
  {| input_type := input_type st;
     input_content := input_content st;
     transcript := transcript st;
     call_data := call_data st;
     summary := summary st;
     quality_score := quality_score st;
     storage_path := storage_path st;
     needs_manual_review := needs_manual_review st;
     error := error st;
     validation_failed := validation_failed st;
     duplicate_detected := duplicate_detected st;
     content_safety_passed := v;
     content_safety_details := content_safety_details st;
     processing_steps := processing_steps st |}.

Definition set_content_safety_details (v : SafetyDetails) (st : GraphState) : GraphState :=
  {| input_type := input_type st;
     input_content := input_content st;
     transcript := transcript st;
     call_data := call_data st;
     summary := summary st;
     quality_score := quality_score st;
     storage_path := storage_path st;
     needs_manual_review := needs_manual_review st;
     error := error st;
     validation_failed := validation_failed st;
     duplicate_detected := duplicate_detected st;
     content_safety_passed := content_safety_passed st;
     content_safety_details := v;
     processing_steps := processing_steps st |}.

Definition set_processing_steps (v : list string) (st : GraphState) : GraphState :=
  {| input_type := input_type st;
     input_content := input_content st;
     transcript := transcript st;
     call_data := call_data st;
     summary := summary st;
     quality_score := quality_score st;
     storage_path := storage_path st;
     needs_manual_review := needs_manual_review st;
     error := error st;
     validation_failed := validation_failed st;
     duplicate_detected := duplicate_detected st;
     content_safety_passed := content_safety_passed st;
     content_safety_details := content_safety_details st;
     processing_steps := v |}.

(** ** Call intake (agents/call_intake_agent.py) *)

Record ValidationAndMetadata := {
  is_valid : bool;
  validation_reason : string;
  extracted_metadata : option CallMetadata
}.

(** The replies of the language model to the two requests of one intake run:
    the text of [response.content], or the exception [llm.invoke] raised. *)
Record LlmReplies := {
  validation_reply : Exc string;
  conversation_reply : Exc string
}.

Module Intake.

Section WithLibraries.

(** [hashlib.sha256(s.encode('utf-8')).hexdigest()] *)
Variable sha256_hex : string -> string.
(** [text.encode('utf-8')] does not raise [UnicodeEncodeError]. *)
Variable utf8_encodable : string -> bool.
(** [PydanticOutputParser(ValidationAndMetadata).parse] *)
Variable parse_validation : string -> Exc ValidationAndMetadata.
(** [json.loads] *)
Variable json_loads : string -> Exc Json.
(** Validation of a value for a field of type [str] of a pydantic model. *)
Variable pydantic_str : Json -> Exc string.

Definition normalize (transcript : string) : string :=
  Py.join " " (Py.split (Py.strip (Py.lower transcript))).

Definition _compute_transcript_hash (transcript : string) : string :=
  sha256_hex (normalize transcript).

(** The registry file holds the list [data["hashes"]]; reading and writing
    the file itself is taken to succeed. *)
Definition _is_duplicate (transcript_hash : string) (hashes : list string)
  : bool :=
  bool_decide (transcript_hash ∈ hashes).

Definition _store_hash (transcript_hash : string) (hashes : list string)
  : list string :=
  if bool_decide (transcript_hash ∈ hashes) then hashes
  else (hashes ++ [transcript_hash])%list.

Definition conversation_indicators : list string :=
  ["agent:"; "caller:"; "customer:"; "representative:"; "client:";
   "support:"; "service:"; "operator:"; "rep:"; "csr:";
   "agent -"; "caller -"; "customer -"].

(** The three musical-note glyphs of the source list lie outside the
    modelled alphabet and cannot occur in a modelled text. *)
Definition music_keywords : list string :=
  ["[music playing]"; "[instrumental]"; "lyrics:"; "verse:"; "chorus:";
   "song:"; "album:"; "artist:"].

Definition ratio (a b : Z) : Qc := (Q2Qc (inject_Z a) / Q2Qc (inject_Z b))%Qc.

Definition is_special (c : ascii) : bool :=
  negb (Py.isalnum c) && negb (Py.isspace c).

Definition list_len {A} (l : list A) : Z := Z.of_nat (List.length l).

Definition _pre_validate_transcript (text : string) : option string :=
  let text_stripped := Py.strip text in
  let text_lower := Py.lower text_stripped in
  if (Py.len text_stripped <? 50)%Z then
    Some "Transcript too short (minimum 50 characters)"
  else if (100000 <? Py.len text_stripped)%Z then
    Some ("Transcript too long (" +:+ Py.format_thousands (Py.len text_stripped)
          +:+ " characters). Maximum 100,000 characters allowed.")
  else
  let has_conversation_pattern :=
    existsb (fun indicator => Py.contains indicator text_lower)
      conversation_indicators in
  let sentence_count :=
    (Py.count "." text + Py.count "!" text + Py.count "?" text)%nat in
  if negb has_conversation_pattern && (sentence_count <? 3)%nat then
    Some "Does not appear to be a conversation transcript (no speaker labels or dialogue detected)"
  else if existsb (fun keyword => Py.contains keyword text_lower) music_keywords
  then Some "Appears to be music or lyrics, not a call center conversation"
  else
  let special_char_count := Z.of_nat (Py.count_if is_special text) in
  let special_char_ratio :=
    if (0 <? Py.len text)%Z then ratio special_char_count (Py.len text)
    else Q2Qc 0 in
  if bool_decide (Q2Qc (3 # 10) < special_char_ratio)%Qc then
    Some "Transcript contains excessive special characters or appears to be gibberish"
  else
  let word_count := list_len (Py.split text_stripped) in
  if (word_count <? 20)%Z then
    Some ("Transcript too short (" +:+ Py.str_Z word_count
          +:+ " words). Minimum 20 words required.")
  else
  let words := Py.split text_stripped in
  if (10 <? list_len words)%Z
     && bool_decide
          (ratio (list_len (remove_dups words)) (list_len words)
           < Q2Qc (3 # 10))%Qc
  then Some "Transcript appears to be repetitive or spam"
  else if negb (utf8_encodable text) then
    Some "Transcript contains invalid characters or encoding issues"
  else None.

Definition _validate_and_extract_metadata (reply : Exc string)
  : ValidationAndMetadata :=
  try_except
    (content <-! reply; parse_validation content)
    (fun e => {| is_valid := false;
                 validation_reason := "Unable to validate transcript: " +:+ e;
                 extracted_metadata := None |}).

(** [ConversationTurn(speaker=turn.get("speaker", "Unknown"),
                      text=turn.get("text", ""))] *)
Definition make_turn (turn : Json) : Exc ConversationTurn :=
  sp <-! PyJson.get turn "speaker" (JStr "Unknown");
  tx <-! PyJson.get turn "text" (JStr "");
  sp' <-! pydantic_str sp;
  tx' <-! pydantic_str tx;
  Ok {| speaker := sp'; text := tx' |}.

(** The body of the [try] of [_extract_conversation]. *)
Definition parse_conversation (reply : Exc string)
  : Exc (Json * list ConversationTurn) :=
  content <-! reply;
  result <-! json_loads content;
  conversation_text <-! PyJson.get result "conversation" (JStr "");
  turns_data <-! PyJson.get result "turns" (JList []);
  items <-! PyJson.iter turns_data;
  conversation_turns <-! for_each make_turn items;
  Ok (conversation_text, conversation_turns).

Definition _extract_conversation (text : string) (reply : Exc string)
  : Json * list ConversationTurn :=
  try_except (parse_conversation reply) (fun _ => (JStr text, [])).


Definition empty_metadata : CallMetadata :=
  {| call_id := None; caller_name := None; agent_name := None;
     call_duration := None; date_time := None |}.

Definition duplicate_error : string :=
  "Duplicate transcript detected. This call has already been processed.".

(** [CallIntakeAgent.process], with the registry it reads and writes. *)
Definition process (replies : LlmReplies) (hashes : list string)
    (state : GraphState) : GraphState * list string :=
  let transcript := default "" (transcript state) in
  if Py.is_empty transcript then
    (set_error (Some "No transcription available for processing") state,
     hashes)
  else
  let transcript_hash := _compute_transcript_hash transcript in
  if _is_duplicate transcript_hash hashes then
    (set_processing_steps
       ["Duplicate Detected: This transcript has already been processed. Skipping."]
       (set_duplicate_detected true (set_error (Some duplicate_error) state)),
     hashes)
  else
  match _pre_validate_transcript transcript with
  | Some pre_validation_error =>
      (set_processing_steps ["Validation Failed: " +:+ pre_validation_error]
         (set_validation_failed true
            (set_error (Some pre_validation_error) state)),
       hashes)
  | None =>
      let validation_result :=
        _validate_and_extract_metadata (validation_reply replies) in
      if negb (is_valid validation_result) then
        (set_processing_steps
           ["Validation Failed: " +:+ validation_reason validation_result]
           (set_validation_failed true
              (set_error
                 (Some ("Not a valid call center conversation: "
                        +:+ validation_reason validation_result)) state)),
         hashes)
      else
        let metadata :=
          default empty_metadata (extracted_metadata validation_result) in
        let '(conversation, conversation_turns) :=
          _extract_conversation transcript (conversation_reply replies) in
        match pydantic_str conversation with
        | Raise e =>
            (set_error (Some ("Call Intake Agent error: " +:+ e)) state,
             hashes)
        | Ok conversation =>
            let call_data :=
              {| metadata := metadata; conversation := conversation;
                 conversation_turns := conversation_turns |} in
            (set_processing_steps
               ["Call Intake: Validated and extracted metadata"]
               (set_call_data (Some call_data) state),
             _store_hash transcript_hash hashes)
        end
  end.

(** A run of submissions, one after the other, on the same registry. *)
Definition submit (hashes : list string) (sub : LlmReplies * GraphState)
  : list string :=
  snd (process (fst sub) hashes (snd sub)).

Definition submit_all (hashes : list string)
    (subs : list (LlmReplies * GraphState)) : list string :=
  foldl submit hashes subs.

(** The submission was taken in: it left the intake with its call data. *)
Definition taken_in (hashes : list string) (sub : LlmReplies * GraphState)
  : Prop :=
  is_Some (call_data (fst (process (fst sub) hashes (snd sub)))).


(** The fingerprint of the transcript of a submission. *)
Definition fingerprint_of (sub : LlmReplies * GraphState) : string :=
  _compute_transcript_hash (default "" (transcript (snd sub))).

End WithLibraries.

End Intake.

(** ** Content safety (utils/guardrails.py, utils/guardrails_config.py,
    agents/content_safety_agent.py) *)

Module Guardrails.

(** [GuardrailsConfig.ENABLE_CONTENT_SAFETY] *)
Definition ENABLE_CONTENT_SAFETY : bool := true.

Definition is_nil {A} (l : list A) : bool :=
  match l with [] => true | _ => false end.

(** [ContentSafetyGuardrails.check_content]. [reply] is what
    [self.client.moderations.create(input=text)] and the reading of its first
    result give: the result, or the exception raised. *)
Definition check_content (reply : Exc ModerationResult) (strict_mode : bool)
  : bool * ModerationDetails :=
  try_except
    (result <-! reply;
     let flagged0 := map fst (List.filter (fun kv => snd kv) (categories result)) in
     let flagged1 :=
       if strict_mode && is_nil flagged0 then
         (flagged0
          ++ map (fun kv => fst kv +:+ "_warning")
               (List.filter (fun kv => bool_decide (Q2Qc (1 # 10) < snd kv)%Qc)
                  (category_scores result)))%list
       else flagged0 in
     let is_safe := is_nil flagged1 in
     Ok (is_safe,
         Checked (flagged result) flagged1
           (if is_safe then [] else category_scores result)))
    (fun e => (true, CheckFailed e)).

(** [details.get("categories", [])] *)
Definition details_categories (details : ModerationDetails) : list string :=
  match details with
  | Checked _ cats _ => cats
  | CheckFailed _ => []
  end.

(** [GuardrailsManager.check_transcript_safety], for a manager built from the
    configuration [content_safety]. *)
Definition check_transcript_safety (content_safety : bool)
    (reply : Exc ModerationResult) : SafetyResults :=
  let results :=
    {| passed := true; violations := []; warnings := [];
       flagged_categories := [] |} in
  if content_safety then
    let '(is_safe, details) := check_content reply false in
    if negb is_safe then
      {| passed := false;
         violations :=
           [{| violation_type := "content_safety";
               violation_message := "Transcript contains inappropriate content";
               violation_details := details |}];
         warnings := [];
         flagged_categories := details_categories details |}
    else results
  else results.

End Guardrails.

Module ContentSafetyAgent.

(** [ContentSafetyAgent.process] *)
Definition process (reply : Exc ModerationResult) (state : GraphState)
  : GraphState :=
  try_except
    (let transcript := default "" (transcript state) in
     if Py.is_empty transcript then
       Ok (set_processing_steps ["Content Safety: No transcript to check"]
             (set_content_safety_details NoDetails
                (set_content_safety_passed (Some true) state)))
     else
       let results :=
         Guardrails.check_transcript_safety Guardrails.ENABLE_CONTENT_SAFETY
           reply in
       if negb (passed results) then
         Ok (set_processing_steps
               ["Content Safety: FLAGGED - "
                +:+ Py.join ", " (flagged_categories results)]
               (set_needs_manual_review true
                  (set_content_safety_details (Results results)
                     (set_content_safety_passed (Some false) state))))
       else
         Ok (set_processing_steps ["Content Safety: Transcript approved"]
               (set_content_safety_details (Results results)
                  (set_content_safety_passed (Some true) state))))
    (fun e =>
       set_processing_steps ["Content Safety: Check failed - " +:+ e]
         (set_content_safety_details (ErrorDetails e)
            (set_content_safety_passed (Some true) state))).

(** [details.get("error")] on the safety details of the state. *)
Definition details_error (d : SafetyDetails) : option string :=
  match d with
  | ErrorDetails e => Some e
  | _ => None
  end.

End ContentSafetyAgent.

(** ** The orchestrator (agents/workflow.py) *)

Module Workflow.

Inductive Node :=
  | transcription
  | content_safety
  | call_intake
  | summarization
  | quality_scoring
  | data_storage
  | END.

#[export] Instance Node_eq_dec : EqDecision Node.
Proof. solve_decision. Defined.

Definition _route_entry (state : GraphState) : string :=
  if bool_decide (input_type state = "audio") then "transcription"
  else "content_safety".

Definition _should_continue_after_safety_check (state : GraphState) : string :=
  if negb (default true (content_safety_passed state)) then "store_flagged"
  else if Py.truthy (error state) then "end"
  else "continue".

Definition _should_continue_after_intake (state : GraphState) : string :=
  if Py.truthy (error state) || validation_failed state then "end"
  else if negb (bool_decide (is_Some (call_data state))) then "end"
  else "continue".

Definition _should_do_quality_scoring (state : GraphState) : string :=
  match call_data state with
  | None => "skip"
  | Some _ => "score"
  end.

Fixpoint lookup_edge (label : string) (edges : list (string * Node))
  : option Node :=
  match edges with
  | [] => None
  | (l, n) :: edges' =>
      if bool_decide (l = label) then Some n else lookup_edge label edges'
  end.

(** The edges of [_build_graph]: the node that follows [n] in [state]. *)
Definition next_node (n : Node) (state : GraphState) : option Node :=
  match n with
  | transcription => Some content_safety
  | content_safety =>
      lookup_edge (_should_continue_after_safety_check state)
        [("continue", call_intake); ("store_flagged", data_storage);
         ("end", END)]
  | call_intake =>
      lookup_edge (_should_continue_after_intake state)
        [("continue", summarization); ("end", END)]
  | summarization =>
      lookup_edge (_should_do_quality_scoring state)
        [("score", quality_scoring); ("skip", data_storage)]
  | quality_scoring => Some data_storage
  | data_storage => Some END
  | END => None
  end.

(** The entry point of the graph. *)
Definition entry_node (state : GraphState) : option Node :=
  lookup_edge (_route_entry state)
    [("transcription", transcription); ("content_safety", content_safety)].

(** [initial_state] of [CallCenterWorkflow.process] *)
Definition initial_state (input_type input_content : string) : GraphState :=
  {| input_type := input_type;
     input_content := input_content;
     transcript :=
       if bool_decide (input_type = "text") then Some input_content else None;
     call_data := None;
     summary := None;
     quality_score := None;
     storage_path := None;
     needs_manual_review := false;
     error := None;
     validation_failed := false;
     duplicate_detected := false;
     content_safety_passed := Some true;
     content_safety_details := NoDetails;
     processing_steps := [] |}.

(** [_content_safety_node] *)
Definition _content_safety_node (reply : Exc ModerationResult)
    (state : GraphState) : GraphState :=
  if Py.truthy (error state) then state
  else ContentSafetyAgent.process reply state.

End Workflow.

(** ** The analytics store (agents/data_storage_agent.py) *)

(** One reading of the clock: [strftime("%Y%m%d_%H%M%S")] and [isoformat()]
    of [datetime.now()]. The readings taken within one call of the agent are
    taken to be the same. *)
Record Clock := {
  stamp : string;
  iso : string
}.

(** The JSON file of one call, in the directory [calls]. *)
Inductive StoredRecord :=
  | CallRecord (id : option string) (timestamp : string)
      (manual_review : bool) (meta : CallMetadata) (conv : string)
      (turns : list ConversationTurn) (sum : option CallSummary)
      (score : option QualityScore)
  | FlaggedRecord (id : string) (timestamp : string)
      (categories : list string) (input : string) (transcript : string).

(** One entry of the list [calls] of [calls_database.json]. *)
Record IndexEntry := {
  entry_call_id : option string;
  entry_timestamp : string;
  entry_agent_name : option string;
  entry_overall_score : option Qc;
  entry_needs_manual_review : bool;
  entry_status : option string;
  entry_flagged_categories : option (list string)
}.

(** One row of [quality_scores.csv]. *)
Record ScoreRow := {
  row_timestamp : string;
  row_call_id : option string;
  row_agent_name : string;
  row_caller_name : string;
  row_call_duration : string;
  row_overall_score : Qc;
  row_tone_score : Qc;
  row_professionalism_score : Qc;
  row_resolution_score : Qc;
  row_response_score : Qc;
  row_feedback : string;
  row_strengths : string;
  row_areas_for_improvement : string
}.

(** One row of [agent_performance.csv]. *)
Record AgentPerformance := {
  perf_agent_name : string;
  total_calls : Z;
  average_overall_score : Qc;
  average_tone_score : Qc;
  average_professionalism_score : Qc;
  average_resolution_score : Qc;
  average_response_score : Qc;
  last_updated : string
}.

(** A field of the column [agent_name] as [pd.read_csv] gives it back: the
    text of the field, or, when pandas infers another type for it (a
    number, a missing value, a boolean), a value that is not a string;
    [written] is the text [to_csv] writes for that value. *)
Inductive Cell :=
  | Text (s : string)
  | Retyped (written : string).

(** The operations on the files of the store. *)
Inductive FileOp :=
  | WriteCallFile (name : string)
  | ReadIndex
  | WriteIndex
  | AppendScores
  | ReadPerformance
  | WritePerformance.

(** The files of the store. [journal] is not a file: it lists the write
    operations carried out so far, oldest first, so that their order can be
    stated. The numbers of a CSV file are taken to be read back as they
    were written; the names of the agents are read back as [pd.read_csv]
    types them (see [Cell]). *)
Record Storage := {
  calls_dir : gmap string StoredRecord;
  calls_db : list IndexEntry;
  scores_csv : list ScoreRow;
  agent_performance_csv : list AgentPerformance;
  journal : list FileOp
}.

Module DataStorage.

(** Code that works on the files: it returns a value or raises, and leaves
    the files as they were at that point. *)
Definition M (A : Type) : Type := Storage -> Exc A * Storage.

Definition ret {A} (a : A) : M A := fun s => (Ok a, s).

Definition bindM {A B} (m : M A) (k : A -> M B) : M B :=
  fun s =>
    match m s with
    | (Ok a, s') => k a s'
    | (Raise e, s') => (Raise e, s')
    end.

Notation "x <-- m ; k" := (bindM m (fun x => k))
  (at level 100, m at next level, right associativity).
Notation "m ;;; k" := (bindM m (fun _ => k))
  (at level 100, right associativity).

(** [try: m  except: handler] *)
Definition catch {A} (m : M A) (handler : M A) : M A :=
  fun s =>
    match m s with
    | (Ok a, s') => (Ok a, s')
    | (Raise _, s') => handler s'
    end.

Section WithFaults.

(** The file operations that raise ([OSError]) in this run. An operation
    that raises is taken to leave its file as it was. *)
Variable fails : FileOp -> bool.

(** [pd.read_csv] on the column [agent_name]: what a field is read as, given
    the fields of the whole column, from which pandas infers the type of
    the column. *)
Variable read_name : list string -> string -> Cell.

Definition io_error : string := "OSError".

(** The file [calls/<name>]. The name is taken to be a plain file name, so
    that the path lies in the directory of the calls: where the path leads
    when the identifier of the call holds a path separator is not
    modelled. *)
Definition write_call_file (name : string) (r : StoredRecord) : M unit :=
  fun s =>
    if fails (WriteCallFile name) then (Raise io_error, s)
    else (Ok (),
          {| calls_dir := <[name := r]> (calls_dir s);
             calls_db := calls_db s;
             scores_csv := scores_csv s;
             agent_performance_csv := agent_performance_csv s;
             journal := (journal s ++ [WriteCallFile name])%list |}).

Definition read_index : M (list IndexEntry) :=
  fun s => if fails ReadIndex then (Raise io_error, s) else (Ok (calls_db s), s).

Definition write_index (db : list IndexEntry) : M unit :=
  fun s =>
    if fails WriteIndex then (Raise io_error, s)
    else (Ok (),
          {| calls_dir := calls_dir s;
             calls_db := db;
             scores_csv := scores_csv s;
             agent_performance_csv := agent_performance_csv s;
             journal := (journal s ++ [WriteIndex])%list |}).

Definition append_scores (row : ScoreRow) : M unit :=
  fun s =>
    if fails AppendScores then (Raise io_error, s)
    else (Ok (),
          {| calls_dir := calls_dir s;
             calls_db := calls_db s;
             scores_csv := (scores_csv s ++ [row])%list;
             agent_performance_csv := agent_performance_csv s;
             journal := (journal s ++ [AppendScores])%list |}).

(** The table of aggregates in memory: each row with its name as it was
    read. The numbers of a row are taken to be read as they were written. *)
Definition Frame : Type := list (Cell * AgentPerformance).

(** [pd.read_csv(self.agent_performance_csv)] on the rows of the file. *)
Definition read_csv (rows : list AgentPerformance) : Frame :=
  let column := map perf_agent_name rows in
  map (fun row => (read_name column (perf_agent_name row), row)) rows.

(** What [to_csv] writes for a name. *)
Definition to_csv_name (c : Cell) : string :=
  match c with
  | Text s => s
  | Retyped written => written
  end.

Definition to_csv_row (r : Cell * AgentPerformance) : AgentPerformance :=
  {| perf_agent_name := to_csv_name (fst r);
     total_calls := total_calls (snd r);
     average_overall_score := average_overall_score (snd r);
     average_tone_score := average_tone_score (snd r);
     average_professionalism_score := average_professionalism_score (snd r);
     average_resolution_score := average_resolution_score (snd r);
     average_response_score := average_response_score (snd r);
     last_updated := last_updated (snd r) |}.

Definition read_performance : M Frame :=
  fun s =>
    if fails ReadPerformance then (Raise io_error, s)
    else (Ok (read_csv (agent_performance_csv s)), s).

(** [df.to_csv(self.agent_performance_csv, index=False)] *)
Definition write_performance (df : Frame) : M unit :=
  fun s =>
    if fails WritePerformance then (Raise io_error, s)
    else (Ok (),
          {| calls_dir := calls_dir s;
             calls_db := calls_db s;
             scores_csv := scores_csv s;
             agent_performance_csv := map to_csv_row df;
             journal := (journal s ++ [WritePerformance])%list |}).

(** [str(x)] for an optional string. *)
Definition str_opt (o : option string) : string := default "None" o.

(** [o or dflt] for an optional string. *)
Definition or_else (o : option string) (dflt : string) : string :=
  match o with
  | Some s => if Py.is_empty s then dflt else s
  | None => dflt
  end.

Definition _generate_call_id (now : Clock) : string := "CALL_" +:+ stamp now.

Definition _store_call_record (now : Clock) (call_data : CallData)
    (summary : option CallSummary) (quality_score : option QualityScore)
    (needs_manual_review : bool) : M unit :=
  let id := call_id (metadata call_data) in
  let record :=
    CallRecord id (iso now) needs_manual_review (metadata call_data)
      (conversation call_data) (conversation_turns call_data)
      summary quality_score in
  write_call_file (str_opt id +:+ ".json") record ;;;
  db <-- read_index ;
  write_index
    (db ++ [{| entry_call_id := id;
               entry_timestamp := iso now;
               entry_agent_name := agent_name (metadata call_data);
               entry_overall_score := overall_score <$> quality_score;
               entry_needs_manual_review := needs_manual_review;
               entry_status := None;
               entry_flagged_categories := None |}])%list.

(** [round(x, 2)], on the exact value of the number: to the nearest
    hundredth, a tie to the even one. A decimal fraction such as 2.675 that
    no binary float holds exactly is not the value of a float. *)
Definition round_half_even (q : Qc) : Z :=
  let f := Qfloor q in
  let r := (q - Q2Qc (inject_Z f))%Qc in
  if bool_decide (r < Q2Qc (1 # 2))%Qc then f
  else if bool_decide (Q2Qc (1 # 2) < r)%Qc then (f + 1)%Z
  else if Z.even f then f else (f + 1)%Z.

Definition round2 (q : Qc) : Qc :=
  Q2Qc (round_half_even (q * Q2Qc 100)%Qc # 100).

Definition join_or_empty (l : list string) : string :=
  match l with [] => "" | _ => Py.join " | " l end.

Definition _store_quality_score (now : Clock) (call_data : CallData)
    (quality_score : QualityScore) : M unit :=
  append_scores
    {| row_timestamp := iso now;
       row_call_id := call_id (metadata call_data);
       row_agent_name := or_else (agent_name (metadata call_data)) "Unknown";
       row_caller_name := or_else (caller_name (metadata call_data)) "Unknown";
       row_call_duration := or_else (call_duration (metadata call_data)) "N/A";
       row_overall_score := round2 (overall_score quality_score);
       row_tone_score := round2 (tone_score quality_score);
       row_professionalism_score := round2 (professionalism_score quality_score);
       row_resolution_score := round2 (resolution_score quality_score);
       row_response_score := round2 (response_time_score quality_score);
       row_feedback := Py.take 200 (feedback quality_score);
       row_strengths := join_or_empty (strengths quality_score);
       row_areas_for_improvement :=
         join_or_empty (areas_for_improvement quality_score) |}.

(** The running average of one column: [(old * count + value) / (count + 1)]. *)
Definition running_average (old : Qc) (current_calls : Z) (value : Qc) : Qc :=
  ((old * Q2Qc (inject_Z current_calls) + value)
   / Q2Qc (inject_Z (current_calls + 1)))%Qc.

(** [cell == agent_name]: only a string is equal to the name of an agent. *)
Definition is_name (agent_name : string) (c : Cell) : bool :=
  match c with
  | Text s => bool_decide (s = agent_name)
  | Retyped _ => false
  end.

(** [df.loc[mask, ...] = ...] on one row: a row of the agent takes the new
    averages and count, any other row is kept. *)
Definition update_row (agent_name : string) (current_calls : Z)
    (quality_score : QualityScore) (now : Clock) (r : Cell * AgentPerformance)
  : Cell * AgentPerformance :=
  let row := snd r in
  if is_name agent_name (fst r) then
    (fst r,
     {| perf_agent_name := perf_agent_name row;
        total_calls := current_calls + 1;
        average_overall_score :=
          running_average (average_overall_score row) current_calls
            (overall_score quality_score);
        average_tone_score :=
          running_average (average_tone_score row) current_calls
            (tone_score quality_score);
        average_professionalism_score :=
          running_average (average_professionalism_score row) current_calls
            (professionalism_score quality_score);
        average_resolution_score :=
          running_average (average_resolution_score row) current_calls
            (resolution_score quality_score);
        average_response_score :=
          running_average (average_response_score row) current_calls
            (response_time_score quality_score);
        last_updated := iso now |})
  else r.

(** [df.loc[mask, 'total_calls'].values[0]]: the count of the first row of
    the agent; nothing when [agent_name in df['agent_name'].values] is
    false. *)
Fixpoint first_total_calls (agent_name : string) (df : Frame) : option Z :=
  match df with
  | [] => None
  | r :: df' =>
      if is_name agent_name (fst r) then Some (total_calls (snd r))
      else first_total_calls agent_name df'
  end.

(** The part "Calculate new metrics" of [_update_agent_performance]: the
    table to write, from the table read. *)
Definition updated_performance (agent_name : string)
    (quality_score : QualityScore) (now : Clock) (df : Frame) : Frame :=
  match first_total_calls agent_name df with
  | Some current_calls =>
      map (update_row agent_name current_calls quality_score now) df
  | None =>
      (df ++ [(Text agent_name,
               {| perf_agent_name := agent_name;
                  total_calls := 1;
                  average_overall_score := overall_score quality_score;
                  average_tone_score := tone_score quality_score;
                  average_professionalism_score :=
                    professionalism_score quality_score;
                  average_resolution_score := resolution_score quality_score;
                  average_response_score := response_time_score quality_score;
                  last_updated := iso now |})])%list
  end.

Definition performance_key (call_data : CallData) : string :=
  or_else (agent_name (metadata call_data)) "Unknown".

Definition _update_agent_performance (now : Clock) (call_data : CallData)
    (quality_score : QualityScore) : M unit :=
  df <-- catch read_performance (ret []) ;
  write_performance
    (updated_performance (performance_key call_data) quality_score now df).

(** [content_safety_details.get("flagged_categories", [])] *)
Definition details_flagged_categories (d : SafetyDetails) : list string :=
  match d with
  | Results r => flagged_categories r
  | _ => []
  end.

Definition _store_flagged_content (now : Clock) (state : GraphState)
  : M GraphState :=
  let transcript := default "" (transcript state) in
  let cats := details_flagged_categories (content_safety_details state) in
  let call_id := "FLAGGED_" +:+ stamp now in
  write_call_file (call_id +:+ ".json")
    (FlaggedRecord call_id (iso now) cats (input_type state) transcript) ;;;
  db <-- read_index ;
  write_index
    (db ++ [{| entry_call_id := Some call_id;
               entry_timestamp := iso now;
               entry_agent_name := None;
               entry_overall_score := None;
               entry_needs_manual_review := true;
               entry_status := Some "FLAGGED_FOR_REVIEW";
               entry_flagged_categories := Some cats |}])%list ;;;
  ret (set_processing_steps
         ["Data Storage: Flagged content stored as " +:+ call_id;
          "Reason: " +:+ Py.join ", " cats;
          "Status: Awaiting manual review"]
         (set_storage_path (Some "data_storage_call_center") state)).

(** [call_data.metadata.call_id = self._generate_call_id()], when the call
    has no identifier. *)
Definition ensure_call_id (now : Clock) (call_data : CallData) : CallData :=
  if Py.truthy (call_id (metadata call_data)) then call_data
  else
    {| metadata :=
         {| call_id := Some (_generate_call_id now);
            caller_name := caller_name (metadata call_data);
            agent_name := agent_name (metadata call_data);
            call_duration := call_duration (metadata call_data);
            date_time := date_time (metadata call_data) |};
       conversation := conversation call_data;
       conversation_turns := conversation_turns call_data |}.

(** [agent_name and agent_name.strip()] *)
Definition has_agent_name (call_data : CallData) : bool :=
  match agent_name (metadata call_data) with
  | Some a => negb (Py.is_empty a) && negb (Py.is_empty (Py.strip a))
  | None => false
  end.

(** The writes of [process] for a call that has its data, after the
    identifier is set. *)
Definition store_call (now : Clock) (call_data : CallData)
    (summary : option CallSummary) (quality_score : option QualityScore)
    (needs_manual_review : bool) : M unit :=
  _store_call_record now call_data summary quality_score
    (if has_agent_name call_data then needs_manual_review else true) ;;;
  match quality_score with
  | Some qs =>
      if has_agent_name call_data then
        (_store_quality_score now call_data qs ;;;
         _update_agent_performance now call_data qs)
      else ret ()
  | None => ret ()
  end.

Definition storage_message (call_data : CallData) (needs_manual_review : bool)
  : string :=
  let id := str_opt (call_id (metadata call_data)) in
  if negb (has_agent_name call_data) then
    "Data Storage: Call " +:+ id
    +:+ " saved for manual review (no agent identified)"
  else if needs_manual_review then
    "Data Storage: Call " +:+ id
    +:+ " saved for manual review (scoring incomplete)"
  else "Data Storage: Call " +:+ id +:+ " stored successfully".

(** [DataStorageAgent.process]. The identifier is written into the call data
    the state holds, so the state keeps it also when a later write raises. *)
Definition process (now : Clock) (state : GraphState) (s : Storage)
  : GraphState * Storage :=
  if negb (default true (content_safety_passed state)) then
    match _store_flagged_content now state s with
    | (Ok state', s') => (state', s')
    | (Raise e, s') =>
        (set_error (Some ("Data Storage Agent error: " +:+ e)) state, s')
    end
  else
    match call_data state with
    | None =>
        (set_processing_steps ["Data Storage: Skipped - Missing call data"]
           state, s)
    | Some call_data0 =>
        let call_data := ensure_call_id now call_data0 in
        let state1 := set_call_data (Some call_data) state in
        match store_call now call_data (summary state) (quality_score state)
                (needs_manual_review state) s with
        | (Ok _, s') =>
            (set_processing_steps
               [storage_message call_data
                  (if has_agent_name call_data
                   then needs_manual_review state else true)]
               (set_storage_path (Some "data_storage_call_center") state1),
             s')
        | (Raise e, s') =>
            (set_error (Some ("Data Storage Agent error: " +:+ e)) state1, s')
        end
    end.

End WithFaults.


(** The identifier of a call is a plain file name: it holds no path
    separator and no drive separator. *)
Definition is_plain_name (id : string) : bool :=
  negb (Py.contains "/" id) && negb (Py.contains "\" id)
  && negb (Py.contains ":" id).

(** The table that [_update_agent_performance] writes for a call, from the
    rows of the file it reads. *)
Definition written_table (read_name : list string -> string -> Cell)
    (agent_name : string) (quality_score : QualityScore) (now : Clock)
    (rows : list AgentPerformance) : list AgentPerformance :=
  map to_csv_row
    (updated_performance agent_name quality_score now
       (read_csv read_name rows)).

End DataStorage.

(** ** Sample data

    Stand-ins for the library functions and replies, to run the definitions
    on examples. *)

Module Sample.

Definition sha256_hex (s : string) : string := "sha256(" +:+ s +:+ ")".

Definition utf8_encodable (_ : string) : bool := true.

Definition parse_validation (content : string) : Exc ValidationAndMetadata :=
  if String.eqb content "valid" then
    Ok {| is_valid := true;
          validation_reason := "Dialogue between an agent and a caller";
          extracted_metadata :=
            Some {| call_id := None; caller_name := Some "Sam";
                    agent_name := Some "Dana"; call_duration := None;
                    date_time := None |} |}
  else Raise "OutputParserException".

Definition json_loads (content : string) : Exc Json :=
  if String.eqb content "{}" then Ok (JObj [])
  else if String.eqb content "[]" then Ok (JList [])
  else Raise "JSONDecodeError".

Definition pydantic_str (v : Json) : Exc string :=
  match v with
  | JStr s => Ok s
  | _ => Raise "ValidationError"
  end.

Definition dialogue : string :=
  "Agent: Thank you for calling support, how can I help you today? Caller: Hi, my internet connection has been dropping every evening since last week.".

(** The same dialogue with other casing and spacing. *)
Definition dialogue_again : string :=
  "  AGENT: Thank you for calling support,  how can I help you today?   Caller: hi, my Internet connection has been dropping every evening since last week. ".

(** The model accepts the transcript, and fails on the request for turns. *)
Definition replies : LlmReplies :=
  {| validation_reply := Ok "valid";
     conversation_reply := Raise "Request timed out" |}.

Definition process : LlmReplies -> list string -> GraphState
                     -> GraphState * list string :=
  Intake.process sha256_hex utf8_encodable parse_validation json_loads
    pydantic_str.

Definition submit_all : list string -> list (LlmReplies * GraphState)
                        -> list string :=
  Intake.submit_all sha256_hex utf8_encodable parse_validation json_loads
    pydantic_str.

End Sample.



Module SampleStore.

Definition call (agent : option string) : CallData :=
  {| metadata :=
       {| call_id := None; caller_name := Some "Sam"; agent_name := agent;
          call_duration := None; date_time := None |};
     conversation := Sample.dialogue;
     conversation_turns := [] |}.

Definition score (o t p r s : Q) : QualityScore :=
  {| overall_score := Q2Qc o; tone_score := Q2Qc t;
     professionalism_score := Q2Qc p; resolution_score := Q2Qc r;
     response_time_score := Q2Qc s; feedback := "Clear and polite";
     strengths := ["Empathy"]; areas_for_improvement := [] |}.

Definition noon : Clock :=
  {| stamp := "20240101_120000"; iso := "2024-01-01T12:00:00" |}.

Definition first_score : QualityScore := score 8 7 9 8 8.
Definition second_score : QualityScore := score 6 8 5 6 5.

Definition one_pm : Clock :=
  {| stamp := "20240101_130000"; iso := "2024-01-01T13:00:00" |}.

(** A stand-in for the reader of pandas, for the sample names: a column
    whose fields all are "1234" is read as a column of integers, any other
    column of the samples as text. *)
Definition read_name (column : list string) (field : string) : Cell :=
  if forallb (String.eqb "1234") column then Retyped field else Text field.

Definition empty_store : Storage :=
  {| calls_dir := ∅; calls_db := []; scores_csv := [];
     agent_performance_csv := []; journal := [] |}.

(** The index and the files of the aggregates cannot be used; the files of
    the calls can. *)
Definition index_fails (op : FileOp) : bool :=
  match op with
  | WriteCallFile _ => false
  | _ => true
  end.

(** A state that reaches the storage with a scored call of agent Dana. *)
Definition scored_state : GraphState :=
  set_quality_score (Some first_score)
    (set_call_data (Some (call (Some "Dana")))
       (Workflow.initial_state "text" Sample.dialogue)).

(** A state that reaches the storage with a call of the agent [agent] and
    the score [quality_score]. *)
Definition scored_call (agent : string) (quality_score : QualityScore)
  : GraphState :=
  set_quality_score (Some quality_score)
    (set_call_data (Some (call (Some agent)))
       (Workflow.initial_state "text" Sample.dialogue)).

End SampleStore.


(** ** The checks of pre-validation, as the specification lists them

    The specification names the checks and their thresholds; it does not
    list the speaker labels and the music markers that are recognized, nor
    say which characters are special. They are fixed here, on their own:
    the labels and markers as lists, the special characters as those that
    are neither letters, numerals nor white space, by the Unicode category
    of each code point of the alphabet. Ratios are compared by
    cross-multiplication on whole numbers. *)

Module PreValidationSpec.

Definition in_range (lo hi : nat) (c : ascii) : bool :=
  (lo <=? nat_of_ascii c)%nat && (nat_of_ascii c <=? hi)%nat.

Definition one_of (codes : list nat) (c : ascii) : bool :=
  existsb (Nat.eqb (nat_of_ascii c)) codes.

(** Categories L*: the Latin letters, the ordinal indicators, the micro
    sign, and the accented letters without the multiplication and division
    signs. *)
Definition letter (c : ascii) : bool :=
  in_range 65 90 c || in_range 97 122 c || one_of [170; 181; 186]%nat c
  || in_range 192 214 c || in_range 216 246 c || in_range 248 255 c.

(** Categories N*: the digits, the superscript digits and the fractions. *)
Definition numeral (c : ascii) : bool :=
  in_range 48 57 c || one_of [178; 179; 185; 188; 189; 190]%nat c.

(** Tab to carriage return, the four separators, space, next line and
    no-break space. *)
Definition white_space (c : ascii) : bool :=
  in_range 9 13 c || in_range 28 32 c || one_of [133; 160]%nat c.

Definition special (c : ascii) : bool :=
  negb (letter c || numeral c || white_space c).

Definition terminator (c : ascii) : bool :=
  one_of [46; 33; 63]%nat c.

(** The speaker labels that are recognized, in lower case. *)
Definition speaker_labels : list string :=
  ["agent:"; "caller:"; "customer:"; "representative:"; "client:";
   "support:"; "service:"; "operator:"; "rep:"; "csr:";
   "agent -"; "caller -"; "customer -"].

(** The markers of music and lyrics, in lower case. *)
Definition music_markers : list string :=
  ["[music playing]"; "[instrumental]"; "lyrics:"; "verse:"; "chorus:";
   "song:"; "album:"; "artist:"].

(** The text, trimmed and in lower case, has one of the phrases. *)
Definition mentions (phrases : list string) (text : string) : bool :=
  existsb (fun phrase => Py.contains phrase (Py.lower (Py.strip text)))
    phrases.

(** The number of the characters of the text that are in the class. *)
Definition number_of (class : ascii -> bool) (text : string) : nat :=
  List.length (List.filter class (list_ascii_of_string text)).

(** The words of the text: its runs of characters that are not white
    space. *)
Definition words (text : string) : list string := Py.split (Py.strip text).

Section Checks.

Variable utf8_encodable : string -> bool.

(** A check gives the reason of its rejection, or nothing. *)
Definition check : Type := string -> option string.

(** Length bounds: fewer than 50 or more than 100,000 characters, of the
    trimmed text. *)
Definition length_bounds : check := fun text =>
  let n := Z.of_nat (String.length (Py.strip text)) in
  if (n <? 50)%Z then Some "Transcript too short (minimum 50 characters)"
  else if (100000 <? n)%Z then
    Some ("Transcript too long (" +:+ Py.format_thousands n
          +:+ " characters). Maximum 100,000 characters allowed.")
  else None.

(** A speaker label, or at least three sentence terminators. *)
Definition dialogue : check := fun text =>
  if mentions speaker_labels text || (3 <=? number_of terminator text)%nat
  then None
  else Some "Does not appear to be a conversation transcript (no speaker labels or dialogue detected)".

(** The blacklist of music and lyric markers. *)
Definition music_blacklist : check := fun text =>
  if mentions music_markers text
  then Some "Appears to be music or lyrics, not a call center conversation"
  else None.

(** More than 30% of the characters are special. *)
Definition special_density : check := fun text =>
  if (3 * String.length text <? 10 * number_of special text)%nat
  then Some "Transcript contains excessive special characters or appears to be gibberish"
  else None.

(** At least 20 words. *)
Definition min_word_count : check := fun text =>
  let n := List.length (words text) in
  if (n <? 20)%nat then
    Some ("Transcript too short (" +:+ Py.str_Z (Z.of_nat n)
          +:+ " words). Minimum 20 words required.")
  else None.

(** Over inputs of more than 10 words: fewer than 30% of the words are
    distinct. *)
Definition unique_word_ratio : check := fun text =>
  let total := List.length (words text) in
  let distinct := List.length (remove_dups (words text)) in
  if (10 <? total)%nat && (10 * distinct <? 3 * total)%nat
  then Some "Transcript appears to be repetitive or spam"
  else None.

(** The text can be encoded. *)
Definition encoding : check := fun text =>
  if utf8_encodable text then None
  else Some "Transcript contains invalid characters or encoding issues".

(** The checks, in their order. *)
Definition checks : list check :=
  [length_bounds; dialogue; music_blacklist; special_density; min_word_count;
   unique_word_ratio; encoding].

(** The reason of the first check that fails, nothing when all pass. *)
Fixpoint first_failure (cs : list check) (text : string) : option string :=
  match cs with
  | [] => None
  | c :: cs' =>
      match c text with
      | Some reason => Some reason
      | None => first_failure cs' text
      end
  end.

Definition preValidate (text : string) : option string :=
  first_failure checks text.

End Checks.

End PreValidationSpec.

(** * The rest of the agents *)

(** [state["summary"] = v] *)
Definition set_summary (v : option CallSummary) (st : GraphState) : GraphState :=
  {| input_type := input_type st;
     input_content := input_content st;
     transcript := transcript st;
     call_data := call_data st;
     summary := v;
     quality_score := quality_score st;
     storage_path := storage_path st;
     needs_manual_review := needs_manual_review st;
     error := error st;
     validation_failed := validation_failed st;
     duplicate_detected := duplicate_detected st;
     content_safety_passed := content_safety_passed st;
     content_safety_details := content_safety_details st;
     processing_steps := processing_steps st |}.

(** ** Transcription (agents/transcription_agent.py) *)

Module Transcription.

(** [Config.SUPPORTED_AUDIO_FORMATS] *)
Definition SUPPORTED_AUDIO_FORMATS : list string :=
  [".wav"; ".mp3"; ".m4a"; ".flac"; ".ogg"].

Section WithFiles.

(** [os.path.exists] *)
Variable path_exists : string -> bool.
(** [os.path.splitext(path)[1]] *)
Variable splitext_ext : string -> string.

(** [_transcribe_audio]. [reply] is what opening the file and the
    speech-to-text request give: the text, or the exception raised. *)
Definition _transcribe_audio (reply : Exc string) : Exc string :=
  match reply with
  | Ok transcript => Ok transcript
  | Raise e => Raise ("Failed to transcribe audio: " +:+ e)
  end.

(** [TranscriptionAgent.process] *)
Definition process (reply : Exc string) (state : GraphState) : GraphState :=
  let audio_file_path := input_content state in
  if Py.is_empty audio_file_path then
    set_error (Some "No audio file path provided") state
  else if negb (path_exists audio_file_path) then
    set_error (Some ("Audio file not found: " +:+ audio_file_path)) state
  else
    let file_ext := Py.lower (splitext_ext audio_file_path) in
    if negb (bool_decide (file_ext ∈ SUPPORTED_AUDIO_FORMATS)) then
      set_error (Some ("Unsupported audio format: " +:+ file_ext)) state
    else
      match _transcribe_audio reply with
      | Ok transcription =>
          set_processing_steps ["Transcription: Audio converted to text"]
            (set_transcript (Some transcription) state)
      | Raise e =>
          set_error (Some ("Transcription Agent error: " +:+ e)) state
      end.

End WithFiles.

End Transcription.

(** ** Summarization (agents/summarization_agent.py) *)

Module Summarization.

Inductive section := Summary | KeyPoints | Issue | Resolution | ActionItems.

(** The variables of the loop of [_create_fallback_summary]. *)
Record Draft := {
  draft_brief_summary : string;
  draft_key_points : list string;
  draft_customer_issue : option string;
  draft_resolution : option string;
  draft_action_items : list string;
  current_section : option section
}.

Definition empty_draft : Draft :=
  {| draft_brief_summary := ""; draft_key_points := [];
     draft_customer_issue := None; draft_resolution := None;
     draft_action_items := []; current_section := None |}.

Definition enter (sec : section) (d : Draft) : Draft :=
  {| draft_brief_summary := draft_brief_summary d;
     draft_key_points := draft_key_points d;
     draft_customer_issue := draft_customer_issue d;
     draft_resolution := draft_resolution d;
     draft_action_items := draft_action_items d;
     current_section := Some sec |}.

(** [line.startswith(('-', '•', '*', str))]: the tuple holds the type [str]
    after the three markers, so a line that starts with none of the markers
    makes [startswith] raise [TypeError]. *)
Definition starts_with_marker (line : string) : Exc bool :=
  if QualityScoring.is_bullet line then Ok true
  else Raise "tuple for startswith must only contain str, not type".

(** [line.lstrip('-•* 0123456789.')] *)
Definition item_text (line : string) : string :=
  Py.lstrip_chars
    ["-"%char; "*"%char; " "%char; "0"%char; "1"%char; "2"%char; "3"%char;
     "4"%char; "5"%char; "6"%char; "7"%char; "8"%char; "9"%char; "."%char]
    line.

(** The part "Add content to appropriate section" of the loop. *)
Definition add_content (d : Draft) (line : string) : Exc Draft :=
  match current_section d with
  | Some Summary =>
      if Py.is_empty (draft_brief_summary d) then
        Ok {| draft_brief_summary := line;
              draft_key_points := draft_key_points d;
              draft_customer_issue := draft_customer_issue d;
              draft_resolution := draft_resolution d;
              draft_action_items := draft_action_items d;
              current_section := current_section d |}
      else Ok d
  | Some KeyPoints =>
      b <-! starts_with_marker line;
      if b then
        Ok {| draft_brief_summary := draft_brief_summary d;
              draft_key_points := (draft_key_points d ++ [item_text line])%list;
              draft_customer_issue := draft_customer_issue d;
              draft_resolution := draft_resolution d;
              draft_action_items := draft_action_items d;
              current_section := current_section d |}
      else Ok d
  | Some Issue =>
      if negb (Py.truthy (draft_customer_issue d)) then
        Ok {| draft_brief_summary := draft_brief_summary d;
              draft_key_points := draft_key_points d;
              draft_customer_issue := Some line;
              draft_resolution := draft_resolution d;
              draft_action_items := draft_action_items d;
              current_section := current_section d |}
      else Ok d
  | Some Resolution =>
      if negb (Py.truthy (draft_resolution d)) then
        Ok {| draft_brief_summary := draft_brief_summary d;
              draft_key_points := draft_key_points d;
              draft_customer_issue := draft_customer_issue d;
              draft_resolution := Some line;
              draft_action_items := draft_action_items d;
              current_section := current_section d |}
      else Ok d
  | Some ActionItems =>
      b <-! starts_with_marker line;
      if b then
        Ok {| draft_brief_summary := draft_brief_summary d;
              draft_key_points := draft_key_points d;
              draft_customer_issue := draft_customer_issue d;
              draft_resolution := draft_resolution d;
              draft_action_items :=
                (draft_action_items d ++ [item_text line])%list;
              current_section := current_section d |}
      else Ok d
  | None => Ok d
  end.

(** One iteration of the loop over the lines. *)
Definition scan_line (d : Draft) (line0 : string) : Exc Draft :=
  let line := Py.strip line0 in
  let low := Py.lower line in
  if Py.is_empty line then Ok d
  else if Py.contains "brief summary" low || Py.contains "summary:" low then
    Ok (enter Summary d)
  else if Py.contains "key points" low then Ok (enter KeyPoints d)
  else if Py.contains "customer issue" low || Py.contains "main issue" low
  then Ok (enter Issue d)
  else if Py.contains "resolution" low || Py.contains "resolved" low then
    Ok (enter Resolution d)
  else if Py.contains "action items" low || Py.contains "follow-up" low then
    Ok (enter ActionItems d)
  else add_content d line.

Fixpoint scan_lines (d : Draft) (lines : list string) : Exc Draft :=
  match lines with
  | [] => Ok d
  | line :: lines' => d' <-! scan_line d line; scan_lines d' lines'
  end.

Definition _create_fallback_summary (raw_text : string) (call_data : CallData)
  : Exc CallSummary :=
  d <-! scan_lines empty_draft (Py.split_on Py.newline raw_text);
  Ok {| brief_summary :=
          if Py.is_empty (draft_brief_summary d) then
            "Call between "
            +:+ DataStorage.or_else (caller_name (metadata call_data)) "customer"
            +:+ " and "
            +:+ DataStorage.or_else (agent_name (metadata call_data)) "agent"
            +:+ "."
          else draft_brief_summary d;
        key_points :=
          QualityScoring.or_default (draft_key_points d)
            ["Call summary unavailable - structured data could not be extracted"];
        customer_issue := draft_customer_issue d;
        resolution := draft_resolution d;
        action_items := draft_action_items d |}.

Section WithParser.

(** [PydanticOutputParser(CallSummary).parse] *)
Variable parse_summary : string -> Exc CallSummary.

(** [_generate_summary]. [reply] is the reply of the language model. *)
Definition _generate_summary (reply : Exc string) (call_data : CallData)
  : Exc CallSummary :=
  content <-! reply;
  match parse_summary content with
  | Ok summary => Ok summary
  | Raise _ => _create_fallback_summary content call_data
  end.

(** [SummarizationAgent.process] *)
Definition process (reply : Exc string) (state : GraphState) : GraphState :=
  match call_data state with
  | None =>
      set_error (Some "No call data available for summarization") state
  | Some call_data =>
      match _generate_summary reply call_data with
      | Ok summary =>
          set_processing_steps ["Summarization: Call summary generated"]
            (set_summary (Some summary) state)
      | Raise e =>
          set_error (Some ("Summarization Agent error: " +:+ e)) state
      end
  end.

End WithParser.

End Summarization.

(** ** The quality scoring agent (agents/quality_scoring_agent.py) *)

Module QualityAgent.

Section WithParser.

(** [PydanticOutputParser(QualityScore).parse] *)
Variable parse_quality : string -> Exc QualityScore.

(** [_evaluate_quality]. [reply] is the reply of the language model: an
    exception of the request is not caught here. *)
Definition _evaluate_quality (reply : Exc string) : Exc (option QualityScore) :=
  content <-! reply;
  match parse_quality content with
  | Ok quality_score => Ok (Some quality_score)
  | Raise _ => Ok (QualityScoring._create_fallback_score content)
  end.

Definition manual_review (step : string) (state : GraphState) : GraphState :=
  set_processing_steps [step]
    (set_needs_manual_review true (set_quality_score None state)).

(** [QualityScoringAgent.process] *)
Definition process (reply : Exc string) (state : GraphState) : GraphState :=
  match call_data state with
  | None =>
      set_error (Some "No call data available for quality scoring") state
  | Some _ =>
      match _evaluate_quality reply with
      | Ok (Some quality_score) =>
          set_processing_steps ["Quality Scoring: Call quality evaluated"]
            (set_quality_score (Some quality_score) state)
      | Ok None =>
          manual_review
            " Quality Scoring: Failed - Unable to extract scores from LLM response. Call saved for manual review."
            state
      | Raise e =>
          manual_review
            ("Quality Scoring: Error - " +:+ e
             +:+ ". Call saved for manual review.")
            state
      end
  end.

End WithParser.

End QualityAgent.

(** ** The nodes of the graph (agents/workflow.py) *)

Module Nodes.

(** A node leaves the state and the files as they are when an error is set,
    and runs its agent otherwise. *)

Definition _transcription_node (path_exists : string -> bool)
    (splitext_ext : string -> string) (reply : Exc string)
    (state : GraphState) : GraphState :=
  if Py.truthy (error state) then state
  else Transcription.process path_exists splitext_ext reply state.

Definition _call_intake_node (sha256_hex : string -> string)
    (utf8_encodable : string -> bool)
    (parse_validation : string -> Exc ValidationAndMetadata)
    (json_loads : string -> Exc Json) (pydantic_str : Json -> Exc string)
    (replies : LlmReplies) (hashes : list string) (state : GraphState)
  : GraphState * list string :=
  if Py.truthy (error state) then (state, hashes)
  else Intake.process sha256_hex utf8_encodable parse_validation json_loads
         pydantic_str replies hashes state.

Definition _summarization_node (parse_summary : string -> Exc CallSummary)
    (reply : Exc string) (state : GraphState) : GraphState :=
  if Py.truthy (error state) then state
  else Summarization.process parse_summary reply state.

Definition _quality_scoring_node (parse_quality : string -> Exc QualityScore)
    (reply : Exc string) (state : GraphState) : GraphState :=
  if Py.truthy (error state) then state
  else QualityAgent.process parse_quality reply state.

Definition _data_storage_node (fails : FileOp -> bool)
    (read_name : list string -> string -> Cell) (now : Clock)
    (state : GraphState) (s : Storage) : GraphState * Storage :=
  if Py.truthy (error state) then (state, s)
  else DataStorage.process fails read_name now state s.

(** The place of a node in the graph: every edge goes to a later place. *)
Definition rank (n : Workflow.Node) : nat :=
  match n with
  | Workflow.transcription => 0
  | Workflow.content_safety => 1
  | Workflow.call_intake => 2
  | Workflow.summarization => 3
  | Workflow.quality_scoring => 4
  | Workflow.data_storage => 5
  | Workflow.END => 6
  end.

(** The nodes a run goes through from [n], when [states] are the states in
    which the successive nodes end. *)
Fixpoint walk (n : Workflow.Node) (states : list GraphState)
  : list Workflow.Node :=
  match states with
  | [] => [n]
  | state :: states' =>
      match Workflow.next_node n state with
      | Some m => n :: walk m states'
      | None => [n]
      end
  end.

End Nodes.

(** ** Reports of the store (agents/data_storage_agent.py) *)

Module Reports.

(** [_get_performance_rating] *)
Definition _get_performance_rating (avg_score : Qc) : string :=
  if bool_decide (Q2Qc 9 <= avg_score)%Qc then "Outstanding"
  else if bool_decide (Q2Qc 8 <= avg_score)%Qc then "Excellent"
  else if bool_decide (Q2Qc 7 <= avg_score)%Qc then "Good"
  else if bool_decide (Q2Qc 6 <= avg_score)%Qc then "Satisfactory"
  else if bool_decide (Q2Qc 5 <= avg_score)%Qc then "Needs Improvement"
  else "Unsatisfactory".

(** The ratings, from the lowest to the highest. *)
Definition rating_level (rating : string) : nat :=
  if String.eqb rating "Outstanding" then 5
  else if String.eqb rating "Excellent" then 4
  else if String.eqb rating "Good" then 3
  else if String.eqb rating "Satisfactory" then 2
  else if String.eqb rating "Needs Improvement" then 1
  else 0.

(** [_calculate_trend], on the values of the series. *)
Definition _calculate_trend (scores : list Qc) : string :=
  if (List.length scores <? 2)%nat then "insufficient_data"
  else
    let mid := (List.length scores / 2)%nat in
    let first_half := QualityScoring.mean (take mid scores) in
    let second_half := QualityScoring.mean (drop mid scores) in
    let diff := (second_half - first_half)%Qc in
    if bool_decide (Q2Qc (1 # 2) < diff)%Qc then "improving"
    else if bool_decide (diff < - Q2Qc (1 # 2))%Qc then "declining"
    else "stable".

(** [a < b] on strings: by code points, a proper prefix first. *)
Fixpoint str_ltb (a b : string) : bool :=
  match a, b with
  | _, EmptyString => false
  | EmptyString, String _ _ => true
  | String c a', String d b' =>
      if (Py.code c <? Py.code d)%nat then true
      else if (Py.code d <? Py.code c)%nat then false
      else str_ltb a' b'
  end.

(** [x.get("timestamp", "")] *)
Definition record_timestamp (r : StoredRecord) : string :=
  match r with
  | CallRecord _ timestamp _ _ _ _ _ _ => timestamp
  | FlaggedRecord _ timestamp _ _ _ => timestamp
  end.

(** [l.sort(key=..., reverse=True)]: the greatest timestamp first, records
    of equal timestamps in the order they had. *)
Fixpoint insert_desc (x : StoredRecord) (l : list StoredRecord)
  : list StoredRecord :=
  match l with
  | [] => [x]
  | y :: l' =>
      if str_ltb (record_timestamp x) (record_timestamp y)
      then y :: insert_desc x l'
      else x :: l
  end.

Definition sort_desc (l : list StoredRecord) : list StoredRecord :=
  foldr insert_desc [] l.

(** [get_manual_review_calls]; reading the files is taken to succeed. *)
Definition get_manual_review_calls (s : Storage) : list StoredRecord :=
  let manual_review_calls :=
    List.filter entry_needs_manual_review (calls_db s) in
  let detailed_calls :=
    omap (fun call_summary =>
            calls_dir s
              !! (DataStorage.str_opt (entry_call_id call_summary) +:+ ".json"))
      manual_review_calls in
  sort_desc detailed_calls.

End Reports.

(** ** The input check of the intake (agents/call_intake_agent.py) *)

Module IntakeInput.

(** [validate_input] *)
Definition validate_input (text : string) : bool * option string :=
  if Py.is_empty text || (Py.len (Py.strip text) <? 10)%Z then
    (false, Some "Input text is too short or empty")
  else (true, None).

End IntakeInput.


(** ** Character predicates on strings *)

Module PyChars.

(** Every character of [s] satisfies [p]. *)
Fixpoint all_chars (p : ascii -> bool) (s : string) : bool :=
  match s with
  | EmptyString => true
  | String c s' => p c && all_chars p s'
  end.

(** A word: not empty, and without whitespace. *)
Definition is_word (w : string) : bool :=
  negb (Py.is_empty w) && all_chars (fun c => negb (Py.isspace c)) w.

End PyChars.


(** ** More sample data *)

Module SampleRun.

(** A parser of scores that understands nothing. *)
Definition parse_quality (_ : string) : Exc QualityScore :=
  Raise "OutputParserException".

(** A parser of summaries that understands nothing. *)
Definition parse_summary (_ : string) : Exc CallSummary :=
  Raise "OutputParserException".

(** A state that reaches the scoring with the call of agent Dana. *)
Definition summarized_state : GraphState :=
  set_call_data (Some (SampleStore.call (Some "Dana")))
    (Workflow.initial_state "text" Sample.dialogue).

(** A state that reaches the storage with a call of no known agent. *)
Definition anonymous_state : GraphState :=
  set_quality_score (Some SampleStore.first_score)
    (set_call_data (Some (SampleStore.call None))
       (Workflow.initial_state "text" Sample.dialogue)).

Definition no_fault (_ : FileOp) : bool := false.

(** A result of the moderation service with one category flagged. *)
Definition flagged_result : ModerationResult :=
  {| flagged := true;
     categories := [("harassment", true); ("violence", false)];
     category_scores :=
       [("harassment", Q2Qc (9 # 10)); ("violence", Q2Qc (1 # 100))] |}.

Definition path_exists (path : string) : bool :=
  String.eqb path "call.wav" || String.eqb path "notes.txt".

(** The extension of a file name without directories: what follows the last
    dot, with the dot. *)
Fixpoint splitext_ext (path : string) : string :=
  match path with
  | EmptyString => EmptyString
  | String c path' =>
      if bool_decide (c = "."%char) && negb (Py.contains "." path')
      then path else splitext_ext path'
  end.

End SampleRun.


(** ** Order of the review list *)

Module ReviewOrder.

(** No record comes before a record of a greater timestamp. *)
Fixpoint newest_first (l : list StoredRecord) : Prop :=
  match l with
  | [] => True
  | x :: l' =>
      Forall (fun y =>
                Reports.str_ltb (Reports.record_timestamp x)
                  (Reports.record_timestamp y) = false) l'
      /\ newest_first l'
  end.

(** The file of an entry of the index. *)
Definition file_of (e : IndexEntry) : string :=
  DataStorage.str_opt (entry_call_id e) +:+ ".json".

End ReviewOrder.


(** ** A store whose table of aggregates cannot be read *)

Module SampleFaults.

Definition performance_unreadable (op : FileOp) : bool :=
  match op with
  | ReadPerformance => true
  | _ => false
  end.

(** A store that holds the aggregates of agent Eli. *)
Definition store_with_eli : Storage :=
  {| calls_dir := ∅; calls_db := []; scores_csv := [];
     agent_performance_csv :=
       DataStorage.written_table SampleStore.read_name "Eli"
         SampleStore.second_score SampleStore.noon [];
     journal := [] |}.

End SampleFaults.


(** ** A reply with a plain line under the key points *)

Module SampleReply.

Definition plain_key_point : string :=
  "Key points:" +:+ String Py.newline "The customer asked for a refund".

End SampleReply.


(** ** The output asked of the turn extraction

    The request of [_extract_conversation] asks for a JSON object with
    "conversation", the full conversation text, and "turns", an array of
    objects with a "speaker" and a "text". *)

Module ExtractionSpec.

Definition is_text (v : Json) : bool :=
  match v with JStr _ => true | _ => false end.

Definition is_turn (v : Json) : bool :=
  match v with
  | JObj items =>
      match PyJson.assoc "speaker" items, PyJson.assoc "text" items with
      | Some sp, Some tx => is_text sp && is_text tx
      | _, _ => false
      end
  | _ => false
  end.

Definition well_formed_output (v : Json) : bool :=
  match v with
  | JObj items =>
      match PyJson.assoc "conversation" items, PyJson.assoc "turns" items with
      | Some conversation, Some (JList turns) =>
          is_text conversation && forallb is_turn turns
      | _, _ => false
      end
  | _ => false
  end.

End ExtractionSpec.

(** ** A reply of the turn extraction without conversation text *)

Module SampleJson.

Definition quote : string := String (ascii_of_nat 34) "".

(** The text of the object with a null conversation and no turns. *)
Definition null_conversation : string :=
  "{" +:+ quote +:+ "conversation" +:+ quote +:+ ": null, "
  +:+ quote +:+ "turns" +:+ quote +:+ ": []}".

(** A stand-in for [json.loads] that also reads this text. *)
Definition json_loads (content : string) : Exc Json :=
  if String.eqb content null_conversation then
    Ok (JObj [("conversation", JNull); ("turns", JList [])])
  else Sample.json_loads content.

(** The model accepts the transcript and answers the request for turns with
    the text above. *)
Definition replies : LlmReplies :=
  {| validation_reply := Ok "valid";
     conversation_reply := Ok null_conversation |}.

End SampleJson.


(** * Properties *)

(** ** Routing *)

(** C2: after the Summarize stage the orchestrator goes to quality scoring
    exactly when the state holds call data, whatever the agent name in it,
    and goes straight to storage exactly when call data is absent. *)
Theorem summarize_routes_on_call_data (state : GraphState) :
  (Workflow.next_node Workflow.summarization state
   = Some Workflow.quality_scoring <-> is_Some (call_data state))
  /\ (Workflow.next_node Workflow.summarization state
      = Some Workflow.data_storage <-> call_data state = None)
  /\ (forall cd : CallData,
        Workflow.next_node Workflow.summarization
          (set_call_data (Some cd) state)
        = Some Workflow.quality_scoring).
Proof.
  unfold Workflow.next_node, Workflow._should_do_quality_scoring.
  split; [|split].
  - destruct (call_data state) as [cd|]; simpl; split; intros H.
    + eauto.
    + reflexivity.
    + discriminate.
    + destruct H; discriminate.
  - destruct (call_data state) as [cd|]; simpl; split; intros H;
      try discriminate; reflexivity.
  - intros cd. reflexivity.
Qed.

(** C6: after the safety check the orchestrator stores the flagged content
    exactly when the check did not pass, also when an error is set; it ends
    exactly when the check passed and an error is set; otherwise it goes on
    to the intake. *)
Theorem safety_check_routing (state : GraphState) :
  let safe := default true (content_safety_passed state) in
  let failed := Py.truthy (error state) in
  (Workflow.next_node Workflow.content_safety state
   = Some Workflow.data_storage <-> safe = false)
  /\ (Workflow.next_node Workflow.content_safety state = Some Workflow.END
      <-> safe = true /\ failed = true)
  /\ (Workflow.next_node Workflow.content_safety state
      = Some Workflow.call_intake <-> safe = true /\ failed = false).
Proof.
  unfold Workflow.next_node, Workflow._should_continue_after_safety_check.
  destruct (default true (content_safety_passed state));
    destruct (Py.truthy (error state)); simpl;
    repeat split; intros; try discriminate; try tauto;
    match goal with H : _ /\ _ |- _ => destruct H; discriminate end.
Qed.

(** ** The fallback score parser *)

Lemma Qc_nat_nonzero (n : nat) :
  n <> 0%nat -> Q2Qc (inject_Z (Z.of_nat n)) <> Q2Qc 0.
Proof.
  intros Hn E. apply Q2Qc_eq_iff in E.
  unfold Qeq in E. simpl in E. lia.
Qed.

Lemma mean_times_length (l : list Qc) :
  l <> [] ->
  (QualityScoring.mean l * Q2Qc (inject_Z (Z.of_nat (List.length l))))%Qc
  = QualityScoring.sum_scores l.
Proof.
  intros Hl. unfold QualityScoring.mean. field.
  apply Qc_nat_nonzero. destruct l; [congruence | discriminate].
Qed.

Ltac split_searches raw :=
  unfold QualityScoring._create_fallback_score, QualityScoring.scan_scores,
    QualityScoring.record_match, QualityScoring.dimensions_found,
    QualityScoring.recovered_dimensions, QualityScoring.recovered_overall,
    QualityScoring.recovered in *;
  destruct (Re.search "tone" raw) as [g1|];
  destruct (Re.search "professionalism" raw) as [g2|];
  destruct (Re.search "resolution" raw) as [g3|];
  destruct (Re.search "response" raw) as [g4|];
  destruct (Re.search "overall" raw) as [g5|];
  destruct (QualityScoring.scan_lines raw)
    as [found_strengths found_improvements];
  cbn -[Re.float QualityScoring.mean] in *.

(** X27: the parser gives nothing exactly when none of the five labelled
    numbers is found in the text. *)
Lemma fallback_none_iff (raw : string) :
  QualityScoring._create_fallback_score raw = None
  <-> QualityScoring.dimensions_found raw = 0%nat
      /\ QualityScoring.recovered_overall raw = None.
Proof.
  split_searches raw; split; intros H; try discriminate;
    try (destruct H; discriminate); auto.
Qed.

(** C10, as amended: when the fallback parser returns a score and some but
    not all of the four dimensions were found in the text, each dimension
    field holds the value found, 0 when none was found; the overall score is
    the overall value found in the text when there is one, and otherwise the
    mean of the dimensions found only, so that it times the number of
    dimensions found is the sum of the four stored fields. *)
Theorem fallback_partial_score (raw : string) (q : QualityScore) :
  QualityScoring._create_fallback_score raw = Some q ->
  (0 < QualityScoring.dimensions_found raw < 4)%nat ->
  tone_score q
  = default (Q2Qc 0) (QualityScoring.recovered "tone" "tone" raw)
  /\ professionalism_score q
     = default (Q2Qc 0)
         (QualityScoring.recovered "professionalism" "professionalism" raw)
  /\ resolution_score q
     = default (Q2Qc 0)
         (QualityScoring.recovered "resolution" "resolution" raw)
  /\ response_time_score q
     = default (Q2Qc 0)
         (QualityScoring.recovered "response_time" "response" raw)
  /\ overall_score q
     = match QualityScoring.recovered_overall raw with
       | Some o => o
       | None =>
           QualityScoring.mean (omap id (QualityScoring.recovered_dimensions raw))
       end
  /\ (QualityScoring.recovered_overall raw = None ->
      (overall_score q
       * Q2Qc (inject_Z (Z.of_nat (QualityScoring.dimensions_found raw)))
       = tone_score q + professionalism_score q + resolution_score q
         + response_time_score q)%Qc).
Proof.
  intros H Hk.
  split_searches raw; try lia;
    injection H as <-; cbn -[Re.float QualityScoring.mean];
    repeat split; try reflexivity; try discriminate.
  all: intros _;
    match goal with
    | |- (QualityScoring.mean ?l * _ = _)%Qc =>
        let E := fresh "E" in
        pose proof (mean_times_length l ltac:(discriminate)) as E;
        cbn [List.length] in E; rewrite E
    end;
    cbn [QualityScoring.sum_scores foldr]; ring.
Qed.

(** C10, counterexample: the text gives the tone 8 and an overall score 3;
    one of four dimensions is found, and the overall score returned is 3,
    not the mean 8 of the dimensions found. *)
Lemma fallback_overall_not_mean_of_found :
  let raw := "Tone: 8" +:+ String Py.newline "Overall: 3" in
  exists q,
    QualityScoring._create_fallback_score raw = Some q
    /\ (0 < QualityScoring.dimensions_found raw < 4)%nat
    /\ overall_score q
       <> QualityScoring.mean
            (omap id (QualityScoring.recovered_dimensions raw)).
Proof.
  eexists. split; [vm_compute; reflexivity|].
  split; [vm_compute; lia|].
  intros E. apply (f_equal this) in E. vm_compute in E. discriminate.
Qed.

Lemma fallback_partial_score_witness :
  exists q,
    QualityScoring._create_fallback_score "Tone: 8" = Some q
    /\ overall_score q = Q2Qc 8
    /\ tone_score q = Q2Qc 8
    /\ professionalism_score q = Q2Qc 0
    /\ (Q2Qc 2 < overall_score q)%Qc
    /\ ((tone_score q + professionalism_score q + resolution_score q
         + response_time_score q) / Q2Qc 4 = Q2Qc 2)%Qc.
Proof.
  eexists. split; [vm_compute; reflexivity|].
  match goal with
  | |- context [overall_score ?q] =>
      destruct (fallback_partial_score "Tone: 8" q)
        as (Ht & Hp & _ & _ & Ho & _);
      [vm_compute; reflexivity | vm_compute; lia |]
  end.
  split; [rewrite Ho; apply Qc_is_canon; reflexivity|].
  split; [rewrite Ht; apply Qc_is_canon; reflexivity|].
  split; [rewrite Hp; apply Qc_is_canon; reflexivity|].
  split; [reflexivity|].
  apply Qc_is_canon; reflexivity.
Defined.

(** C1, on the text "Tone: 7": one dimension and no overall score are found
    in the text, and the fallback parser still returns a score, with the
    overall score 7 derived from the one dimension and 0 in the three
    dimensions not found. *)
Theorem fallback_one_dimension_returns_score :
  let raw := "Tone: 7" in
  QualityScoring.dimensions_found raw = 1%nat
  /\ QualityScoring.recovered_overall raw = None
  /\ exists q,
       QualityScoring._create_fallback_score raw = Some q
       /\ this (overall_score q) = 7%Q
       /\ this (tone_score q) = 7%Q
       /\ this (professionalism_score q) = 0%Q
       /\ this (resolution_score q) = 0%Q
       /\ this (response_time_score q) = 0%Q.
Proof.
  cbv zeta. split; [vm_compute; reflexivity|].
  split; [vm_compute; reflexivity|].
  eexists. split; [vm_compute; reflexivity|].
  repeat split.
Qed.

(** ** Content safety *)

(** X28: when the moderation service raises, the gate lets the transcript
    pass and the orchestrator goes on to the intake; the safety details are
    the default results, where the error does not appear. *)
Lemma moderation_failure_passes (e : string) (state : GraphState) :
  Py.truthy (error state) = false ->
  Py.truthy (transcript state) = true ->
  let state' := Workflow._content_safety_node (Raise e) state in
  content_safety_passed state' = Some true
  /\ error state' = error state
  /\ Workflow.next_node Workflow.content_safety state'
     = Some Workflow.call_intake
  /\ content_safety_details state'
     = Results {| passed := true; violations := []; warnings := [];
                  flagged_categories := [] |}.
Proof.
  intros Herr Htr. unfold Workflow._content_safety_node. rewrite Herr.
  unfold ContentSafetyAgent.process.
  destruct (transcript state) as [t|] eqn:Et; [|discriminate].
  destruct t; [discriminate|]. cbn.
  unfold Workflow.next_node, Workflow._should_continue_after_safety_check.
  cbn. rewrite Herr. repeat split; reflexivity.
Qed.

(** C7, on the transcript "Agent: Hello, how can I help you today?" with a
    moderation service that raises "Connection error": the gate reports the
    content as passed and the orchestrator continues with the intake, but
    the safety details of the state carry no error: they are the results of
    a check that found nothing, and the step logged is "Transcript
    approved". *)
Theorem moderation_failure_leaves_no_error_in_details :
  let state :=
    Workflow.initial_state "text" "Agent: Hello, how can I help you today?" in
  let state' := Workflow._content_safety_node (Raise "Connection error") state in
  content_safety_passed state' = Some true
  /\ Workflow.next_node Workflow.content_safety state'
     = Some Workflow.call_intake
  /\ fst (Guardrails.check_content (Raise "Connection error") false) = true
  /\ snd (Guardrails.check_content (Raise "Connection error") false)
     = CheckFailed "Connection error"
  /\ ContentSafetyAgent.details_error (content_safety_details state') = None
  /\ content_safety_details state'
     = Results {| passed := true; violations := []; warnings := [];
                  flagged_categories := [] |}
  /\ processing_steps state' = ["Content Safety: Transcript approved"].
Proof.
  cbv zeta. repeat split.
Qed.

(** ** Pre-validation *)

Lemma special_agrees (c : ascii) :
  PreValidationSpec.special c = Intake.is_special c.
Proof. destruct c as [[] [] [] [] [] [] [] []]; vm_compute; reflexivity. Qed.

Lemma terminator_agrees (c : ascii) :
  (if PreValidationSpec.terminator c then 1 else 0)%nat
  = ((if bool_decide (c = "."%char) then 1 else 0)
     + (if bool_decide (c = "!"%char) then 1 else 0)
     + (if bool_decide (c = "?"%char) then 1 else 0))%nat.
Proof. destruct c as [[] [] [] [] [] [] [] []]; vm_compute; reflexivity. Qed.

Lemma number_of_count_if (class : ascii -> bool) (s : string) :
  PreValidationSpec.number_of class s = Py.count_if class s.
Proof.
  unfold PreValidationSpec.number_of.
  induction s as [|c s IH]; cbn; [reflexivity|].
  destruct (class c); cbn; rewrite IH; reflexivity.
Qed.

Lemma count_if_ext (p q : ascii -> bool) (s : string) :
  (forall c, p c = q c) -> Py.count_if p s = Py.count_if q s.
Proof.
  intros H. induction s as [|c s IH]; cbn; [reflexivity|].
  rewrite H, IH. reflexivity.
Qed.

Lemma terminators_counted (s : string) :
  PreValidationSpec.number_of PreValidationSpec.terminator s
  = (Py.count "." s + Py.count "!" s + Py.count "?" s)%nat.
Proof.
  rewrite number_of_count_if.
  induction s as [|c s IH]; cbn [Py.count_if Py.count]; [reflexivity|].
  rewrite IH, terminator_agrees. lia.
Qed.

(** The ratio of two whole numbers is above 3/10, or below it, as the
    cross-multiplication says. *)
Lemma ratio_above (a b : Z) :
  (0 < b)%Z ->
  bool_decide (Q2Qc (3 # 10) < Intake.ratio a b)%Qc = (3 * b <? 10 * a)%Z.
Proof.
  intros Hb. destruct b as [|p|p]; try lia.
  assert (H : (Q2Qc (3 # 10) < Intake.ratio a (Z.pos p))%Qc
              <-> (3 * Z.pos p < 10 * a)%Z).
  { unfold Intake.ratio, Qclt, Qcdiv, Qcmult, Qcinv. cbn [this Q2Qc].
    rewrite !Qred_correct. unfold Qlt, Qmult, Qinv, inject_Z.
    cbn [Qnum Qden]. cbn. lia. }
  destruct (3 * Z.pos p <? 10 * a)%Z eqn:E.
  - apply bool_decide_eq_true_2, H, Z.ltb_lt, E.
  - apply bool_decide_eq_false_2. intros Hc. apply H, Z.ltb_lt in Hc.
    congruence.
Qed.

Lemma ratio_below (a b : Z) :
  (0 < b)%Z ->
  bool_decide (Intake.ratio a b < Q2Qc (3 # 10))%Qc = (10 * a <? 3 * b)%Z.
Proof.
  intros Hb. destruct b as [|p|p]; try lia.
  assert (H : (Intake.ratio a (Z.pos p) < Q2Qc (3 # 10))%Qc
              <-> (10 * a < 3 * Z.pos p)%Z).
  { unfold Intake.ratio, Qclt, Qcdiv, Qcmult, Qcinv. cbn [this Q2Qc].
    rewrite !Qred_correct. unfold Qlt, Qmult, Qinv, inject_Z.
    cbn [Qnum Qden]. cbn. lia. }
  destruct (10 * a <? 3 * Z.pos p)%Z eqn:E.
  - apply bool_decide_eq_true_2, H, Z.ltb_lt, E.
  - apply bool_decide_eq_false_2. intros Hc. apply H, Z.ltb_lt in Hc.
    congruence.
Qed.

Lemma ltb_of_nat (n m : nat) :
  (Z.of_nat n <? Z.of_nat m)%Z = (n <? m)%nat.
Proof.
  destruct (n <? m)%nat eqn:E.
  - apply Z.ltb_lt. apply Nat.ltb_lt in E. lia.
  - apply Z.ltb_ge. apply Nat.ltb_ge in E. lia.
Qed.

(** Each check of the specification is the test the code makes at its
    place. *)
Lemma length_bounds_code (text : string) :
  PreValidationSpec.length_bounds text
  = if (Py.len (Py.strip text) <? 50)%Z then
      Some "Transcript too short (minimum 50 characters)"
    else if (100000 <? Py.len (Py.strip text))%Z then
      Some ("Transcript too long ("
            +:+ Py.format_thousands (Py.len (Py.strip text))
            +:+ " characters). Maximum 100,000 characters allowed.")
    else None.
Proof. reflexivity. Qed.

Lemma dialogue_code (text : string) :
  PreValidationSpec.dialogue text
  = if negb (existsb (fun indicator =>
                        Py.contains indicator (Py.lower (Py.strip text)))
               Intake.conversation_indicators)
       && (Py.count "." text + Py.count "!" text + Py.count "?" text <? 3)%nat
    then Some "Does not appear to be a conversation transcript (no speaker labels or dialogue detected)"
    else None.
Proof.
  unfold PreValidationSpec.dialogue, PreValidationSpec.mentions.
  rewrite terminators_counted, Nat.leb_antisym.
  change PreValidationSpec.speaker_labels with Intake.conversation_indicators.
  destruct (existsb _ _); destruct (_ <? 3)%nat; reflexivity.
Qed.

Lemma music_blacklist_code (text : string) :
  PreValidationSpec.music_blacklist text
  = if existsb (fun keyword =>
                  Py.contains keyword (Py.lower (Py.strip text)))
         Intake.music_keywords
    then Some "Appears to be music or lyrics, not a call center conversation"
    else None.
Proof. reflexivity. Qed.

Lemma special_density_code (text : string) :
  PreValidationSpec.special_density text
  = if bool_decide
         (Q2Qc (3 # 10)
          < (if (0 <? Py.len text)%Z
             then Intake.ratio (Z.of_nat (Py.count_if Intake.is_special text))
                    (Py.len text)
             else Q2Qc 0))%Qc
    then Some "Transcript contains excessive special characters or appears to be gibberish"
    else None.
Proof.
  unfold PreValidationSpec.special_density.
  rewrite number_of_count_if, (count_if_ext _ _ text special_agrees).
  assert (Hle : (Py.count_if Intake.is_special text <= String.length text)%nat).
  { induction text as [|c s IH]; cbn; [lia|].
    destruct (Intake.is_special c); lia. }
  unfold Py.len. destruct (0 <? Z.of_nat (String.length text))%Z eqn:E0.
  - apply Z.ltb_lt in E0. rewrite ratio_above by exact E0.
    replace (3 * Z.of_nat (String.length text))%Z
      with (Z.of_nat (3 * String.length text)) by lia.
    replace (10 * Z.of_nat (Py.count_if Intake.is_special text))%Z
      with (Z.of_nat (10 * Py.count_if Intake.is_special text)) by lia.
    rewrite ltb_of_nat. reflexivity.
  - apply Z.ltb_ge in E0.
    replace (3 * String.length text <?
             10 * Py.count_if Intake.is_special text)%nat with false
      by (symmetry; apply Nat.ltb_ge; lia).
    change (bool_decide (Q2Qc (3 # 10) < Q2Qc 0)%Qc) with false.
    reflexivity.
Qed.

Lemma min_word_count_code (text : string) :
  PreValidationSpec.min_word_count text
  = if (Intake.list_len (Py.split (Py.strip text)) <? 20)%Z then
      Some ("Transcript too short ("
            +:+ Py.str_Z (Intake.list_len (Py.split (Py.strip text)))
            +:+ " words). Minimum 20 words required.")
    else None.
Proof.
  unfold PreValidationSpec.min_word_count, PreValidationSpec.words,
    Intake.list_len.
  change 20%Z with (Z.of_nat 20). rewrite ltb_of_nat. reflexivity.
Qed.

Lemma unique_word_ratio_code (text : string) :
  PreValidationSpec.unique_word_ratio text
  = if (10 <? Intake.list_len (Py.split (Py.strip text)))%Z
       && bool_decide
            (Intake.ratio
               (Intake.list_len (remove_dups (Py.split (Py.strip text))))
               (Intake.list_len (Py.split (Py.strip text)))
             < Q2Qc (3 # 10))%Qc
    then Some "Transcript appears to be repetitive or spam"
    else None.
Proof.
  unfold PreValidationSpec.unique_word_ratio, PreValidationSpec.words,
    Intake.list_len.
  change 10%Z with (Z.of_nat 10) at 1. rewrite ltb_of_nat.
  destruct (10 <? List.length (Py.split (Py.strip text)))%nat eqn:E;
    cbn [andb]; [|reflexivity].
  apply Nat.ltb_lt in E. rewrite ratio_below by lia.
  replace (10 * Z.of_nat (List.length (remove_dups (Py.split (Py.strip text)))))%Z
    with (Z.of_nat (10 * List.length (remove_dups (Py.split (Py.strip text)))))
    by lia.
  replace (3 * Z.of_nat (List.length (Py.split (Py.strip text))))%Z
    with (Z.of_nat (3 * List.length (Py.split (Py.strip text)))) by lia.
  rewrite ltb_of_nat. reflexivity.
Qed.

(** What the first failure of a list of checks is. *)
Lemma first_failure_some (cs : list PreValidationSpec.check) (text : string)
    (reason : string) :
  PreValidationSpec.first_failure cs text = Some reason
  <-> exists passed c rest,
        cs = (passed ++ c :: rest)%list
        /\ Forall (fun c' => c' text = None) passed
        /\ c text = Some reason.
Proof.
  induction cs as [|c cs IH]; cbn.
  - split; [discriminate|]. intros (passed & c & rest & E & _).
    destruct passed; discriminate.
  - destruct (c text) as [r|] eqn:Ec.
    + split.
      * intros [= <-]. exists [], c, cs. repeat split; [constructor|exact Ec].
      * intros (passed & c' & rest & E & Hp & Hc).
        destruct passed as [|p passed]; cbn in E; injection E as <- ->.
        -- congruence.
        -- apply list.Forall_cons in Hp as [Hp _]. congruence.
    + rewrite IH. split.
      * intros (passed & c' & rest & -> & Hp & Hc).
        exists (c :: passed), c', rest.
        repeat split; [constructor; assumption|exact Hc].
      * intros (passed & c' & rest & E & Hp & Hc).
        destruct passed as [|p passed]; cbn in E; injection E as <- ->.
        -- congruence.
        -- apply list.Forall_cons in Hp as [_ Hp]. exists passed, c', rest. auto.
Qed.

Lemma first_failure_none (cs : list PreValidationSpec.check) (text : string) :
  PreValidationSpec.first_failure cs text = None
  <-> Forall (fun c => c text = None) cs.
Proof.
  induction cs as [|c cs IH]; cbn.
  - split; [constructor|reflexivity].
  - rewrite list.Forall_cons. destruct (c text) as [r|] eqn:Ec.
    + split; [discriminate|]. intros [[=] _].
    + rewrite IH. tauto.
Qed.

(** C5: pre-validation applies its checks in the fixed order: length
    bounds, speaker label or sentence terminators, music blacklist,
    special-character density, word count, unique-word ratio, encoding. It
    returns a reason exactly when some check gives this reason and every
    check before it in the order passes, and it returns nothing exactly
    when all the checks pass. *)
Theorem pre_validate_first_failure (utf8_encodable : string -> bool)
    (text : string) :
  let checks :=
    [PreValidationSpec.length_bounds; PreValidationSpec.dialogue;
     PreValidationSpec.music_blacklist; PreValidationSpec.special_density;
     PreValidationSpec.min_word_count; PreValidationSpec.unique_word_ratio;
     PreValidationSpec.encoding utf8_encodable] in
  Intake._pre_validate_transcript utf8_encodable text
  = PreValidationSpec.preValidate utf8_encodable text
  /\ (forall reason,
         Intake._pre_validate_transcript utf8_encodable text = Some reason
         <-> exists passed c rest,
               checks = (passed ++ c :: rest)%list
               /\ Forall (fun c' => c' text = None) passed
               /\ c text = Some reason)
  /\ (Intake._pre_validate_transcript utf8_encodable text = None
      <-> Forall (fun c => c text = None) checks).
Proof.
  cbv zeta.
  assert (Heq : Intake._pre_validate_transcript utf8_encodable text
                = PreValidationSpec.preValidate utf8_encodable text).
  { unfold PreValidationSpec.preValidate, PreValidationSpec.checks.
    cbn [PreValidationSpec.first_failure].
    rewrite length_bounds_code, dialogue_code, music_blacklist_code,
      special_density_code, min_word_count_code, unique_word_ratio_code.
    unfold Intake._pre_validate_transcript, PreValidationSpec.encoding.
    cbv zeta.
    destruct (Py.len (Py.strip text) <? 50)%Z; [reflexivity|].
    destruct (100000 <? Py.len (Py.strip text))%Z; [reflexivity|].
    destruct (negb _ && _); [reflexivity|].
    destruct (existsb _ Intake.music_keywords); [reflexivity|].
    destruct (bool_decide (Q2Qc (3 # 10) < _)%Qc); [reflexivity|].
    destruct (Intake.list_len (Py.split (Py.strip text)) <? 20)%Z;
      [reflexivity|].
    destruct (_ && _); [reflexivity|].
    destruct (utf8_encodable text); reflexivity. }
  split; [exact Heq|]. rewrite Heq.
  split; [intros reason; apply first_failure_some|apply first_failure_none].
Qed.

(** ** Conversation extraction *)

Section Extraction.

Variable sha256_hex : string -> string.
Variable utf8_encodable : string -> bool.
Variable parse_validation : string -> Exc ValidationAndMetadata.
Variable json_loads : string -> Exc Json.
Variable pydantic_str : Json -> Exc string.

(** C9, on the reply [{"conversation": null, "turns": []}] to the request
    for turns: the output is not the one asked for, yet the extractor does
    not fall back to the raw text: it returns the null value as the
    conversation, with no turns. The call data cannot be built from it, so
    the intake of a transcript that passed every validation ends with the
    error "Call Intake Agent error: ...", without call data, and the run
    ends. On the reply [{}] the extractor returns the empty string as the
    conversation, not the raw text. *)
Theorem malformed_reply_is_not_replaced (replies : LlmReplies)
    (hashes : list string) (state : GraphState) (t content e : string) :
  let output := JObj [("conversation", JNull); ("turns", JList [])] in
  let out :=
    Intake.process sha256_hex utf8_encodable parse_validation json_loads
      pydantic_str replies hashes state in
  transcript state = Some t -> t <> "" ->
  Intake._compute_transcript_hash sha256_hex t ∉ hashes ->
  Intake._pre_validate_transcript utf8_encodable t = None ->
  is_valid (Intake._validate_and_extract_metadata parse_validation
              (validation_reply replies)) = true ->
  conversation_reply replies = Ok content ->
  json_loads content = Ok output ->
  pydantic_str JNull = Raise e ->
  ExtractionSpec.well_formed_output output = false
  /\ Intake._extract_conversation json_loads pydantic_str t (Ok content)
     = (JNull, [])
  /\ fst (Intake._extract_conversation json_loads pydantic_str t (Ok content))
     <> JStr t
  /\ error (fst out) = Some ("Call Intake Agent error: " +:+ e)
  /\ call_data (fst out) = call_data state
  /\ snd out = hashes
  /\ Workflow.next_node Workflow.call_intake (fst out) = Some Workflow.END
  /\ (forall content',
         json_loads content' = Ok (JObj []) ->
         ExtractionSpec.well_formed_output (JObj []) = false
         /\ Intake._extract_conversation json_loads pydantic_str t
              (Ok content')
            = (JStr "", [])).
Proof.
  cbv zeta. intros Et Hne Hfresh Hpre Hvalid Hreply Hjson Hnull.
  assert (Hex : Intake._extract_conversation json_loads pydantic_str t
                  (Ok content) = (JNull, [])).
  { unfold Intake._extract_conversation, Intake.parse_conversation.
    cbn. rewrite Hjson. reflexivity. }
  split; [reflexivity|]. split; [exact Hex|].
  split; [rewrite Hex; discriminate|].
  assert (Hout :
            Intake.process sha256_hex utf8_encodable parse_validation
              json_loads pydantic_str replies hashes state
            = (set_error (Some ("Call Intake Agent error: " +:+ e)) state,
               hashes)).
  { unfold Intake.process. rewrite Et. change (default "" (Some t)) with t.
    destruct t; [congruence|]. cbn [Py.is_empty].
    unfold Intake._is_duplicate.
    rewrite bool_decide_eq_false_2 by exact Hfresh.
    rewrite Hpre, Hvalid. cbn [negb]. rewrite Hreply, Hex, Hnull.
    reflexivity. }
  rewrite Hout. cbn [fst snd error call_data set_error].
  split; [reflexivity|]. split; [reflexivity|]. split; [reflexivity|].
  split.
  - unfold Workflow.next_node, Workflow._should_continue_after_intake.
    cbn [error set_error]. reflexivity.
  - intros content' Hj. split; [reflexivity|].
    unfold Intake._extract_conversation, Intake.parse_conversation.
    cbn. rewrite Hj. reflexivity.
Qed.

End Extraction.

Lemma malformed_reply_is_not_replaced_witness :
  let out :=
    Intake.process Sample.sha256_hex Sample.utf8_encodable
      Sample.parse_validation SampleJson.json_loads Sample.pydantic_str
      SampleJson.replies [] (Workflow.initial_state "text" Sample.dialogue) in
  error (fst out) = Some "Call Intake Agent error: ValidationError"
  /\ call_data (fst out) = None
  /\ Workflow.next_node Workflow.call_intake (fst out) = Some Workflow.END.
Proof.
  cbv zeta.
  destruct (malformed_reply_is_not_replaced Sample.sha256_hex
              Sample.utf8_encodable Sample.parse_validation
              SampleJson.json_loads Sample.pydantic_str SampleJson.replies []
              (Workflow.initial_state "text" Sample.dialogue) Sample.dialogue
              SampleJson.null_conversation "ValidationError")
    as (_ & _ & _ & He & Hcd & _ & Hend & _).
  - reflexivity.
  - discriminate.
  - apply not_elem_of_nil.
  - vm_compute. reflexivity.
  - vm_compute. reflexivity.
  - reflexivity.
  - vm_compute. reflexivity.
  - reflexivity.
  - split; [exact He|]. split; [exact Hcd|exact Hend].
Defined.


(** ** Words of a text *)

Lemma isspace_lower_char (c : ascii) :
  Py.isspace (Py.lower_char c) = Py.isspace c.
Proof.
  destruct c as [[] [] [] [] [] [] [] []]; vm_compute; reflexivity.
Qed.

Lemma has_nonspace_lower (s : string) :
  Py.has_nonspace (Py.lower s) = Py.has_nonspace s.
Proof.
  induction s as [|c s IH]; cbn; [reflexivity|].
  rewrite isspace_lower_char, IH. reflexivity.
Qed.

Lemma has_nonspace_lstrip (s : string) :
  Py.has_nonspace (Py.lstrip s) = Py.has_nonspace s.
Proof.
  induction s as [|c s IH]; cbn; [reflexivity|].
  destruct (Py.isspace c) eqn:Ec; cbn; [exact IH|].
  rewrite Ec. reflexivity.
Qed.

Lemma has_nonspace_rstrip (s : string) :
  Py.has_nonspace (Py.rstrip s) = Py.has_nonspace s.
Proof.
  induction s as [|c s IH]; cbn; [reflexivity|].
  destruct (Py.isspace c) eqn:Ec; cbn.
  - destruct (Py.rstrip s) eqn:Er; cbn in *.
    + exact IH.
    + rewrite Ec. cbn. exact IH.
  - rewrite Ec. reflexivity.
Qed.

Lemma has_nonspace_strip (s : string) :
  Py.has_nonspace (Py.strip s) = Py.has_nonspace s.
Proof.
  unfold Py.strip. rewrite has_nonspace_rstrip. apply has_nonspace_lstrip.
Qed.

Lemma append_nonempty (s : string) (c : ascii) :
  Py.is_empty (s +:+ String c "") = false.
Proof. destruct s; reflexivity. Qed.

Lemma split_from_nil (cur s : string) :
  Py.split_from cur s = [] <->
  Py.is_empty cur = true /\ Py.has_nonspace s = false.
Proof.
  revert cur. induction s as [|c s IH]; intros cur; cbn.
  - destruct (Py.is_empty cur); split; intros H;
      try discriminate; try (destruct H; discriminate); auto.
  - destruct (Py.isspace c) eqn:Ec; cbn.
    + destruct (Py.is_empty cur) eqn:E.
      * rewrite IH. cbn. tauto.
      * split; intros H; [discriminate|destruct H; discriminate].
    + rewrite IH, append_nonempty.
      split; intros H; destruct H; discriminate.
Qed.

Lemma split_from_words (cur s w : string) :
  w ∈ Py.split_from cur s -> Py.is_empty w = false.
Proof.
  revert cur. induction s as [|c s IH]; intros cur; cbn.
  - destruct (Py.is_empty cur) eqn:E; intros H.
    + apply elem_of_nil in H. contradiction.
    + apply list_elem_of_singleton in H. subst w. exact E.
  - destruct (Py.isspace c).
    + destruct (Py.is_empty cur) eqn:E; [apply IH|].
      intros H. apply elem_of_cons in H as [->|H]; [exact E|].
      eapply IH; eauto.
    + apply IH.
Qed.

Lemma join_nonempty (w : string) (ws : list string) :
  Py.is_empty w = false -> Py.join " " (w :: ws) <> "".
Proof.
  destruct w as [|c w]; [discriminate|]. intros _.
  destruct ws; cbn; discriminate.
Qed.

(** A text that has a word is not normalized to the empty text. *)
Lemma normalize_nonempty (t : string) :
  Py.split (Py.strip t) <> [] -> Intake.normalize t <> "".
Proof.
  intros Hw. unfold Intake.normalize.
  assert (Hns : Py.has_nonspace (Py.strip (Py.lower t)) = true).
  { rewrite has_nonspace_strip, has_nonspace_lower,
      <- (has_nonspace_strip t).
    destruct (Py.has_nonspace (Py.strip t)) eqn:E; [reflexivity|].
    exfalso. apply Hw. apply split_from_nil. auto. }
  destruct (Py.split (Py.strip (Py.lower t))) as [|w ws] eqn:Es.
  - apply split_from_nil in Es. destruct Es as [_ Es]. congruence.
  - apply join_nonempty. apply (split_from_words "" (Py.strip (Py.lower t))).
    unfold Py.split in Es. rewrite Es. apply elem_of_cons. auto.
Qed.

(** A text that passes pre-validation has at least 20 words. *)
Lemma pre_validate_words (utf8_encodable : string -> bool) (t : string) :
  Intake._pre_validate_transcript utf8_encodable t = None ->
  (20 <= Intake.list_len (Py.split (Py.strip t)))%Z.
Proof.
  unfold Intake._pre_validate_transcript.
  destruct (Py.len (Py.strip t) <? 50)%Z; [discriminate|].
  destruct (100000 <? Py.len (Py.strip t))%Z; [discriminate|].
  destruct (negb _ && _); [discriminate|].
  destruct (existsb _ Intake.music_keywords); [discriminate|].
  destruct (bool_decide (Q2Qc (3 # 10) < _)%Qc); [discriminate|].
  destruct (Intake.list_len (Py.split (Py.strip t)) <? 20)%Z eqn:E;
    [discriminate|].
  intros _. lia.
Qed.

(** ** The fingerprint registry *)

Section Registry.

Variable sha256_hex : string -> string.
Variable utf8_encodable : string -> bool.
Variable parse_validation : string -> Exc ValidationAndMetadata.
Variable json_loads : string -> Exc Json.
Variable pydantic_str : Json -> Exc string.

#[local] Abbreviation process :=
  (Intake.process sha256_hex utf8_encodable parse_validation json_loads
     pydantic_str).
#[local] Abbreviation submit :=
  (Intake.submit sha256_hex utf8_encodable parse_validation json_loads
     pydantic_str).
#[local] Abbreviation submit_all :=
  (Intake.submit_all sha256_hex utf8_encodable parse_validation json_loads
     pydantic_str).
#[local] Abbreviation taken_in :=
  (Intake.taken_in sha256_hex utf8_encodable parse_validation json_loads
     pydantic_str).
#[local] Abbreviation fingerprint := (Intake._compute_transcript_hash sha256_hex).

#[local] Abbreviation fingerprint_of := (Intake.fingerprint_of sha256_hex).

Lemma store_hash_elem (x : string) (h : list string) :
  x ∈ Intake._store_hash x h.
Proof.
  unfold Intake._store_hash. case_bool_decide; [assumption|].
  apply elem_of_app. right. apply list_elem_of_singleton. reflexivity.
Qed.

Lemma store_hash_mono (x y : string) (h : list string) :
  y ∈ h -> y ∈ Intake._store_hash x h.
Proof.
  unfold Intake._store_hash. case_bool_decide; [auto|].
  intros Hy. apply elem_of_app. auto.
Qed.

(** What a run of the intake does to the registry: nothing, or it records
    the fingerprint of the transcript; in the second case, and only then,
    the run sets the call data. *)
Lemma process_registry (r : LlmReplies) (h : list string) (st : GraphState) :
  (snd (process r h st) = h /\ call_data (fst (process r h st)) = call_data st)
  \/ (snd (process r h st) = Intake._store_hash (fingerprint_of (r, st)) h
      /\ is_Some (call_data (fst (process r h st)))).
Proof.
  unfold Intake.process, Intake.fingerprint_of. cbn [snd fst].
  destruct (Py.is_empty _); [left; split; reflexivity|].
  destruct (Intake._is_duplicate _ h); [left; split; reflexivity|].
  destruct (Intake._pre_validate_transcript _ _); [left; split; reflexivity|].
  destruct (negb _); [left; split; reflexivity|].
  destruct (Intake._extract_conversation _ _ _ _) as [conv turns].
  destruct (pydantic_str conv); [left; split; reflexivity|].
  right. split; [reflexivity|]. cbn. eauto.
Qed.

Lemma process_mono (r : LlmReplies) (h : list string) (st : GraphState)
    (x : string) :
  x ∈ h -> x ∈ snd (process r h st).
Proof.
  intros Hx. destruct (process_registry r h st) as [[-> _]|[-> _]];
    [assumption | apply store_hash_mono; assumption].
Qed.

Lemma submit_all_mono (subs : list (LlmReplies * GraphState))
    (h : list string) (x : string) :
  x ∈ h -> x ∈ submit_all h subs.
Proof.
  revert h. induction subs as [|sub subs IH]; intros h Hx; [exact Hx|].
  cbn. apply IH. apply process_mono. exact Hx.
Qed.

Lemma taken_in_records (r : LlmReplies) (h : list string) (st : GraphState) :
  call_data st = None -> taken_in h (r, st) ->
  fingerprint_of (r, st) ∈ submit h (r, st).
Proof.
  unfold Intake.taken_in, Intake.submit. cbn [fst snd]. intros Hnone Htaken.
  destruct (process_registry r h st) as [[_ E]|[-> _]].
  - rewrite E, Hnone in Htaken. destruct Htaken; discriminate.
  - apply store_hash_elem.
Qed.

(** A transcript whose fingerprint is in the registry is a duplicate. *)
Lemma process_duplicate (r : LlmReplies) (h : list string) (st : GraphState)
    (t : string) :
  transcript st = Some t -> t <> "" -> fingerprint t ∈ h ->
  process r h st
  = (set_processing_steps
       ["Duplicate Detected: This transcript has already been processed. Skipping."]
       (set_duplicate_detected true
          (set_error (Some Intake.duplicate_error) st)),
     h).
Proof.
  intros Et Hne Hin. unfold Intake.process. rewrite Et. cbn [default].
  destruct t; [congruence|]. cbn [Py.is_empty].
  unfold Intake._is_duplicate. rewrite bool_decide_eq_true_2 by exact Hin.
  reflexivity.
Qed.

(** The outcome of a run on a registry that does not hold the fingerprint is
    the outcome on the empty registry. *)
Lemma process_fresh (r : LlmReplies) (h : list string) (st : GraphState) :
  fingerprint_of (r, st) ∉ h ->
  fst (process r h st) = fst (process r [] st).
Proof.
  unfold Intake.fingerprint_of, Intake.process. cbn [fst snd]. intros Hnot.
  destruct (Py.is_empty _); [reflexivity|].
  unfold Intake._is_duplicate.
  rewrite bool_decide_eq_false_2 by exact Hnot.
  rewrite bool_decide_eq_false_2 by (apply not_elem_of_nil).
  destruct (Intake._pre_validate_transcript _ _); [reflexivity|].
  destruct (negb _); [reflexivity|].
  destruct (Intake._extract_conversation _ _ _ _) as [conv turns].
  destruct (pydantic_str conv); reflexivity.
Qed.

Lemma submit_all_fresh (subs : list (LlmReplies * GraphState))
    (h : list string) :
  Forall (fun sub => call_data (snd sub) = None /\ taken_in [] sub) subs ->
  NoDup (map fingerprint_of subs) ->
  (forall x, x ∈ map fingerprint_of subs -> x ∉ h) ->
  submit_all h subs = (h ++ map fingerprint_of subs)%list.
Proof.
  revert h. induction subs as [|[r st] subs IH]; intros h Hall Hnd Hfresh.
  - cbn. rewrite app_nil_r. reflexivity.
  - inversion Hall as [|? ? [Hnone Htaken] Hall']; subst.
    inversion Hnd as [|? ? Hnotin Hnd']; subst. cbn [snd] in Hnone.
    assert (Hnew : fingerprint_of (r, st) ∉ h).
    { apply Hfresh. cbn. apply elem_of_cons. auto. }
    assert (Hstep : submit h (r, st) = (h ++ [fingerprint_of (r, st)])%list).
    { unfold Intake.submit. cbn [fst snd].
      destruct (process_registry r h st) as [[_ E]|[-> _]].
      - unfold Intake.taken_in in Htaken. cbn [fst snd] in Htaken.
        rewrite <- (process_fresh r h st Hnew), E, Hnone in Htaken.
        destruct Htaken; discriminate.
      - unfold Intake._store_hash.
        rewrite bool_decide_eq_false_2 by exact Hnew. reflexivity. }
    cbn [Intake.submit_all foldl]. fold (submit h (r, st)). rewrite Hstep.
    change (foldl submit ?a subs) with (submit_all a subs).
    rewrite IH; [rewrite <- app_assoc; reflexivity|assumption|assumption|].
    intros x Hx Hin. apply elem_of_app in Hin as [Hin|Hin].
    + apply (Hfresh x); [cbn; apply elem_of_cons; auto|assumption].
    + apply list_elem_of_singleton in Hin. subst x. contradiction.
Qed.

(** A submission that is taken in passed pre-validation. *)
Lemma taken_in_pre_validated (r : LlmReplies) (h : list string)
    (st : GraphState) (t : string) :
  transcript st = Some t -> call_data st = None -> taken_in h (r, st) ->
  Intake._pre_validate_transcript utf8_encodable t = None.
Proof.
  unfold Intake.taken_in, Intake.process. cbn [fst snd].
  intros Et Hnone. rewrite Et. change (default "" (Some t)) with t.
  destruct (Py.is_empty t);
    [cbn; rewrite Hnone; intros [? [=]]|].
  destruct (Intake._is_duplicate _ h);
    [cbn; rewrite Hnone; intros [? [=]]|].
  destruct (Intake._pre_validate_transcript utf8_encodable t);
    [cbn; rewrite Hnone; intros [? [=]]|reflexivity].
Qed.

(** C3, as amended: when a submission was taken in by the intake (it passed
    validation, so its fingerprint was recorded), a later submission of the
    same transcript (identical after normalization) ends with the
    duplicate error and leaves the registry as it is; and after N submissions
    with pairwise distinct fingerprints that are all taken in, a registry that
    was empty holds exactly N entries. *)
Theorem duplicate_after_taken_in :
  (forall (h : list string) (r1 r2 : LlmReplies) (s1 s2 : GraphState)
          (t1 t2 : string) (between : list (LlmReplies * GraphState)),
      transcript s1 = Some t1 -> transcript s2 = Some t2 ->
      Intake.normalize t1 = Intake.normalize t2 ->
      call_data s1 = None ->
      taken_in h (r1, s1) ->
      let h2 := submit_all (submit h (r1, s1)) between in
      error (fst (process r2 h2 s2)) = Some Intake.duplicate_error
      /\ duplicate_detected (fst (process r2 h2 s2)) = true
      /\ call_data (fst (process r2 h2 s2)) = call_data s2
      /\ snd (process r2 h2 s2) = h2)
  /\ (forall subs : list (LlmReplies * GraphState),
        Forall (fun sub => call_data (snd sub) = None /\ taken_in [] sub)
          subs ->
        NoDup (map fingerprint_of subs) ->
        List.length (submit_all [] subs) = List.length subs).
Proof.
  split.
  - intros h r1 r2 s1 s2 t1 t2 between E1 E2 Hnorm Hnone Htaken h2.
    assert (Hne : t2 <> "").
    { intros ->.
      apply (normalize_nonempty t1); [|exact Hnorm].
      pose proof (pre_validate_words utf8_encodable t1
                    (taken_in_pre_validated r1 h s1 t1 E1 Hnone Htaken))
        as Hwords.
      intros Enil. rewrite Enil in Hwords.
      unfold Intake.list_len in Hwords. cbn in Hwords. lia. }
    assert (Hin : fingerprint t2 ∈ h2).
    { apply submit_all_mono.
      pose proof (taken_in_records r1 h s1 Hnone Htaken) as Hrec.
      unfold Intake.fingerprint_of in Hrec. cbn [snd] in Hrec.
      rewrite E1 in Hrec. cbn [default] in Hrec.
      unfold Intake._compute_transcript_hash in *.
      rewrite <- Hnorm. exact Hrec. }
    rewrite (process_duplicate r2 h2 s2 t2 E2 Hne Hin). cbn.
    repeat split; reflexivity.
  - intros subs Hall Hnd.
    rewrite submit_all_fresh; auto.
    + cbn. rewrite length_map. reflexivity.
    + intros x _. apply not_elem_of_nil.
Qed.

End Registry.

(** ** Examples on the sample data *)

(** The search takes the leftmost start from which the pattern matches: the
    label, anything up to the first colon, whitespace, a number. *)
Example search_leftmost :
  Re.search "tone" "tone: x Tone - overall: 5.5.1" = Some "5.5".
Proof. vm_compute. reflexivity. Qed.

Example search_needs_digits_after_first_colon :
  Re.search "tone" "tone:: 5" = None.
Proof. vm_compute. reflexivity. Qed.

Example float_of_group : this (Re.float "8.25") = (33 # 4)%Q.
Proof. vm_compute. reflexivity. Qed.

Example normalize_ignores_case_and_spacing :
  Intake.normalize Sample.dialogue_again = Intake.normalize Sample.dialogue.
Proof. vm_compute. reflexivity. Qed.

Example format_thousands_groups : Py.format_thousands 1234567 = "1,234,567".
Proof. vm_compute. reflexivity. Qed.

(** A text of 30 characters is rejected as too short. *)
Example pre_validate_short :
  Intake._pre_validate_transcript Sample.utf8_encodable
    "Agent: Hi. Caller: Hello, bye."
  = Some "Transcript too short (minimum 50 characters)".
Proof. vm_compute. reflexivity. Qed.

Example pre_validate_dialogue :
  Intake._pre_validate_transcript Sample.utf8_encodable Sample.dialogue = None.
Proof. vm_compute. reflexivity. Qed.

(** A long text with many words, one word repeated: the ratio check is the
    first to fail. *)
Example pre_validate_repetitive :
  Intake._pre_validate_transcript Sample.utf8_encodable
    "agent: no. no. no. no no no no no no no no no no no no no no no no no no no no no no"
  = Some "Transcript appears to be repetitive or spam".
Proof. vm_compute. reflexivity. Qed.

(** C3, counterexample: the transcript "hello" is rejected by pre-validation
    and its fingerprint is not recorded; submitted again, it is rejected for
    the same reason, not as a duplicate, and the registry, after this one
    unique submission, is empty. *)
Lemma rejected_transcript_is_not_recorded :
  let s := Workflow.initial_state "text" "hello" in
  let h1 := snd (Sample.process Sample.replies [] s) in
  h1 = []
  /\ error (fst (Sample.process Sample.replies h1 s))
     = Some "Transcript too short (minimum 50 characters)"
  /\ error (fst (Sample.process Sample.replies h1 s))
     <> Some Intake.duplicate_error
  /\ List.length (Sample.submit_all [] [(Sample.replies, s)]) <> 1%nat.
Proof.
  cbv zeta. split; [vm_compute; reflexivity|].
  split; [vm_compute; reflexivity|].
  split; [vm_compute; discriminate|].
  vm_compute. lia.
Qed.

Lemma duplicate_after_taken_in_witness :
  let s1 := Workflow.initial_state "text" Sample.dialogue in
  let s2 := Workflow.initial_state "text" Sample.dialogue_again in
  let h1 := snd (Sample.process Sample.replies [] s1) in
  error (fst (Sample.process Sample.replies h1 s2))
  = Some Intake.duplicate_error
  /\ List.length (Sample.submit_all [] [(Sample.replies, s1)]) = 1%nat.
Proof.
  cbv zeta.
  destruct (duplicate_after_taken_in Sample.sha256_hex Sample.utf8_encodable
              Sample.parse_validation Sample.json_loads Sample.pydantic_str)
    as [Hdup Hcount].
  split.
  - apply (Hdup [] Sample.replies Sample.replies
             (Workflow.initial_state "text" Sample.dialogue)
             (Workflow.initial_state "text" Sample.dialogue_again)
             Sample.dialogue Sample.dialogue_again []).
    + reflexivity.
    + reflexivity.
    + vm_compute. reflexivity.
    + reflexivity.
    + vm_compute. eexists. reflexivity.
  - apply (Hcount [(Sample.replies,
                    Workflow.initial_state "text" Sample.dialogue)]).
    + constructor; [|constructor]. split; [reflexivity|].
      vm_compute. eexists. reflexivity.
    + constructor; [apply not_elem_of_nil|constructor].
Defined.

(** When the request for the turns raises, the intake still takes the call
    in: its conversation is the raw transcript, its list of turns is empty,
    and no error is set. *)
Example intake_survives_failed_extraction :
  let out :=
    fst (Sample.process Sample.replies []
           (Workflow.initial_state "text" Sample.dialogue)) in
  error out = None
  /\ (conversation <$> call_data out) = Some Sample.dialogue
  /\ (conversation_turns <$> call_data out) = Some [].
Proof. vm_compute. repeat split. Qed.

(** ** Agent aggregates *)

(** The table of aggregates after a scored call of a named agent, when no
    file operation fails: the table [_update_agent_performance] writes from
    the rows it reads. *)
Lemma process_aggregates (read_name : list string -> string -> Cell)
    (now : Clock) (state : GraphState) (s : Storage) (call_data0 : CallData)
    (qs : QualityScore) :
  default true (content_safety_passed state) = true ->
  call_data state = Some call_data0 ->
  quality_score state = Some qs ->
  DataStorage.has_agent_name call_data0 = true ->
  agent_performance_csv
    (snd (DataStorage.process (fun _ => false) read_name now state s))
  = DataStorage.written_table read_name
      (DataStorage.performance_key call_data0) qs now
      (agent_performance_csv s).
Proof.
  intros Hsafe Hcd Hqs Hname.
  assert (Hens : DataStorage.has_agent_name
                   (DataStorage.ensure_call_id now call_data0) = true
                 /\ DataStorage.performance_key
                      (DataStorage.ensure_call_id now call_data0)
                    = DataStorage.performance_key call_data0).
  { unfold DataStorage.ensure_call_id.
    destruct (Py.truthy (call_id (metadata call_data0))); auto. }
  destruct Hens as [Hname' Hkey].
  unfold DataStorage.process. rewrite Hsafe, Hcd, Hqs. cbn [negb].
  unfold DataStorage.store_call. rewrite Hname'.
  unfold DataStorage._store_call_record, DataStorage._store_quality_score,
    DataStorage._update_agent_performance, DataStorage.bindM,
    DataStorage.catch, DataStorage.ret, DataStorage.write_call_file,
    DataStorage.read_index, DataStorage.write_index,
    DataStorage.append_scores, DataStorage.read_performance,
    DataStorage.write_performance.
  cbn. rewrite Hkey. reflexivity.
Qed.

(** C4, on two scored calls of the agent "1234" on an empty store. pandas
    reads the column of names of the file back as integers, so the second
    call does not find the row of the agent and adds a row of its own: the
    table then holds two rows of the name "1234", each with the count 1 and
    the scores of one call as its averages, where the aggregate of the
    agent should hold the count 2 and the means of the two scores. *)
Theorem retyped_agent_gets_a_row_per_call
    (read_name : list string -> string -> Cell) :
  read_name ["1234"] "1234" = Retyped "1234" ->
  let s1 :=
    snd (DataStorage.process (fun _ => false) read_name SampleStore.noon
           (SampleStore.scored_call "1234" SampleStore.first_score)
           SampleStore.empty_store) in
  let s2 :=
    snd (DataStorage.process (fun _ => false) read_name SampleStore.one_pm
           (SampleStore.scored_call "1234" SampleStore.second_score) s1) in
  map perf_agent_name (agent_performance_csv s2) = ["1234"; "1234"]
  /\ map total_calls (agent_performance_csv s2) = [1%Z; 1%Z]
  /\ map average_overall_score (agent_performance_csv s2)
     = [overall_score SampleStore.first_score;
        overall_score SampleStore.second_score]
  /\ map average_tone_score (agent_performance_csv s2)
     = [tone_score SampleStore.first_score;
        tone_score SampleStore.second_score]
  /\ map average_professionalism_score (agent_performance_csv s2)
     = [professionalism_score SampleStore.first_score;
        professionalism_score SampleStore.second_score]
  /\ map average_resolution_score (agent_performance_csv s2)
     = [resolution_score SampleStore.first_score;
        resolution_score SampleStore.second_score]
  /\ map average_response_score (agent_performance_csv s2)
     = [response_time_score SampleStore.first_score;
        response_time_score SampleStore.second_score].
Proof.
  intros Hread. cbv zeta.
  rewrite (process_aggregates read_name SampleStore.one_pm _ _
             (SampleStore.call (Some "1234")) SampleStore.second_score)
    by reflexivity.
  rewrite (process_aggregates read_name SampleStore.noon _ _
             (SampleStore.call (Some "1234")) SampleStore.first_score)
    by reflexivity.
  change (DataStorage.performance_key (SampleStore.call (Some "1234")))
    with "1234".
  change (agent_performance_csv SampleStore.empty_store)
    with (@nil AgentPerformance).
  set (row := fun (qs : QualityScore) (now : Clock) =>
         {| perf_agent_name := "1234";
            total_calls := 1;
            average_overall_score := overall_score qs;
            average_tone_score := tone_score qs;
            average_professionalism_score := professionalism_score qs;
            average_resolution_score := resolution_score qs;
            average_response_score := response_time_score qs;
            last_updated := iso now |}).
  assert (H1 : DataStorage.written_table read_name "1234"
                 SampleStore.first_score SampleStore.noon []
               = [row SampleStore.first_score SampleStore.noon])
    by reflexivity.
  rewrite H1.
  assert (H2 : DataStorage.written_table read_name "1234"
                 SampleStore.second_score SampleStore.one_pm
                 [row SampleStore.first_score SampleStore.noon]
               = [row SampleStore.first_score SampleStore.noon;
                  row SampleStore.second_score SampleStore.one_pm]).
  { unfold DataStorage.written_table, DataStorage.read_csv.
    change (map perf_agent_name [row SampleStore.first_score SampleStore.noon])
      with ["1234"].
    cbn [map].
    change (perf_agent_name (row SampleStore.first_score SampleStore.noon))
      with "1234".
    rewrite Hread. reflexivity. }
  rewrite H2. repeat split.
Qed.

Lemma retyped_agent_gets_a_row_per_call_witness :
  map total_calls
    (agent_performance_csv
       (snd (DataStorage.process (fun _ => false) SampleStore.read_name
               SampleStore.one_pm
               (SampleStore.scored_call "1234" SampleStore.second_score)
               (snd (DataStorage.process (fun _ => false)
                       SampleStore.read_name SampleStore.noon
                       (SampleStore.scored_call "1234"
                          SampleStore.first_score)
                       SampleStore.empty_store)))))
  = [1%Z; 1%Z].
Proof.
  apply (retyped_agent_gets_a_row_per_call SampleStore.read_name).
  reflexivity.
Defined.

(** ** Order of the writes of the store *)

Section Writes.

Variable fails : FileOp -> bool.
Variable read_name : list string -> string -> Cell.

(** C8: for a call that reaches the store with its data, the file of the
    full record is the first thing written: the index, the score ledger and
    the agent aggregates are written after it, in this order, and only when
    it was written; once it is written it stays in the store, whichever of
    the later operations fails. *)
Theorem record_written_first (now : Clock) (state : GraphState) (s : Storage)
    (call_data0 : CallData) :
  default true (content_safety_passed state) = true ->
  call_data state = Some call_data0 ->
  let cd := DataStorage.ensure_call_id now call_data0 in
  let name := DataStorage.str_opt (call_id (metadata cd)) +:+ ".json" in
  let record :=
    CallRecord (call_id (metadata cd)) (iso now)
      (if DataStorage.has_agent_name cd then needs_manual_review state
       else true)
      (metadata cd) (conversation cd) (conversation_turns cd)
      (summary state) (quality_score state) in
  let s' := snd (DataStorage.process fails read_name now state s) in
  (fails (WriteCallFile name) = true -> s' = s)
  /\ (fails (WriteCallFile name) = false ->
      calls_dir s' !! name = Some record
      /\ exists later,
           journal s' = (journal s ++ WriteCallFile name :: later)%list
           /\ later `prefix_of` [WriteIndex; AppendScores; WritePerformance]).
Proof.
  intros Hsafe Hcd. cbv zeta.
  unfold DataStorage.process. rewrite Hsafe, Hcd. cbn [negb].
  set (cd := DataStorage.ensure_call_id now call_data0).
  unfold DataStorage.store_call, DataStorage._store_call_record,
    DataStorage._store_quality_score, DataStorage._update_agent_performance,
    DataStorage.bindM, DataStorage.catch, DataStorage.ret,
    DataStorage.write_call_file, DataStorage.read_index,
    DataStorage.write_index, DataStorage.append_scores,
    DataStorage.read_performance, DataStorage.write_performance.
  set (name := DataStorage.str_opt (call_id (metadata cd)) +:+ ".json").
  destruct (fails (WriteCallFile name)) eqn:Ew.
  { cbn. split; [reflexivity|discriminate]. }
  split; [discriminate|intros _].
  set (record := CallRecord (call_id (metadata cd)) (iso now)
                  (if DataStorage.has_agent_name cd
                   then needs_manual_review state else true)
                  (metadata cd) (conversation cd) (conversation_turns cd)
                  (summary state) (quality_score state)).
  assert (Hdone : forall (jr later : list FileOp),
             jr = (journal s ++ WriteCallFile name :: later)%list ->
             later `prefix_of` [WriteIndex; AppendScores; WritePerformance] ->
             <[name := record]> (calls_dir s) !! name = Some record
             /\ exists later0,
                  jr = (journal s ++ WriteCallFile name :: later0)%list
                  /\ later0
                     `prefix_of` [WriteIndex; AppendScores; WritePerformance]).
  { intros jr later Hj Hp. split; [apply lookup_insert_eq|].
    exists later. auto. }
  destruct (fails ReadIndex); cbn.
  { apply (Hdone _ []); [reflexivity|apply prefix_nil]. }
  destruct (fails WriteIndex); cbn.
  { apply (Hdone _ []); [reflexivity|apply prefix_nil]. }
  destruct (quality_score state) as [qs|]; cbn.
  2: { apply (Hdone _ [WriteIndex]);
         [rewrite <- app_assoc; reflexivity|].
       exists [AppendScores; WritePerformance]. reflexivity. }
  destruct (DataStorage.has_agent_name cd); cbn.
  2: { apply (Hdone _ [WriteIndex]);
         [rewrite <- app_assoc; reflexivity|].
       exists [AppendScores; WritePerformance]. reflexivity. }
  destruct (fails AppendScores); cbn.
  { apply (Hdone _ [WriteIndex]);
      [rewrite <- app_assoc; reflexivity|].
    exists [AppendScores; WritePerformance]. reflexivity. }
  destruct (fails ReadPerformance); cbn;
    destruct (fails WritePerformance); cbn.
  1, 3: apply (Hdone _ [WriteIndex; AppendScores]);
          [rewrite <- !app_assoc; reflexivity|];
          exists [WritePerformance]; reflexivity.
  all: apply (Hdone _ [WriteIndex; AppendScores; WritePerformance]);
         [rewrite <- !app_assoc; reflexivity|];
         exists []; reflexivity.
Qed.

End Writes.

Lemma record_written_first_witness :
  let s' :=
    snd (DataStorage.process SampleStore.index_fails SampleStore.read_name
           SampleStore.noon SampleStore.scored_state
           SampleStore.empty_store) in
  is_Some (calls_dir s' !! "CALL_20240101_120000.json")
  /\ calls_db s' = []
  /\ journal s' = [WriteCallFile "CALL_20240101_120000.json"].
Proof.
  cbv zeta.
  destruct (record_written_first SampleStore.index_fails
              SampleStore.read_name SampleStore.noon
              SampleStore.scored_state SampleStore.empty_store
              (SampleStore.call (Some "Dana")))
    as [_ H]; [reflexivity|reflexivity|].
  destruct H as [Hrec _]; [reflexivity|].
  split; [eexists; exact Hrec|].
  split; vm_compute; reflexivity.
Defined.

(** X29: the flagged content takes the same order: its file is written
    before the index. When writing the file raises, the store is left as it
    was. *)
Lemma flagged_record_written_first (fails : FileOp -> bool)
    (read_name : list string -> string -> Cell) (now : Clock)
    (state : GraphState) (s : Storage) :
  default true (content_safety_passed state) = false ->
  let name := "FLAGGED_" +:+ stamp now +:+ ".json" in
  let s' := snd (DataStorage.process fails read_name now state s) in
  (fails (WriteCallFile name) = true -> s' = s)
  /\ (fails (WriteCallFile name) = false ->
      is_Some (calls_dir s' !! name)
      /\ exists later,
           journal s' = (journal s ++ WriteCallFile name :: later)%list
           /\ later `prefix_of` [WriteIndex]).
Proof.
  intros Hsafe. cbv zeta. unfold DataStorage.process. rewrite Hsafe.
  cbn [negb].
  unfold DataStorage._store_flagged_content, DataStorage.bindM,
    DataStorage.ret, DataStorage.write_call_file, DataStorage.read_index,
    DataStorage.write_index.
  destruct (fails (WriteCallFile _)) eqn:Ew.
  { cbn. split; [reflexivity|discriminate]. }
  split; [discriminate|intros _].
  destruct (fails ReadIndex); cbn.
  { split; [rewrite lookup_insert_eq; eauto|].
    exists []. split; [reflexivity|apply prefix_nil]. }
  destruct (fails WriteIndex); cbn.
  { split; [rewrite lookup_insert_eq; eauto|].
    exists []. split; [reflexivity|apply prefix_nil]. }
  split; [rewrite lookup_insert_eq; eauto|].
  exists [WriteIndex]. split; [rewrite <- app_assoc; reflexivity|].
  exists []. reflexivity.
Qed.

(** * Further properties *)

(** ** The graph *)

(** X1: every edge of the graph leads to a later node, so a run never comes
    back to a node, and it is at END after six nodes at most, whatever the
    states the nodes end in. *)
Theorem graph_moves_forward :
  (forall (n m : Workflow.Node) (state : GraphState),
      Workflow.next_node n state = Some m ->
      (Nodes.rank n < Nodes.rank m)%nat)
  /\ (forall (n : Workflow.Node) (states : list GraphState),
        (6 <= List.length states)%nat ->
        list.last (Nodes.walk n states) = Some Workflow.END
        /\ (List.length (Nodes.walk n states) <= 7)%nat).
Proof.
  assert (Hedge : forall n m state,
             Workflow.next_node n state = Some m ->
             (Nodes.rank n < Nodes.rank m)%nat).
  { intros n m state. destruct n; cbn.
    - intros [= <-]. cbn. lia.
    - unfold Workflow._should_continue_after_safety_check.
      destruct (negb _); [|destruct (Py.truthy _)]; cbn;
        intros [= <-]; cbn; lia.
    - unfold Workflow._should_continue_after_intake.
      destruct (_ || _); [|destruct (negb _)]; cbn; intros [= <-]; cbn; lia.
    - unfold Workflow._should_do_quality_scoring.
      destruct (call_data state); cbn; intros [= <-]; cbn; lia.
    - intros [= <-]. cbn. lia.
    - intros [= <-]. cbn. lia.
    - discriminate. }
  split; [exact Hedge|].
  assert (Hend : forall n state, Workflow.next_node n state = None ->
                                 n = Workflow.END).
  { intros n state. destruct n; cbn; try discriminate; try reflexivity.
    - unfold Workflow._should_continue_after_safety_check.
      destruct (negb _); [|destruct (Py.truthy _)]; cbn; discriminate.
    - unfold Workflow._should_continue_after_intake.
      destruct (_ || _); [|destruct (negb _)]; cbn; discriminate.
    - unfold Workflow._should_do_quality_scoring.
      destruct (call_data state); cbn; discriminate. }
  assert (Hwalk : forall states n,
             (6 - Nodes.rank n <= List.length states)%nat ->
             list.last (Nodes.walk n states) = Some Workflow.END
             /\ (List.length (Nodes.walk n states) <= 7 - Nodes.rank n)%nat).
  { induction states as [|state states IH]; intros n Hlen; cbn in *.
    - destruct n; cbn in *; try lia. split; [reflexivity|lia].
    - destruct (Workflow.next_node n state) as [m|] eqn:E.
      + pose proof (Hedge n m state E) as Hlt.
        assert (Hm : (Nodes.rank m <= 6)%nat) by (destruct m; cbn; lia).
        destruct (IH m) as [Hlast Hl]; [lia|]. split.
        * destruct (Nodes.walk m states) eqn:Ew; [discriminate|].
          rewrite last_cons, Hlast. reflexivity.
        * cbn. lia.
      + apply Hend in E. subst n. split; [reflexivity|cbn; lia]. }
  assert (Hr : forall n, (Nodes.rank n <= 6)%nat) by (destruct n; cbn; lia).
  intros n states Hlen. pose proof (Hr n).
  destruct (Hwalk states n) as [H1 H2]; [lia|].
  split; [exact H1|lia].
Qed.

Lemma graph_moves_forward_witness :
  Nodes.walk Workflow.transcription
    (replicate 6 (Workflow.initial_state "audio" "call.wav"))
  = [Workflow.transcription; Workflow.content_safety; Workflow.call_intake;
     Workflow.END]
  /\ list.last (Nodes.walk Workflow.transcription
             (replicate 6 (Workflow.initial_state "audio" "call.wav")))
     = Some Workflow.END.
Proof.
  split; [vm_compute; reflexivity|].
  apply (proj2 graph_moves_forward). cbn. lia.
Defined.

(** X2: after the intake the orchestrator goes on to summarization exactly
    when no error is set, validation did not fail and the state holds call
    data; in every other case it ends, and it never goes to storage. *)
Theorem intake_routing (state : GraphState) :
  let failed := Py.truthy (error state) || validation_failed state in
  (Workflow.next_node Workflow.call_intake state
   = Some Workflow.summarization
   <-> failed = false /\ is_Some (call_data state))
  /\ (Workflow.next_node Workflow.call_intake state = Some Workflow.END
      <-> failed = true \/ call_data state = None)
  /\ Workflow.next_node Workflow.call_intake state
     <> Some Workflow.data_storage.
Proof.
  cbv zeta. unfold Workflow.next_node, Workflow._should_continue_after_intake.
  destruct (Py.truthy (error state) || validation_failed state);
    destruct (call_data state) as [cd|]; cbn.
  all: repeat split; intros; try discriminate; try tauto; eauto.
  all: try (match goal with H : _ /\ _ |- _ => destruct H end);
    try (match goal with H : _ \/ _ |- _ => destruct H end);
    try discriminate;
    try (match goal with H : is_Some None |- _ => destruct H; discriminate end).
Qed.

(** ** The intake *)

Section IntakeRuns.

Variable sha256_hex : string -> string.
Variable utf8_encodable : string -> bool.
Variable parse_validation : string -> Exc ValidationAndMetadata.
Variable json_loads : string -> Exc Json.
Variable pydantic_str : Json -> Exc string.

#[local] Abbreviation process :=
  (Intake.process sha256_hex utf8_encodable parse_validation json_loads
     pydantic_str).
#[local] Abbreviation submit_all :=
  (Intake.submit_all sha256_hex utf8_encodable parse_validation json_loads
     pydantic_str).
#[local] Abbreviation taken_in :=
  (Intake.taken_in sha256_hex utf8_encodable parse_validation json_loads
     pydantic_str).
#[local] Abbreviation fingerprint := (Intake._compute_transcript_hash sha256_hex).

Lemma store_hash_prefix (x : string) (h : list string) :
  h `prefix_of` Intake._store_hash x h.
Proof.
  unfold Intake._store_hash. case_bool_decide; [reflexivity|].
  exists [x]. reflexivity.
Qed.

Lemma store_hash_NoDup (x : string) (h : list string) :
  NoDup h -> NoDup (Intake._store_hash x h).
Proof.
  intros Hnd. unfold Intake._store_hash. case_bool_decide; [exact Hnd|].
  apply list.NoDup_app. split; [exact Hnd|]. split.
  - intros y Hy Hin. apply list_elem_of_singleton in Hin. subst y.
    contradiction.
  - apply list.NoDup_singleton.
Qed.

(** X3: the registry is append-only and holds no fingerprint twice: after
    any run of submissions the old registry is a prefix of the new one, and
    a registry without repetition stays without repetition. *)
Theorem registry_append_only (h : list string)
    (subs : list (LlmReplies * GraphState)) :
  h `prefix_of` submit_all h subs
  /\ (NoDup h -> NoDup (submit_all h subs)).
Proof.
  revert h. induction subs as [|[r st] subs IH]; intros h.
  - split; [reflexivity|auto].
  - cbn. destruct (IH (Intake.submit sha256_hex utf8_encodable
                         parse_validation json_loads pydantic_str h (r, st)))
      as [Hp Hn].
    assert (Hstep : h `prefix_of`
                      Intake.submit sha256_hex utf8_encodable parse_validation
                        json_loads pydantic_str h (r, st)
                    /\ (NoDup h ->
                        NoDup (Intake.submit sha256_hex utf8_encodable
                                 parse_validation json_loads pydantic_str h
                                 (r, st)))).
    { unfold Intake.submit. cbn [fst snd].
      destruct (process_registry sha256_hex utf8_encodable parse_validation
                  json_loads pydantic_str r h st) as [[-> _]|[-> _]].
      - split; [reflexivity|auto].
      - split; [apply store_hash_prefix|apply store_hash_NoDup]. }
    destruct Hstep as [Hp1 Hn1]. split.
    + etransitivity; [exact Hp1|exact Hp].
    + auto.
Qed.

Lemma pre_validation_reason_nonempty (t reason : string) :
  Intake._pre_validate_transcript utf8_encodable t = Some reason ->
  Py.is_empty reason = false.
Proof.
  unfold Intake._pre_validate_transcript.
  repeat match goal with
         | |- context [if ?b then _ else _] => destruct b
         end;
    intros [= <-]; reflexivity.
Qed.

(** X4: a transcript that pre-validation rejects is rejected before the
    language model is asked: the outcome of the intake is the same whatever
    the replies are, an error is set, the state gets no call data and the
    registry is left as it is. *)
Theorem pre_validation_rejects_before_model (r r' : LlmReplies)
    (h : list string) (st : GraphState) (t reason : string) :
  transcript st = Some t ->
  Intake._pre_validate_transcript utf8_encodable t = Some reason ->
  process r h st = process r' h st
  /\ snd (process r h st) = h
  /\ call_data (fst (process r h st)) = call_data st
  /\ Py.truthy (error (fst (process r h st))) = true
  /\ (t <> "" -> fingerprint t ∉ h ->
      error (fst (process r h st)) = Some reason
      /\ validation_failed (fst (process r h st)) = true).
Proof.
  intros Et Hpre. pose proof (pre_validation_reason_nonempty t reason Hpre).
  unfold Intake.process. rewrite Et. change (default "" (Some t)) with t.
  destruct (Py.is_empty t) eqn:Ee.
  { destruct t; [|discriminate]. repeat split; congruence. }
  unfold Intake._is_duplicate.
  case_bool_decide as Hdup.
  { repeat split; intros; contradiction. }
  rewrite Hpre. cbn. rewrite H. repeat split.
Qed.

(** X5: when the language model cannot validate the transcript (the request
    raises, or its answer cannot be parsed), a transcript that passed the
    duplicate check and pre-validation is rejected as not valid, with the
    reason "Unable to validate transcript: ..." of the failure; it gets no
    call data and is not recorded. *)
Theorem unvalidated_transcript_is_rejected (r : LlmReplies) (h : list string)
    (st : GraphState) (t e : string) :
  transcript st = Some t -> t <> "" -> fingerprint t ∉ h ->
  Intake._pre_validate_transcript utf8_encodable t = None ->
  validation_reply r = Raise e
  \/ (exists content,
        validation_reply r = Ok content /\ parse_validation content = Raise e) ->
  error (fst (process r h st))
  = Some ("Not a valid call center conversation: Unable to validate transcript: "
          +:+ e)
  /\ validation_failed (fst (process r h st)) = true
  /\ call_data (fst (process r h st)) = call_data st
  /\ snd (process r h st) = h.
Proof.
  intros Et Hne Hfresh Hpre Hfail.
  assert (Hv : Intake._validate_and_extract_metadata parse_validation
                 (validation_reply r)
               = {| is_valid := false;
                    validation_reason := "Unable to validate transcript: " +:+ e;
                    extracted_metadata := None |}).
  { unfold Intake._validate_and_extract_metadata.
    destruct Hfail as [->|(content & -> & Hp)]; cbn; [|rewrite Hp];
      reflexivity. }
  unfold Intake.process. rewrite Et. change (default "" (Some t)) with t.
  destruct t; [congruence|]. cbn [Py.is_empty].
  unfold Intake._is_duplicate. rewrite bool_decide_eq_false_2 by exact Hfresh.
  rewrite Hpre, Hv. cbn. repeat split.
Qed.

(** X6: for a state that enters the intake without error and without call
    data, the orchestrator goes on to summarization exactly when the intake
    took the call in; otherwise an error is set, the run ends, and the
    registry is as before. *)
Theorem intake_outcome_routes (r : LlmReplies) (h : list string)
    (st : GraphState) :
  Py.truthy (error st) = false -> validation_failed st = false ->
  call_data st = None ->
  (taken_in h (r, st)
   /\ Workflow.next_node Workflow.call_intake (fst (process r h st))
      = Some Workflow.summarization)
  \/ (~ taken_in h (r, st)
      /\ Py.truthy (error (fst (process r h st))) = true
      /\ Workflow.next_node Workflow.call_intake (fst (process r h st))
         = Some Workflow.END
      /\ snd (process r h st) = h).
Proof.
  intros Herr Hvf Hnone.
  unfold Intake.taken_in, Workflow.next_node,
    Workflow._should_continue_after_intake. cbn [fst snd].
  unfold Intake.process.
  destruct (Py.is_empty _).
  { right. cbn. rewrite Hnone. repeat split. intros [? [=]]. }
  destruct (Intake._is_duplicate _ h).
  { right. cbn. rewrite Hnone. repeat split. intros [? [=]]. }
  destruct (Intake._pre_validate_transcript _ _) as [reason|] eqn:Hpre.
  { right. cbn. rewrite Hnone.
    rewrite (pre_validation_reason_nonempty _ _ Hpre).
    repeat split. intros [? [=]]. }
  destruct (negb _).
  { right. cbn. rewrite Hnone. repeat split. intros [? [=]]. }
  destruct (Intake._extract_conversation _ _ _ _) as [conv turns].
  destruct (pydantic_str conv).
  { right. cbn. rewrite Hnone. repeat split. intros [? [=]]. }
  left. cbn. rewrite Herr, Hvf. cbn. split; [eauto|reflexivity].
Qed.

End IntakeRuns.

Lemma registry_append_only_witness :
  let subs :=
    [(Sample.replies, Workflow.initial_state "text" Sample.dialogue);
     (Sample.replies, Workflow.initial_state "text" "hello");
     (Sample.replies, Workflow.initial_state "text" Sample.dialogue_again)] in
  List.length (Sample.submit_all [] subs) = 1%nat
  /\ NoDup (Sample.submit_all [] subs).
Proof.
  cbv zeta. split; [vm_compute; reflexivity|].
  apply (registry_append_only Sample.sha256_hex Sample.utf8_encodable
           Sample.parse_validation Sample.json_loads Sample.pydantic_str []).
  constructor.
Defined.

Lemma pre_validation_rejects_before_model_witness :
  Sample.process Sample.replies []
    (Workflow.initial_state "text" "Agent: Hi. Caller: Hello, bye.")
  = Sample.process
      {| validation_reply := Raise "offline";
         conversation_reply := Raise "offline" |}
      [] (Workflow.initial_state "text" "Agent: Hi. Caller: Hello, bye.").
Proof.
  apply (pre_validation_rejects_before_model Sample.sha256_hex
           Sample.utf8_encodable Sample.parse_validation Sample.json_loads
           Sample.pydantic_str _ _ []
           (Workflow.initial_state "text" "Agent: Hi. Caller: Hello, bye.")
           "Agent: Hi. Caller: Hello, bye."
           "Transcript too short (minimum 50 characters)").
  - reflexivity.
  - vm_compute. reflexivity.
Defined.

Lemma unvalidated_transcript_is_rejected_witness :
  error (fst (Sample.process
                {| validation_reply := Raise "offline";
                   conversation_reply := Raise "offline" |}
                [] (Workflow.initial_state "text" Sample.dialogue)))
  = Some "Not a valid call center conversation: Unable to validate transcript: offline".
Proof.
  apply (unvalidated_transcript_is_rejected Sample.sha256_hex
           Sample.utf8_encodable Sample.parse_validation Sample.json_loads
           Sample.pydantic_str
           {| validation_reply := Raise "offline";
              conversation_reply := Raise "offline" |}
           [] (Workflow.initial_state "text" Sample.dialogue)
           Sample.dialogue "offline").
  - reflexivity.
  - discriminate.
  - apply not_elem_of_nil.
  - vm_compute. reflexivity.
  - left. reflexivity.
Defined.

Lemma intake_outcome_routes_witness :
  Workflow.next_node Workflow.call_intake
    (fst (Sample.process Sample.replies []
            (Workflow.initial_state "text" Sample.dialogue)))
  = Some Workflow.summarization
  /\ Workflow.next_node Workflow.call_intake
       (fst (Sample.process Sample.replies []
               (Workflow.initial_state "text" "hello")))
     = Some Workflow.END.
Proof.
  split.
  - destruct (intake_outcome_routes Sample.sha256_hex Sample.utf8_encodable
                Sample.parse_validation Sample.json_loads Sample.pydantic_str
                Sample.replies []
                (Workflow.initial_state "text" Sample.dialogue))
      as [[_ H]|[Hn _]]; [reflexivity|reflexivity|reflexivity|exact H|].
    exfalso. apply Hn. vm_compute. eexists. reflexivity.
  - destruct (intake_outcome_routes Sample.sha256_hex Sample.utf8_encodable
                Sample.parse_validation Sample.json_loads Sample.pydantic_str
                Sample.replies []
                (Workflow.initial_state "text" "hello"))
      as [[Ht _]|(_ & _ & H & _)]; [reflexivity|reflexivity|reflexivity| |exact H].
    exfalso. vm_compute in Ht. destruct Ht as [? [=]].
Defined.

(** ** Normalization *)

Lemma lower_char_idem (c : ascii) :
  Py.lower_char (Py.lower_char c) = Py.lower_char c.
Proof.
  destruct c as [[] [] [] [] [] [] [] []]; vm_compute; reflexivity.
Qed.

Lemma lower_idem (s : string) : Py.lower (Py.lower s) = Py.lower s.
Proof.
  induction s as [|c s IH]; cbn; [reflexivity|].
  rewrite lower_char_idem, IH. reflexivity.
Qed.

Lemma split_from_lstrip (s : string) :
  Py.split_from "" (Py.lstrip s) = Py.split_from "" s.
Proof.
  induction s as [|c s IH]; cbn; [reflexivity|].
  destruct (Py.isspace c) eqn:Ec; cbn; [exact IH|].
  rewrite Ec. reflexivity.
Qed.

Lemma split_from_rstrip (cur s : string) :
  Py.split_from cur (Py.rstrip s) = Py.split_from cur s.
Proof.
  revert cur. induction s as [|c s IH]; intros cur; cbn; [reflexivity|].
  destruct (Py.isspace c) eqn:Ec; cbn.
  - destruct (Py.is_empty (Py.rstrip s)) eqn:Er; cbn.
    + assert (Hnil : Py.split_from "" s = []).
      { rewrite <- IH. destruct (Py.rstrip s); [reflexivity|discriminate]. }
      rewrite Hnil. destruct (Py.is_empty cur); reflexivity.
    + rewrite Ec. rewrite !IH. reflexivity.
  - rewrite Ec. apply IH.
Qed.

(** Stripping a text does not change its words. *)
Lemma split_strip (s : string) : Py.split (Py.strip s) = Py.split s.
Proof.
  unfold Py.split, Py.strip. rewrite split_from_rstrip.
  apply split_from_lstrip.
Qed.

Lemma append_cons (c : ascii) (a b : string) :
  String c a +:+ b = String c (a +:+ b).
Proof. reflexivity. Qed.

Lemma append_empty_r (a : string) : a +:+ "" = a.
Proof.
  induction a as [|c a IH]; [reflexivity|]. rewrite append_cons, IH.
  reflexivity.
Qed.

Lemma append_assoc (a b c : string) : (a +:+ b) +:+ c = a +:+ (b +:+ c).
Proof.
  induction a as [|d a IH]; [reflexivity|]. rewrite !append_cons, IH.
  reflexivity.
Qed.

Lemma all_chars_app (p : ascii -> bool) (a b : string) :
  PyChars.all_chars p (a +:+ b)
  = PyChars.all_chars p a && PyChars.all_chars p b.
Proof.
  induction a as [|c a IH]; [reflexivity|].
  rewrite append_cons. cbn. rewrite IH. apply andb_assoc.
Qed.

(** The words of a text are made of its characters that are not
    whitespace. *)
Lemma split_from_chars (p : ascii -> bool) (s cur w : string) :
  PyChars.all_chars (fun c => Py.isspace c || p c) s = true ->
  PyChars.all_chars p cur = true ->
  w ∈ Py.split_from cur s -> PyChars.all_chars p w = true.
Proof.
  revert cur. induction s as [|c s IH]; intros cur Hs Hcur; cbn in *.
  - destruct (Py.is_empty cur); intros Hw.
    + apply elem_of_nil in Hw. contradiction.
    + apply list_elem_of_singleton in Hw. subst w. exact Hcur.
  - apply andb_prop in Hs as [Hc Hs].
    destruct (Py.isspace c) eqn:Ec.
    + destruct (Py.is_empty cur).
      * apply IH; [exact Hs|reflexivity].
      * intros Hw. apply elem_of_cons in Hw as [->|Hw]; [exact Hcur|].
        apply (IH ""); [exact Hs|reflexivity|exact Hw].
    + apply IH; [exact Hs|]. rewrite all_chars_app, Hcur. cbn.
      cbn in Hc. rewrite Hc. reflexivity.
Qed.

Lemma split_words (s w : string) :
  w ∈ Py.split s -> PyChars.is_word w = true.
Proof.
  intros Hw. unfold PyChars.is_word.
  rewrite (split_from_words "" s w Hw). cbn.
  apply (split_from_chars _ s "" w); [|reflexivity|exact Hw].
  clear. induction s as [|c s IH]; cbn; [reflexivity|].
  rewrite IH. destruct (Py.isspace c); reflexivity.
Qed.

Lemma split_from_word (w cur s : string) :
  PyChars.all_chars (fun c => negb (Py.isspace c)) w = true ->
  Py.split_from cur (w +:+ s) = Py.split_from (cur +:+ w) s.
Proof.
  revert cur. induction w as [|c w IH]; intros cur Hw.
  - rewrite append_empty_r. reflexivity.
  - cbn in Hw. apply andb_prop in Hw as [Hc Hw].
    rewrite append_cons. cbn.
    destruct (Py.isspace c); [discriminate|].
    rewrite IH by exact Hw. rewrite append_assoc. reflexivity.
Qed.

(** Splitting the words joined by one space gives the words back. *)
Lemma split_join (ws : list string) :
  Forall (fun w => PyChars.is_word w = true) ws ->
  Py.split (Py.join " " ws) = ws.
Proof.
  unfold Py.split, Py.join.
  induction 1 as [|w ws Hw Hws IH]; [reflexivity|].
  unfold PyChars.is_word in Hw. apply andb_prop in Hw as [Hne Hw].
  destruct ws as [|w' ws].
  - cbn [String.concat]. rewrite <- (append_empty_r w) at 1.
    rewrite split_from_word by exact Hw.
    change ("" +:+ w) with w. cbn.
    destruct (Py.is_empty w); [discriminate|reflexivity].
  - cbn [String.concat]. rewrite split_from_word by exact Hw.
    change ("" +:+ w) with w. rewrite append_cons. cbn.
    destruct (Py.is_empty w); [discriminate|].
    f_equal. exact IH.
Qed.

Lemma lower_app (a b : string) :
  Py.lower (a +:+ b) = Py.lower a +:+ Py.lower b.
Proof.
  induction a as [|c a IH]; [reflexivity|].
  rewrite !append_cons. cbn. rewrite append_cons, IH. reflexivity.
Qed.

Lemma lower_lstrip (u : string) :
  Py.lower (Py.lstrip u) = Py.lstrip (Py.lower u).
Proof.
  induction u as [|c u IH]; cbn; [reflexivity|].
  rewrite isspace_lower_char. destruct (Py.isspace c); [exact IH|].
  reflexivity.
Qed.

Lemma lower_rstrip (u : string) :
  Py.lower (Py.rstrip u) = Py.rstrip (Py.lower u).
Proof.
  induction u as [|c u IH]; cbn; [reflexivity|].
  rewrite isspace_lower_char, <- IH.
  assert (He : Py.is_empty (Py.lower (Py.rstrip u))
               = Py.is_empty (Py.rstrip u))
    by (destruct (Py.rstrip u); reflexivity).
  rewrite He. destruct (Py.isspace c && Py.is_empty (Py.rstrip u));
    reflexivity.
Qed.

Lemma lower_join (ws : list string) :
  Forall (fun w => Py.lower w = w) ws ->
  Py.lower (Py.join " " ws) = Py.join " " ws.
Proof.
  unfold Py.join. induction 1 as [|w ws Hw Hws IH]; [reflexivity|].
  destruct ws as [|w' ws]; [exact Hw|].
  change (String.concat " " (w :: w' :: ws))
    with (w +:+ " " +:+ String.concat " " (w' :: ws)).
  rewrite !lower_app, Hw, IH. reflexivity.
Qed.

Lemma all_chars_lower_fixed (w : string) :
  PyChars.all_chars (fun c => bool_decide (Py.lower_char c = c)) w = true ->
  Py.lower w = w.
Proof.
  induction w as [|c w IH]; cbn; [reflexivity|].
  intros H. apply andb_prop in H as [Hc Hw].
  apply bool_decide_eq_true in Hc. rewrite Hc, IH by exact Hw. reflexivity.
Qed.

(** X7: the fingerprint sees the lower-case words of the transcript only:
    surrounding whitespace, runs of whitespace and letter case do not change
    the normalized text, and normalizing a normalized text changes
    nothing, so a transcript and its normalized text have the same
    fingerprint. *)
Theorem normalize_canonical (sha256_hex : string -> string) (t : string) :
  Intake.normalize t = Py.join " " (Py.split (Py.lower t))
  /\ Intake.normalize (Py.lower t) = Intake.normalize t
  /\ Intake.normalize (Py.strip t) = Intake.normalize t
  /\ Intake.normalize (Intake.normalize t) = Intake.normalize t
  /\ Intake._compute_transcript_hash sha256_hex (Intake.normalize t)
     = Intake._compute_transcript_hash sha256_hex t.
Proof.
  assert (H1 : forall u, Intake.normalize u
                         = Py.join " " (Py.split (Py.lower u))).
  { intros u. unfold Intake.normalize. rewrite split_strip. reflexivity. }
  assert (Hidem : Intake.normalize (Intake.normalize t) = Intake.normalize t).
  { rewrite (H1 (Intake.normalize t)), (H1 t).
    set (ws := Py.split (Py.lower t)).
    assert (Hwords : Forall (fun w => PyChars.is_word w = true) ws).
    { apply Forall_forall. intros w Hw. apply (split_words (Py.lower t)).
      apply list_elem_of_In. exact Hw. }
    assert (Hlow : Forall (fun w => Py.lower w = w) ws).
    { apply Forall_forall. intros w Hw. apply all_chars_lower_fixed.
      apply (split_from_chars _ (Py.lower t) "" w); [|reflexivity|].
      - clear. induction t as [|c t IH]; cbn; [reflexivity|].
        rewrite IH, lower_char_idem.
        rewrite bool_decide_eq_true_2 by reflexivity.
        rewrite orb_true_r. reflexivity.
      - apply list_elem_of_In. exact Hw. }
    rewrite lower_join by exact Hlow.
    rewrite split_join by exact Hwords. reflexivity. }
  split; [apply H1|]. split.
  { rewrite !H1, lower_idem. reflexivity. }
  split.
  { rewrite !H1. unfold Py.strip.
    rewrite lower_rstrip, lower_lstrip.
    change (Py.rstrip (Py.lstrip (Py.lower t))) with (Py.strip (Py.lower t)).
    rewrite split_strip. reflexivity. }
  split; [exact Hidem|].
  unfold Intake._compute_transcript_hash. rewrite Hidem. reflexivity.
Qed.

(** X8: the input check of the intake is weaker than pre-validation: every
    text that pre-validation lets through is a valid input, and a text
    that is not a valid input is rejected by pre-validation as too short. *)
Theorem pre_validated_is_valid_input (utf8_encodable : string -> bool)
    (text : string) :
  (Intake._pre_validate_transcript utf8_encodable text = None ->
   IntakeInput.validate_input text = (true, None))
  /\ (fst (IntakeInput.validate_input text) = false ->
      Intake._pre_validate_transcript utf8_encodable text
      = Some "Transcript too short (minimum 50 characters)").
Proof.
  unfold IntakeInput.validate_input, Intake._pre_validate_transcript.
  destruct text as [|c text].
  { split; [discriminate|reflexivity]. }
  cbn [Py.is_empty orb].
  destruct (Py.len (Py.strip (String c text)) <? 50)%Z eqn:E50.
  { split; [discriminate|reflexivity]. }
  destruct (Py.len (Py.strip (String c text)) <? 10)%Z eqn:E10; [lia|].
  split; [reflexivity|discriminate].
Qed.

Lemma pre_validated_is_valid_input_witness :
  IntakeInput.validate_input Sample.dialogue = (true, None)
  /\ Intake._pre_validate_transcript Sample.utf8_encodable "   hi   "
     = Some "Transcript too short (minimum 50 characters)".
Proof.
  destruct (pre_validated_is_valid_input Sample.utf8_encodable Sample.dialogue)
    as [H1 _].
  destruct (pre_validated_is_valid_input Sample.utf8_encodable "   hi   ")
    as [_ H2].
  split; [apply H1; vm_compute; reflexivity|apply H2; vm_compute; reflexivity].
Defined.

(** ** Quality scoring *)

Lemma float_nonneg (g : string) : (Q2Qc 0 <= Re.float g)%Qc.
Proof.
  unfold Re.float. destruct (Re.span_digits g) as [i r].
  unfold Qcle. cbn [this Q2Qc]. rewrite !Qred_correct.
  unfold Qle. cbn. lia.
Qed.

Lemma sum_scores_nonneg (l : list Qc) :
  Forall (fun v => (Q2Qc 0 <= v)%Qc) l ->
  (Q2Qc 0 <= QualityScoring.sum_scores l)%Qc.
Proof.
  induction 1 as [|v l Hv Hl IH]; cbn.
  - apply Qcle_refl.
  - apply Qcplus_nonneg_nonneg; assumption.
Qed.

Lemma mean_nonneg (l : list Qc) :
  l <> [] -> Forall (fun v => (Q2Qc 0 <= v)%Qc) l ->
  (Q2Qc 0 <= QualityScoring.mean l)%Qc.
Proof.
  intros Hne Hl. unfold QualityScoring.mean, Qcdiv.
  apply Qcmult_nonneg_nonneg; [apply sum_scores_nonneg; exact Hl|].
  apply Qclt_le_weak, Qcinv_pos.
  destruct l as [|v l]; [congruence|].
  unfold Qclt. cbn [this Q2Qc]. rewrite !Qred_correct.
  unfold Qlt. cbn. lia.
Qed.

(** X9: every score the fallback parser returns has non-negative numbers in
    its five score fields, and its lists of strengths and of areas for
    improvement are not empty. *)
Theorem fallback_score_fields (raw : string) (q : QualityScore) :
  QualityScoring._create_fallback_score raw = Some q ->
  (Q2Qc 0 <= overall_score q)%Qc
  /\ (Q2Qc 0 <= tone_score q)%Qc
  /\ (Q2Qc 0 <= professionalism_score q)%Qc
  /\ (Q2Qc 0 <= resolution_score q)%Qc
  /\ (Q2Qc 0 <= response_time_score q)%Qc
  /\ strengths q <> []
  /\ areas_for_improvement q <> [].
Proof.
  intros H.
  assert (Hd0 : forall l d, d <> [] -> QualityScoring.or_default l d <> [])
    by (intros [|x l] d Hne; [exact Hne|discriminate]).
  split_searches raw; try discriminate; injection H as <-;
    cbn -[Re.float QualityScoring.mean];
    repeat split;
    try apply float_nonneg; try apply Qcle_refl;
    try (apply Hd0; discriminate);
    try (apply mean_nonneg; [discriminate|];
         repeat constructor; apply float_nonneg).
Qed.

Lemma fallback_score_fields_witness :
  exists q,
    QualityScoring._create_fallback_score "Tone: 8" = Some q
    /\ (Q2Qc 0 <= professionalism_score q)%Qc
    /\ strengths q <> [].
Proof.
  eexists. split; [vm_compute; reflexivity|].
  match goal with
  | |- context [professionalism_score ?q] =>
      destruct (fallback_score_fields "Tone: 8" q)
        as (_ & _ & Hp & _ & _ & Hs & _); [vm_compute; reflexivity|]
  end.
  split; assumption.
Defined.

(** X10: quality scoring never aborts a call that has its data: whatever
    the language model replies, the agent sets no error and keeps the call
    data; it either stores a score and leaves the review flag as it was, or
    stores no score and sets the review flag; the orchestrator goes on to
    storage. When the request itself raises, no score is stored. *)
Theorem scoring_never_aborts (parse_quality : string -> Exc QualityScore)
    (reply : Exc string) (state : GraphState) :
  is_Some (call_data state) ->
  let state' := QualityAgent.process parse_quality reply state in
  error state' = error state
  /\ call_data state' = call_data state
  /\ ((is_Some (quality_score state')
       /\ needs_manual_review state' = needs_manual_review state)
      \/ (quality_score state' = None /\ needs_manual_review state' = true))
  /\ Workflow.next_node Workflow.quality_scoring state'
     = Some Workflow.data_storage
  /\ ((exists e, reply = Raise e) ->
      quality_score state' = None /\ needs_manual_review state' = true).
Proof.
  intros [cd Hcd]. cbv zeta. unfold QualityAgent.process. rewrite Hcd.
  unfold QualityAgent._evaluate_quality.
  assert (Hok : forall q : QualityScore, is_Some (Some q)) by eauto.
  destruct reply as [e|content]; cbn.
  { split; [reflexivity|]. split; [congruence|]. split; [right; auto|].
    split; [reflexivity|]. auto. }
  destruct (parse_quality content) as [e|q]; cbn.
  - destruct (QualityScoring._create_fallback_score content) as [q|]; cbn.
    + split; [reflexivity|]. split; [congruence|]. split; [left; auto|].
      split; [reflexivity|]. intros (e' & [=]).
    + split; [reflexivity|]. split; [congruence|]. split; [right; auto|].
      split; [reflexivity|]. auto.
  - split; [reflexivity|]. split; [congruence|]. split; [left; auto|].
    split; [reflexivity|]. intros (e' & [=]).
Qed.

Lemma scoring_never_aborts_witness :
  let state' :=
    QualityAgent.process SampleRun.parse_quality (Ok "I cannot score this.")
      SampleRun.summarized_state in
  error state' = None
  /\ quality_score state' = None
  /\ needs_manual_review state' = true.
Proof.
  cbv zeta.
  destruct (scoring_never_aborts SampleRun.parse_quality
              (Ok "I cannot score this.") SampleRun.summarized_state)
    as (He & _ & _ & _ & _); [eexists; reflexivity|].
  split; [rewrite He; reflexivity|]. split; vm_compute; reflexivity.
Defined.

(** ** Content safety *)

(** X11: for a state without error that has a transcript, the gate fails
    closed on a flagged result: the content passes exactly when the
    moderation result flags no category. When a category is flagged the
    review flag is set, no error is set, the flagged categories are kept in
    the details in the order of the result, and the orchestrator goes to
    storage; otherwise it goes on to the intake. *)
Theorem flagged_content_fails_closed (result : ModerationResult)
    (state : GraphState) :
  Py.truthy (error state) = false ->
  Py.truthy (transcript state) = true ->
  let state' := Workflow._content_safety_node (Ok result) state in
  let flagged_names :=
    map fst (List.filter (fun kv => snd kv) (categories result)) in
  error state' = error state
  /\ content_safety_passed state' = Some (Guardrails.is_nil flagged_names)
  /\ (flagged_names <> [] ->
      needs_manual_review state' = true
      /\ DataStorage.details_flagged_categories (content_safety_details state')
         = flagged_names
      /\ Workflow.next_node Workflow.content_safety state'
         = Some Workflow.data_storage)
  /\ (flagged_names = [] ->
      needs_manual_review state' = needs_manual_review state
      /\ Workflow.next_node Workflow.content_safety state'
         = Some Workflow.call_intake).
Proof.
  intros Herr Htr. cbv zeta.
  unfold Workflow._content_safety_node. rewrite Herr.
  unfold ContentSafetyAgent.process.
  destruct (transcript state) as [t|]; [|discriminate].
  destruct t; [discriminate|]. cbn [default Py.is_empty try_except].
  unfold Guardrails.check_transcript_safety, Guardrails.check_content.
  cbn [Guardrails.ENABLE_CONTENT_SAFETY try_except bind andb].
  destruct (map fst (List.filter (fun kv => snd kv) (categories result)))
    as [|c cs] eqn:Ef; cbn.
  - unfold Workflow.next_node, Workflow._should_continue_after_safety_check.
    cbn. rewrite Herr. repeat split; congruence.
  - unfold Workflow.next_node, Workflow._should_continue_after_safety_check.
    cbn. repeat split; congruence.
Qed.

Lemma flagged_content_fails_closed_witness :
  let state' :=
    Workflow._content_safety_node (Ok SampleRun.flagged_result)
      (Workflow.initial_state "text" Sample.dialogue) in
  content_safety_passed state' = Some false
  /\ DataStorage.details_flagged_categories (content_safety_details state')
     = ["harassment"].
Proof.
  cbv zeta.
  destruct (flagged_content_fails_closed SampleRun.flagged_result
              (Workflow.initial_state "text" Sample.dialogue))
    as (_ & Hp & Hf & _); [reflexivity|reflexivity|].
  split; [exact Hp|]. apply Hf. discriminate.
Defined.

(** X12: without a transcript the gate does not consult the moderation
    service: for a state without error whose transcript is missing or
    empty, the content passes with empty details whatever the service would
    answer, and the intake that follows sets the error "No transcription
    available for processing", takes nothing in, and the run ends. *)
Theorem no_transcript_ends_at_intake (sha256_hex : string -> string)
    (utf8_encodable : string -> bool)
    (parse_validation : string -> Exc ValidationAndMetadata)
    (json_loads : string -> Exc Json) (pydantic_str : Json -> Exc string)
    (moderation : Exc ModerationResult) (replies : LlmReplies)
    (hashes : list string) (state : GraphState) :
  Py.truthy (error state) = false ->
  Py.truthy (transcript state) = false ->
  let state1 := Workflow._content_safety_node moderation state in
  let out :=
    Nodes._call_intake_node sha256_hex utf8_encodable parse_validation
      json_loads pydantic_str replies hashes state1 in
  content_safety_passed state1 = Some true
  /\ content_safety_details state1 = NoDetails
  /\ Workflow.next_node Workflow.content_safety state1
     = Some Workflow.call_intake
  /\ error (fst out) = Some "No transcription available for processing"
  /\ call_data (fst out) = call_data state
  /\ snd out = hashes
  /\ Workflow.next_node Workflow.call_intake (fst out) = Some Workflow.END.
Proof.
  intros Herr Htr. cbv zeta.
  unfold Workflow._content_safety_node. rewrite Herr.
  unfold ContentSafetyAgent.process.
  assert (He : Py.is_empty (default "" (transcript state)) = true).
  { destruct (transcript state) as [[|c t]|]; [reflexivity|discriminate|
      reflexivity]. }
  rewrite He. cbn [try_except].
  unfold Nodes._call_intake_node, Intake.process. cbn. rewrite Herr, He. cbn.
  unfold Workflow.next_node, Workflow._should_continue_after_safety_check,
    Workflow._should_continue_after_intake.
  cbn. rewrite ?Herr. repeat split.
Qed.

Lemma no_transcript_ends_at_intake_witness :
  let state := Workflow.initial_state "pdf" "report.pdf" in
  Workflow.entry_node state = Some Workflow.content_safety
  /\ error (fst (Nodes._call_intake_node Sample.sha256_hex
                   Sample.utf8_encodable Sample.parse_validation
                   Sample.json_loads Sample.pydantic_str Sample.replies []
                   (Workflow._content_safety_node
                      (Ok SampleRun.flagged_result) state)))
     = Some "No transcription available for processing".
Proof.
  cbv zeta. split; [reflexivity|].
  apply (no_transcript_ends_at_intake Sample.sha256_hex Sample.utf8_encodable
           Sample.parse_validation Sample.json_loads Sample.pydantic_str
           (Ok SampleRun.flagged_result) Sample.replies []
           (Workflow.initial_state "pdf" "report.pdf"));
    reflexivity.
Defined.

(** ** The store *)

Lemma has_agent_name_ensure (now : Clock) (cd : CallData) :
  DataStorage.has_agent_name (DataStorage.ensure_call_id now cd)
  = DataStorage.has_agent_name cd.
Proof.
  unfold DataStorage.ensure_call_id.
  destruct (Py.truthy (call_id (metadata cd))); reflexivity.
Qed.

Ltac unfold_store :=
  unfold DataStorage.process, DataStorage._store_flagged_content,
    DataStorage.store_call, DataStorage._store_call_record,
    DataStorage._store_quality_score, DataStorage._update_agent_performance,
    DataStorage.bindM, DataStorage.catch, DataStorage.ret,
    DataStorage.write_call_file, DataStorage.read_index,
    DataStorage.write_index, DataStorage.append_scores,
    DataStorage.read_performance, DataStorage.write_performance.

Ltac split_faults fails :=
  repeat match goal with
         | |- context [fails ?op] => destruct (fails op); cbn
         end.

(** X13: the agent appends and writes one call file. For a call whose
    identifier is a plain file name, whichever file operations fail (a
    failing operation leaving its file as it was), the index and the score
    ledger after the call are the ones before it with at most one entry
    more at the end; the only call file that can change is the file of the
    identifier of this call, or of the flagged content, where a record
    stored earlier under the same identifier is replaced; every other call
    file is as it was, and no call file disappears. *)
Theorem storage_appends_and_keeps_other_files (fails : FileOp -> bool)
    (read_name : list string -> string -> Cell) (now : Clock)
    (state : GraphState) (s : Storage) :
  (forall cd id,
      call_data state = Some cd -> call_id (metadata cd) = Some id ->
      DataStorage.is_plain_name id = true) ->
  let s' := snd (DataStorage.process fails read_name now state s) in
  let written :=
    if negb (default true (content_safety_passed state))
    then Some ("FLAGGED_" +:+ stamp now +:+ ".json")
    else (fun cd =>
            DataStorage.str_opt
              (call_id (metadata (DataStorage.ensure_call_id now cd)))
            +:+ ".json") <$> call_data state in
  (calls_db s' = calls_db s \/ exists e, calls_db s' = (calls_db s ++ [e])%list)
  /\ (scores_csv s' = scores_csv s
      \/ exists row, scores_csv s' = (scores_csv s ++ [row])%list)
  /\ (forall name, written <> Some name ->
                   calls_dir s' !! name = calls_dir s !! name)
  /\ (forall name, is_Some (calls_dir s !! name) ->
                   is_Some (calls_dir s' !! name)).
Proof.
  intros _. cbv zeta.
  assert (Hkeep : forall name name' r,
             is_Some (calls_dir s !! name) ->
             is_Some (<[name' := r]> (calls_dir s) !! name)).
  { intros name name' r H. rewrite lookup_insert_is_Some.
    destruct (decide (name' = name)); auto. }
  assert (Hother : forall name name' r,
             Some name' <> Some name ->
             <[name' := r]> (calls_dir s) !! name = calls_dir s !! name).
  { intros name name' r H. apply lookup_insert_ne. congruence. }
  unfold_store.
  destruct (negb (default true (content_safety_passed state))).
  { split_faults fails; repeat split; eauto. }
  destruct (call_data state) as [cd|]; cbn; [|repeat split; eauto].
  destruct (quality_score state) as [qs|];
    destruct (DataStorage.has_agent_name (DataStorage.ensure_call_id now cd));
    split_faults fails; repeat split; eauto.
Qed.

Lemma storage_appends_and_keeps_other_files_witness :
  let s' :=
    snd (DataStorage.process SampleStore.index_fails SampleStore.read_name
           SampleStore.noon SampleStore.scored_state
           SampleStore.empty_store) in
  calls_db s' = [] /\ scores_csv s' = []
  /\ calls_dir s' !! "CALL_20240101_110000.json" = None.
Proof.
  cbv zeta.
  destruct (storage_appends_and_keeps_other_files SampleStore.index_fails
              SampleStore.read_name SampleStore.noon SampleStore.scored_state
              SampleStore.empty_store)
    as (_ & _ & Hother & _).
  - intros cd id [= <-]. discriminate.
  - split; [vm_compute; reflexivity|]. split; [vm_compute; reflexivity|].
    rewrite Hother; [reflexivity|]. vm_compute. discriminate.
Defined.

(** X14: the score ledger and the agent aggregates are written only for a
    call that has both an agent name and a score: for a call without agent
    name, or without score, both files are left as they are, whichever file
    operations fail. *)
Theorem aggregates_need_agent_and_score (fails : FileOp -> bool)
    (read_name : list string -> string -> Cell) (now : Clock)
    (state : GraphState) (s : Storage) (cd : CallData) :
  default true (content_safety_passed state) = true ->
  call_data state = Some cd ->
  DataStorage.has_agent_name cd = false \/ quality_score state = None ->
  let s' := snd (DataStorage.process fails read_name now state s) in
  scores_csv s' = scores_csv s
  /\ agent_performance_csv s' = agent_performance_csv s.
Proof.
  intros Hsafe Hcd Hor. cbv zeta. unfold_store.
  rewrite Hsafe, Hcd. cbn [negb]. rewrite has_agent_name_ensure.
  destruct Hor as [-> | ->].
  - destruct (quality_score state); split_faults fails; split; reflexivity.
  - split_faults fails; split; reflexivity.
Qed.

Lemma aggregates_need_agent_and_score_witness :
  let s' :=
    snd (DataStorage.process SampleRun.no_fault SampleStore.read_name
           SampleStore.noon SampleRun.anonymous_state
           SampleStore.empty_store) in
  scores_csv s' = [] /\ agent_performance_csv s' = []
  /\ List.length (calls_db s') = 1%nat.
Proof.
  cbv zeta.
  destruct (aggregates_need_agent_and_score SampleRun.no_fault
              SampleStore.read_name SampleStore.noon
              SampleRun.anonymous_state SampleStore.empty_store
              (SampleStore.call None))
    as [H1 H2]; [reflexivity|reflexivity|left; reflexivity|].
  split; [exact H1|]. split; [exact H2|]. vm_compute. reflexivity.
Defined.

(** X15: when no file operation fails, a call that reaches the store with
    its data and whose identifier, if it has one, is a plain file name, is
    stored: the file of its identifier holds its record (in the place of a
    record stored earlier under the same identifier), the index has
    exactly one entry more, for this call, no error is set, and the state
    holds the identifier of the call; this does not depend on the agent
    name or on the score. With an agent name and a score, the ledger has
    one row more and the table of aggregates has a row of the name of the
    agent, however the names of the table are read back. *)
Theorem stored_call_is_complete (read_name : list string -> string -> Cell)
    (now : Clock) (state : GraphState) (s : Storage) (call_data0 : CallData) :
  default true (content_safety_passed state) = true ->
  call_data state = Some call_data0 ->
  (forall id, call_id (metadata call_data0) = Some id ->
              DataStorage.is_plain_name id = true) ->
  let cd := DataStorage.ensure_call_id now call_data0 in
  let review :=
    if DataStorage.has_agent_name cd then needs_manual_review state
    else true in
  let out := DataStorage.process (fun _ => false) read_name now state s in
  Py.truthy (call_id (metadata cd)) = true
  /\ error (fst out) = error state
  /\ call_data (fst out) = Some cd
  /\ calls_dir (snd out)
     = <[DataStorage.str_opt (call_id (metadata cd)) +:+ ".json" :=
           CallRecord (call_id (metadata cd)) (iso now) review (metadata cd)
             (conversation cd) (conversation_turns cd) (summary state)
             (quality_score state)]> (calls_dir s)
  /\ calls_db (snd out)
     = (calls_db s
        ++ [{| entry_call_id := call_id (metadata cd);
               entry_timestamp := iso now;
               entry_agent_name := agent_name (metadata cd);
               entry_overall_score := overall_score <$> quality_score state;
               entry_needs_manual_review := review;
               entry_status := None;
               entry_flagged_categories := None |}])%list
  /\ (forall qs, quality_score state = Some qs ->
                 DataStorage.has_agent_name cd = true ->
                 List.length (scores_csv (snd out))
                 = S (List.length (scores_csv s))
                 /\ DataStorage.performance_key cd
                    ∈ map perf_agent_name (agent_performance_csv (snd out))).
Proof.
  intros Hsafe Hcd _. cbv zeta.
  assert (Hrow : forall k qs rows,
             k ∈ map perf_agent_name
                   (DataStorage.written_table read_name k qs now rows)).
  { intros k qs rows. unfold DataStorage.written_table.
    generalize (DataStorage.read_csv read_name rows) as df. intros df.
    unfold DataStorage.updated_performance.
    destruct (DataStorage.first_total_calls k df) as [n|] eqn:E.
    - induction df as [|[c row] df IH]; cbn in E; [discriminate|].
      cbn [map]. unfold DataStorage.update_row at 1. cbn [fst snd].
      destruct (DataStorage.is_name k c) eqn:Ec.
      + destruct c as [name|w]; cbn in Ec; [|discriminate].
        apply bool_decide_eq_true in Ec. subst name.
        cbn. apply elem_of_cons. left. reflexivity.
      + apply elem_of_cons. right. apply IH. exact E.
    - rewrite !map_app. apply elem_of_app. right. cbn.
      apply list_elem_of_singleton. reflexivity. }
  unfold_store. rewrite Hsafe, Hcd. cbn [negb].
  set (cd := DataStorage.ensure_call_id now call_data0).
  split.
  { subst cd. unfold DataStorage.ensure_call_id.
    destruct (Py.truthy (call_id (metadata call_data0))) eqn:E;
      [exact E|reflexivity]. }
  destruct (quality_score state) as [qs|];
    destruct (DataStorage.has_agent_name cd); cbn;
    repeat split; try discriminate.
  - rewrite length_app. cbn. lia.
  - match goal with H : Some _ = Some _ |- _ => injection H as <- end.
    apply Hrow.
Qed.

Lemma stored_call_is_complete_witness :
  let out :=
    DataStorage.process (fun _ => false) SampleStore.read_name
      SampleStore.noon SampleRun.anonymous_state SampleStore.empty_store in
  (call_id <$> (metadata <$> call_data (fst out)))
  = Some (Some "CALL_20240101_120000")
  /\ List.length (calls_db (snd out)) = 1%nat.
Proof.
  cbv zeta.
  destruct (stored_call_is_complete SampleStore.read_name SampleStore.noon
              SampleRun.anonymous_state SampleStore.empty_store
              (SampleStore.call None))
    as (_ & _ & Hc & _ & Hdb & _);
    [reflexivity|reflexivity|discriminate|].
  split; [rewrite Hc; reflexivity|rewrite Hdb; reflexivity].
Defined.

(** ** The review list *)

Lemma str_ltb_irrefl (a : string) : Reports.str_ltb a a = false.
Proof.
  induction a as [|c a IH]; cbn [Reports.str_ltb]; [reflexivity|].
  rewrite Nat.ltb_irrefl. exact IH.
Qed.

Lemma str_ltb_asym (a b : string) :
  Reports.str_ltb a b = true -> Reports.str_ltb b a = false.
Proof.
  revert b. induction a as [|c a IH]; intros [|d b]; cbn [Reports.str_ltb]; try discriminate;
    try reflexivity.
  destruct (Py.code c <? Py.code d)%nat eqn:E1;
    destruct (Py.code d <? Py.code c)%nat eqn:E2;
    try reflexivity; try discriminate.
  - apply Nat.ltb_lt in E1, E2. lia.
  - apply IH.
Qed.

(** If [a < c] then [a < b] or [b < c]. *)
Lemma str_ltb_between (a b c : string) :
  Reports.str_ltb a c = true ->
  Reports.str_ltb a b = true \/ Reports.str_ltb b c = true.
Proof.
  revert b c. induction a as [|x a IH]; intros [|y b] [|z c]; cbn [Reports.str_ltb];
    try discriminate; auto.
  destruct (Py.code x <? Py.code z)%nat eqn:Exz.
  - intros _. apply Nat.ltb_lt in Exz.
    destruct (Py.code x <? Py.code y)%nat eqn:Exy; auto.
    right. apply Nat.ltb_ge in Exy.
    replace (Py.code y <? Py.code z)%nat with true; auto.
    symmetry. apply Nat.ltb_lt. lia.
  - destruct (Py.code z <? Py.code x)%nat eqn:Ezx; [discriminate|].
    intros Hac. apply Nat.ltb_ge in Exz, Ezx.
    destruct (Py.code x <? Py.code y)%nat eqn:Exy; auto.
    apply Nat.ltb_ge in Exy.
    destruct (Py.code y <? Py.code z)%nat eqn:Eyz; auto.
    apply Nat.ltb_ge in Eyz.
    replace (Py.code y <? Py.code x)%nat with false
      by (symmetry; apply Nat.ltb_ge; lia).
    replace (Py.code z <? Py.code y)%nat with false
      by (symmetry; apply Nat.ltb_ge; lia).
    apply IH. exact Hac.
Qed.

Lemma insert_desc_elem (x y : StoredRecord) (l : list StoredRecord) :
  y ∈ Reports.insert_desc x l <-> y = x \/ y ∈ l.
Proof.
  induction l as [|z l IH]; cbn.
  - rewrite list_elem_of_singleton, elem_of_nil. tauto.
  - destruct (Reports.str_ltb _ _).
    + rewrite !elem_of_cons, IH. tauto.
    + rewrite !elem_of_cons. tauto.
Qed.

Lemma sort_desc_elem (y : StoredRecord) (l : list StoredRecord) :
  y ∈ Reports.sort_desc l <-> y ∈ l.
Proof.
  unfold Reports.sort_desc. induction l as [|x l IH]; cbn; [reflexivity|].
  rewrite insert_desc_elem, elem_of_cons, IH. reflexivity.
Qed.

Lemma insert_desc_sorted (x : StoredRecord) (l : list StoredRecord) :
  ReviewOrder.newest_first l ->
  ReviewOrder.newest_first (Reports.insert_desc x l).
Proof.
  induction l as [|z l IH]; cbn; [auto|].
  intros [Hz Hl].
  destruct (Reports.str_ltb (Reports.record_timestamp x)
              (Reports.record_timestamp z)) eqn:E; cbn.
  - split; [|apply IH; exact Hl].
    apply Forall_forall. intros y Hy.
    apply list_elem_of_In, insert_desc_elem in Hy as [->|Hy].
    + apply str_ltb_asym. exact E.
    + rewrite Forall_forall in Hz. apply Hz. apply list_elem_of_In. exact Hy.
  - split; [|split; assumption].
    constructor; [exact E|].
    rewrite Forall_forall in Hz. apply Forall_forall. intros y Hy.
    destruct (Reports.str_ltb (Reports.record_timestamp x)
                (Reports.record_timestamp y)) eqn:Exy; [|reflexivity].
    destruct (str_ltb_between _ (Reports.record_timestamp z) _ Exy)
      as [H|H]; [congruence|].
    rewrite (Hz y Hy) in H. discriminate.
Qed.

Lemma sort_desc_sorted (l : list StoredRecord) :
  ReviewOrder.newest_first (Reports.sort_desc l).
Proof.
  unfold Reports.sort_desc. induction l as [|x l IH]; cbn; [exact I|].
  apply insert_desc_sorted. exact IH.
Qed.

(** The records of the review list are the files of the entries of the
    index that are flagged for review. *)
Lemma manual_review_elem (s : Storage) (r : StoredRecord) :
  r ∈ Reports.get_manual_review_calls s
  <-> exists e,
        e ∈ calls_db s /\ entry_needs_manual_review e = true
        /\ calls_dir s !! ReviewOrder.file_of e = Some r.
Proof.
  unfold Reports.get_manual_review_calls. rewrite sort_desc_elem.
  rewrite list_elem_of_omap. split.
  - intros (e & He & Hr). exists e.
    apply list_elem_of_In, filter_In in He as [He Hflag].
    split; [apply list_elem_of_In; exact He|]. split; [exact Hflag|exact Hr].
  - intros (e & He & Hflag & Hr). exists e. split; [|exact Hr].
    apply list_elem_of_In, filter_In. split; [|exact Hflag].
    apply list_elem_of_In. exact He.
Qed.

(** X16: the review list holds exactly the stored records of the entries of
    the index that are flagged for review and whose file exists, the most
    recent timestamp first. *)
Theorem manual_review_list (s : Storage) :
  (forall r,
      r ∈ Reports.get_manual_review_calls s
      <-> exists e,
            e ∈ calls_db s /\ entry_needs_manual_review e = true
            /\ calls_dir s !! ReviewOrder.file_of e = Some r)
  /\ ReviewOrder.newest_first (Reports.get_manual_review_calls s)
  /\ (List.length (Reports.get_manual_review_calls s)
      <= List.length (calls_db s))%nat.
Proof.
  split; [intros r; apply manual_review_elem|].
  split; [apply sort_desc_sorted|].
  unfold Reports.get_manual_review_calls.
  assert (Hlen : forall l, List.length (Reports.sort_desc l) = List.length l).
  { unfold Reports.sort_desc. induction l as [|x l IH]; cbn; [reflexivity|].
    rewrite <- IH. generalize (foldr Reports.insert_desc [] l) as l'.
    clear. induction l' as [|z l' IH]; cbn; [reflexivity|].
    destruct (Reports.str_ltb _ _); cbn; [rewrite IH|]; reflexivity. }
  rewrite Hlen.
  etransitivity; [|apply (List.filter_length_le entry_needs_manual_review)].
  generalize (List.filter entry_needs_manual_review (calls_db s)).
  induction l as [|e l IH]; cbn; [lia|].
  destruct (calls_dir s !! _); cbn; lia.
Qed.

(** ** Storing and listing *)

(** The files of the calls and the index after [process], when no file
    operation fails. *)
Lemma process_call_files (read_name : list string -> string -> Cell)
    (now : Clock) (state : GraphState) (s : Storage) (call_data0 : CallData) :
  default true (content_safety_passed state) = true ->
  call_data state = Some call_data0 ->
  let cd := DataStorage.ensure_call_id now call_data0 in
  let review :=
    if DataStorage.has_agent_name call_data0 then needs_manual_review state
    else true in
  let s' :=
    snd (DataStorage.process (fun _ => false) read_name now state s) in
  calls_dir s'
  = <[DataStorage.str_opt (call_id (metadata cd)) +:+ ".json" :=
        CallRecord (call_id (metadata cd)) (iso now) review (metadata cd)
          (conversation cd) (conversation_turns cd) (summary state)
          (quality_score state)]> (calls_dir s)
  /\ calls_db s'
     = (calls_db s
        ++ [{| entry_call_id := call_id (metadata cd);
               entry_timestamp := iso now;
               entry_agent_name := agent_name (metadata cd);
               entry_overall_score := overall_score <$> quality_score state;
               entry_needs_manual_review := review;
               entry_status := None;
               entry_flagged_categories := None |}])%list.
Proof.
  intros Hsafe Hcd. cbv zeta. unfold_store. rewrite Hsafe, Hcd. cbn [negb].
  rewrite has_agent_name_ensure.
  destruct (quality_score state) as [qs|];
    destruct (DataStorage.has_agent_name call_data0); cbn; split; reflexivity.
Qed.

(** X17: a call stored without agent name, or with the review flag set, is
    on the review list right after: when no file operation fails, the entry
    added to the index is flagged exactly in these two cases, and the
    review list then holds the record just written. *)
Theorem stored_call_review_listing (read_name : list string -> string -> Cell)
    (now : Clock) (state : GraphState) (s : Storage) (call_data0 : CallData) :
  default true (content_safety_passed state) = true ->
  call_data state = Some call_data0 ->
  let cd := DataStorage.ensure_call_id now call_data0 in
  let review :=
    negb (DataStorage.has_agent_name call_data0) || needs_manual_review state in
  let s' :=
    snd (DataStorage.process (fun _ => false) read_name now state s) in
  entry_needs_manual_review <$> list.last (calls_db s') = Some review
  /\ (review = true ->
      CallRecord (call_id (metadata cd)) (iso now) true (metadata cd)
        (conversation cd) (conversation_turns cd) (summary state)
        (quality_score state)
      ∈ Reports.get_manual_review_calls s').
Proof.
  intros Hsafe Hcd. cbv zeta.
  destruct (process_call_files read_name now state s call_data0 Hsafe Hcd)
    as [Hdir Hdb].
  cbv zeta in Hdir, Hdb.
  assert (Hrev :
            (if DataStorage.has_agent_name call_data0
             then needs_manual_review state else true)
            = negb (DataStorage.has_agent_name call_data0)
              || needs_manual_review state).
  { destruct (DataStorage.has_agent_name call_data0); reflexivity. }
  rewrite Hrev in Hdir, Hdb. split.
  - rewrite Hdb, last_snoc. reflexivity.
  - intros Htrue. rewrite Htrue in Hdir, Hdb.
    apply manual_review_elem. eexists. split; [|split].
    + rewrite Hdb. apply elem_of_app. right. apply list_elem_of_singleton.
      reflexivity.
    + reflexivity.
    + unfold ReviewOrder.file_of. cbn [entry_call_id].
      rewrite Hdir. apply lookup_insert_eq.
Qed.

Lemma stored_call_review_listing_witness :
  exists r,
    r ∈ Reports.get_manual_review_calls
          (snd (DataStorage.process (fun _ => false) SampleStore.read_name
                  SampleStore.noon SampleRun.anonymous_state
                  SampleStore.empty_store)).
Proof.
  destruct (stored_call_review_listing SampleStore.read_name
              SampleStore.noon SampleRun.anonymous_state SampleStore.empty_store
              (SampleStore.call None)) as [_ H]; [reflexivity|reflexivity|].
  eexists. apply H. reflexivity.
Defined.

(** What [process] does with flagged content, when no file operation
    fails. *)
Lemma process_flagged_files (read_name : list string -> string -> Cell)
    (now : Clock) (state : GraphState) (s : Storage) :
  default true (content_safety_passed state) = false ->
  let id := "FLAGGED_" +:+ stamp now in
  let cats :=
    DataStorage.details_flagged_categories (content_safety_details state) in
  let out := DataStorage.process (fun _ => false) read_name now state s in
  calls_dir (snd out)
  = <[id +:+ ".json" :=
        FlaggedRecord id (iso now) cats (input_type state)
          (default "" (transcript state))]> (calls_dir s)
  /\ calls_db (snd out)
     = (calls_db s
        ++ [{| entry_call_id := Some id;
               entry_timestamp := iso now;
               entry_agent_name := None;
               entry_overall_score := None;
               entry_needs_manual_review := true;
               entry_status := Some "FLAGGED_FOR_REVIEW";
               entry_flagged_categories := Some cats |}])%list
  /\ error (fst out) = error state
  /\ call_data (fst out) = call_data state
  /\ scores_csv (snd out) = scores_csv s
  /\ agent_performance_csv (snd out) = agent_performance_csv s.
Proof.
  intros Hsafe. cbv zeta. unfold_store. rewrite Hsafe. cbn.
  repeat split.
Qed.

(** X18: flagged content is kept for review and nothing else is done with
    it: for a state without error that has a transcript, when the
    moderation result flags a category and no file operation fails, the
    storage that follows the gate puts a record with the transcript and the
    flagged categories on the review list, sets no error, and leaves the
    call data, the score ledger and the agent aggregates as they were. *)
Theorem flagged_content_is_kept_for_review (result : ModerationResult)
    (read_name : list string -> string -> Cell) (now : Clock)
    (state : GraphState) (s : Storage) (t : string) :
  Py.truthy (error state) = false ->
  transcript state = Some t ->
  t <> "" ->
  let flagged_names :=
    map fst (List.filter (fun kv => snd kv) (categories result)) in
  flagged_names <> [] ->
  let state1 := Workflow._content_safety_node (Ok result) state in
  let out :=
    Nodes._data_storage_node (fun _ => false) read_name now state1 s in
  Workflow.next_node Workflow.content_safety state1
  = Some Workflow.data_storage
  /\ FlaggedRecord ("FLAGGED_" +:+ stamp now) (iso now) flagged_names
       (input_type state) t
     ∈ Reports.get_manual_review_calls (snd out)
  /\ error (fst out) = error state
  /\ call_data (fst out) = call_data state
  /\ scores_csv (snd out) = scores_csv s
  /\ agent_performance_csv (snd out) = agent_performance_csv s.
Proof.
  intros Herr Ht Hne. cbv zeta. intros Hflag.
  set (state1 := Workflow._content_safety_node (Ok result) state).
  assert (H1 : error state1 = error state
               /\ content_safety_passed state1 = Some false
               /\ DataStorage.details_flagged_categories
                    (content_safety_details state1)
                  = map fst (List.filter (fun kv => snd kv)
                               (categories result))
               /\ transcript state1 = Some t
               /\ input_type state1 = input_type state
               /\ call_data state1 = call_data state
               /\ Workflow.next_node Workflow.content_safety state1
                  = Some Workflow.data_storage).
  { subst state1. unfold Workflow._content_safety_node. rewrite Herr.
    unfold ContentSafetyAgent.process. rewrite Ht.
    destruct t as [|c t']; [congruence|].
    cbn [default Py.is_empty try_except].
    unfold Guardrails.check_transcript_safety, Guardrails.check_content.
    cbn [Guardrails.ENABLE_CONTENT_SAFETY try_except bind andb].
    destruct (map fst (List.filter (fun kv => snd kv) (categories result)))
      as [|c0 cs] eqn:Ef; [congruence|].
    cbn. rewrite Ht. repeat split. }
  destruct H1 as (He1 & Hp1 & Hc1 & Ht1 & Hi1 & Hd1 & Hn1).
  unfold Nodes._data_storage_node. rewrite He1, Herr.
  destruct (process_flagged_files read_name now state1 s)
    as (Hdir & Hdb & He & Hcd & Hs & Hp);
    [rewrite Hp1; reflexivity|].
  cbv zeta in Hdir, Hdb. rewrite Hc1, Ht1, Hi1 in Hdir. rewrite Hc1 in Hdb.
  split; [exact Hn1|].
  split; [|repeat split; congruence].
  apply manual_review_elem. eexists. split; [|split].
  - rewrite Hdb. apply elem_of_app. right. apply list_elem_of_singleton.
    reflexivity.
  - reflexivity.
  - unfold ReviewOrder.file_of. cbn [entry_call_id DataStorage.str_opt default].
    rewrite Hdir. apply lookup_insert_eq.
Qed.

Lemma flagged_content_is_kept_for_review_witness :
  exists r,
    r ∈ Reports.get_manual_review_calls
          (snd (Nodes._data_storage_node (fun _ => false)
                  SampleStore.read_name SampleStore.noon
                  (Workflow._content_safety_node (Ok SampleRun.flagged_result)
                     (Workflow.initial_state "text" Sample.dialogue))
                  SampleStore.empty_store)).
Proof.
  destruct (flagged_content_is_kept_for_review SampleRun.flagged_result
              SampleStore.read_name SampleStore.noon
              (Workflow.initial_state "text" Sample.dialogue)
              SampleStore.empty_store Sample.dialogue)
    as (_ & H & _); [reflexivity|reflexivity|discriminate|discriminate|].
  eexists. exact H.
Defined.

(** ** The table of aggregates *)

(** X19: when the table of aggregates cannot be read, it is replaced: for a
    scored call of a named agent, if reading the table raises and every
    other file operation succeeds, no error is set and the table written
    holds one row only, that of this call; the rows it held are gone. *)
Theorem unreadable_aggregates_are_replaced (fails : FileOp -> bool)
    (read_name : list string -> string -> Cell) (now : Clock)
    (state : GraphState) (s : Storage) (call_data0 : CallData)
    (qs : QualityScore) :
  default true (content_safety_passed state) = true ->
  call_data state = Some call_data0 ->
  quality_score state = Some qs ->
  DataStorage.has_agent_name call_data0 = true ->
  fails ReadPerformance = true ->
  (forall op, op <> ReadPerformance -> fails op = false) ->
  let out := DataStorage.process fails read_name now state s in
  error (fst out) = error state
  /\ agent_performance_csv (snd out)
     = [{| perf_agent_name := DataStorage.performance_key call_data0;
           total_calls := 1;
           average_overall_score := overall_score qs;
           average_tone_score := tone_score qs;
           average_professionalism_score := professionalism_score qs;
           average_resolution_score := resolution_score qs;
           average_response_score := response_time_score qs;
           last_updated := iso now |}].
Proof.
  intros Hsafe Hcd Hqs Hname Hread Hother. cbv zeta.
  assert (Hkey : DataStorage.performance_key
                   (DataStorage.ensure_call_id now call_data0)
                 = DataStorage.performance_key call_data0).
  { unfold DataStorage.ensure_call_id.
    destruct (Py.truthy (call_id (metadata call_data0))); reflexivity. }
  unfold_store. rewrite Hsafe, Hcd, Hqs. cbn [negb].
  rewrite has_agent_name_ensure, Hname, Hread.
  rewrite !Hother by discriminate. cbn.
  rewrite Hkey. split; reflexivity.
Qed.

Lemma unreadable_aggregates_are_replaced_witness :
  map perf_agent_name (agent_performance_csv SampleFaults.store_with_eli)
  = ["Eli"]
  /\ map perf_agent_name
       (agent_performance_csv
          (snd (DataStorage.process SampleFaults.performance_unreadable
                  SampleStore.read_name SampleStore.noon
                  SampleStore.scored_state SampleFaults.store_with_eli)))
     = ["Dana"].
Proof.
  split; [reflexivity|].
  destruct (unreadable_aggregates_are_replaced
              SampleFaults.performance_unreadable SampleStore.read_name
              SampleStore.noon
              SampleStore.scored_state SampleFaults.store_with_eli
              (SampleStore.call (Some "Dana")) SampleStore.first_score)
    as [_ H]; [reflexivity|reflexivity|reflexivity|reflexivity|reflexivity| |].
  - intros [] Hop; try reflexivity. congruence.
  - rewrite H. reflexivity.
Defined.

(** The table read, when every name of the file is read back as text. *)
Lemma read_csv_text (read_name : list string -> string -> Cell)
    (rows : list AgentPerformance) :
  (forall n, n ∈ map perf_agent_name rows ->
             read_name (map perf_agent_name rows) n = Text n) ->
  DataStorage.read_csv read_name rows
  = map (fun row => (Text (perf_agent_name row), row)) rows.
Proof.
  intros Hread. unfold DataStorage.read_csv.
  apply map_ext_in. intros row Hin. rewrite Hread; [reflexivity|].
  apply list_elem_of_fmap. exists row. split; [reflexivity|].
  apply list_elem_of_In. exact Hin.
Qed.

Lemma first_total_calls_text (k : string) (rows : list AgentPerformance) :
  match DataStorage.first_total_calls k
          (map (fun row => (Text (perf_agent_name row), row)) rows) with
  | Some n =>
      exists row, row ∈ rows /\ perf_agent_name row = k
                  /\ total_calls row = n
                  /\ (NoDup (map perf_agent_name rows) ->
                      forall row', row' ∈ rows -> perf_agent_name row' = k ->
                                   total_calls row' = n)
  | None => k ∉ map perf_agent_name rows
  end.
Proof.
  induction rows as [|row rows IH]; cbn.
  - apply not_elem_of_nil.
  - case_bool_decide as E.
    + exists row. split; [apply elem_of_cons; auto|].
      split; [exact E|]. split; [reflexivity|].
      intros Hnd row' Hin Hk. apply list.NoDup_cons in Hnd as [Hnot _].
      apply elem_of_cons in Hin as [->|Hin]; [reflexivity|].
      exfalso. apply Hnot. rewrite E, <- Hk.
      apply list_elem_of_fmap. exists row'. auto.
    + destruct (DataStorage.first_total_calls k _) as [n|].
      * destruct IH as (row0 & Hin & Hk & Hn & Huniq).
        exists row0. split; [apply elem_of_cons; auto|].
        split; [exact Hk|]. split; [exact Hn|].
        intros Hnd row' Hin' Hk'. apply list.NoDup_cons in Hnd as [_ Hnd].
        apply elem_of_cons in Hin' as [->|Hin']; [congruence|].
        apply Huniq; assumption.
      * rewrite not_elem_of_cons. split; [congruence|exact IH].
Qed.

(** X20: an update keeps the agents apart when the names are read back as
    text. For a table whose names are all read back as the text written,
    the table written after a scored call of an agent has the same names
    in the same order, and the name of the agent at the end when the table
    did not have it; so a table with one row for each name keeps one row
    for each name. Every other agent keeps its count; the agent has the
    count 1 when it is new and one more than before when the table has one
    row for each name. *)
Theorem update_keeps_agents_apart (read_name : list string -> string -> Cell)
    (k : string) (qs : QualityScore) (now : Clock)
    (rows : list AgentPerformance) :
  let names := map perf_agent_name rows in
  let rows' := DataStorage.written_table read_name k qs now rows in
  (forall n, n ∈ names -> read_name names n = Text n) ->
  map perf_agent_name rows'
  = (if bool_decide (k ∈ names) then names else (names ++ [k])%list)
  /\ (NoDup names -> NoDup (map perf_agent_name rows'))
  /\ (forall row,
         row ∈ rows -> perf_agent_name row <> k ->
         exists row', row' ∈ rows'
                      /\ perf_agent_name row' = perf_agent_name row
                      /\ total_calls row' = total_calls row)
  /\ (k ∉ names ->
      exists row', row' ∈ rows' /\ perf_agent_name row' = k
                   /\ total_calls row' = 1%Z)
  /\ (NoDup names ->
      forall row,
        row ∈ rows -> perf_agent_name row = k ->
        exists row', row' ∈ rows' /\ perf_agent_name row' = k
                     /\ total_calls row' = (total_calls row + 1)%Z).
Proof.
  cbv zeta. intros Hread.
  unfold DataStorage.written_table. rewrite (read_csv_text _ _ Hread).
  set (frame := map (fun row => (Text (perf_agent_name row), row)) rows).
  assert (Hupd : forall n,
             map perf_agent_name
               (map DataStorage.to_csv_row
                  (map (DataStorage.update_row k n qs now) frame))
             = map perf_agent_name rows).
  { intros n. subst frame. rewrite !List.map_map. apply map_ext.
    intros row. unfold DataStorage.update_row. cbn [fst snd].
    destruct (DataStorage.is_name k _); reflexivity. }
  assert (Hsame : map DataStorage.to_csv_row frame
                  = map (fun row => DataStorage.to_csv_row
                                      (Text (perf_agent_name row), row)) rows).
  { subst frame. rewrite List.map_map. reflexivity. }
  pose proof (first_total_calls_text k rows) as Hfirst. fold frame in Hfirst.
  unfold DataStorage.updated_performance.
  destruct (DataStorage.first_total_calls k frame) as [n|].
  - destruct Hfirst as (row0 & Hin0 & Hk0 & Hn0 & Huniq).
    assert (Hk : k ∈ map perf_agent_name rows).
    { apply list_elem_of_fmap. exists row0. auto. }
    rewrite Hupd, bool_decide_eq_true_2 by exact Hk.
    split; [reflexivity|]. split; [auto|]. split; [|split].
    + intros row Hin Hne.
      exists (DataStorage.to_csv_row
                (DataStorage.update_row k n qs now
                   (Text (perf_agent_name row), row))).
      split.
      * apply list_elem_of_fmap. eexists. split; [reflexivity|].
        apply list_elem_of_fmap. eexists. split; [reflexivity|].
        subst frame. apply list_elem_of_fmap. exists row. auto.
      * unfold DataStorage.update_row. cbn [fst snd DataStorage.is_name].
        rewrite bool_decide_eq_false_2 by exact Hne. split; reflexivity.
    + intros Hnot. contradiction.
    + intros Hnd row Hin Hkrow.
      exists (DataStorage.to_csv_row
                (DataStorage.update_row k n qs now
                   (Text (perf_agent_name row), row))).
      split.
      * apply list_elem_of_fmap. eexists. split; [reflexivity|].
        apply list_elem_of_fmap. eexists. split; [reflexivity|].
        subst frame. apply list_elem_of_fmap. exists row. auto.
      * unfold DataStorage.update_row. cbn [fst snd DataStorage.is_name].
        rewrite bool_decide_eq_true_2 by exact Hkrow. cbn.
        split; [exact Hkrow|]. rewrite (Huniq Hnd row Hin Hkrow).
        reflexivity.
  - rewrite !map_app, Hsame, List.map_map.
    rewrite bool_decide_eq_false_2 by exact Hfirst.
    split; [reflexivity|]. split; [|split; [|split]].
    + intros Hnd. cbn. apply list.NoDup_app. split; [exact Hnd|]. split.
      * intros x Hx Hin. apply list_elem_of_singleton in Hin. subst x.
        exact (Hfirst Hx).
      * apply list.NoDup_singleton.
    + intros row Hin Hne.
      exists (DataStorage.to_csv_row (Text (perf_agent_name row), row)).
      split; [|split; reflexivity].
      apply elem_of_app. left. apply list_elem_of_fmap. exists row. auto.
    + intros _. eexists. split.
      * apply elem_of_app. right. cbn. apply list_elem_of_singleton.
        reflexivity.
      * split; reflexivity.
    + intros _ row Hin Hkrow. exfalso. apply Hfirst.
      apply list_elem_of_fmap. exists row. auto.
Qed.

Lemma update_keeps_agents_apart_witness :
  map perf_agent_name
    (DataStorage.written_table SampleStore.read_name "Dana"
       SampleStore.first_score SampleStore.noon
       (agent_performance_csv SampleFaults.store_with_eli))
  = ["Eli"; "Dana"].
Proof.
  destruct (update_keeps_agents_apart SampleStore.read_name "Dana"
              SampleStore.first_score SampleStore.noon
              (agent_performance_csv SampleFaults.store_with_eli))
    as [H _].
  - intros n Hn. cbn in Hn. apply list_elem_of_singleton in Hn. subst n.
    reflexivity.
  - rewrite H. reflexivity.
Defined.

(** ** Reports *)

(** X21: a greater average never gets a lower rating: the rating of an
    average is one of six levels, and the level does not go down when the
    average goes up. *)
Theorem performance_rating_monotone (a b : Qc) :
  (a <= b)%Qc ->
  (Reports.rating_level (Reports._get_performance_rating a)
   <= Reports.rating_level (Reports._get_performance_rating b) <= 5)%nat.
Proof.
  intros Hab. unfold Reports._get_performance_rating.
  assert (Hup : forall t : Qc, (t <= a)%Qc -> ~ (t <= b)%Qc -> False).
  { intros t Hta Htb. apply Htb. eapply Qcle_trans; eassumption. }
  repeat case_bool_decide; cbn; try lia;
    exfalso; eauto.
Qed.

Lemma performance_rating_monotone_witness :
  (Reports.rating_level (Reports._get_performance_rating (Q2Qc (13 # 2)))
   <= Reports.rating_level (Reports._get_performance_rating (Q2Qc 9)) <= 5)%nat.
Proof.
  apply (performance_rating_monotone (Q2Qc (13 # 2)) (Q2Qc 9)).
  unfold Qcle. vm_compute. discriminate.
Defined.

Lemma Qc_of_nat_S (n : nat) :
  Q2Qc (inject_Z (Z.of_nat (S n)))
  = (Q2Qc (inject_Z (Z.of_nat n)) + Q2Qc 1)%Qc.
Proof.
  apply Qc_is_canon. unfold Qcplus. cbn [this Q2Qc]. rewrite !Qred_correct.
  rewrite Nat2Z.inj_succ. unfold Z.succ. rewrite inject_Z_plus. reflexivity.
Qed.

Lemma Qc_of_nat_pos (n : nat) :
  n <> 0%nat -> (Q2Qc 0 < Q2Qc (inject_Z (Z.of_nat n)))%Qc.
Proof.
  intros Hn. unfold Qclt. cbn [this Q2Qc]. rewrite !Qred_correct.
  unfold Qlt. cbn. lia.
Qed.

Lemma sum_scores_le (a : Qc) (l : list Qc) :
  Forall (fun v => (v <= a)%Qc) l ->
  (QualityScoring.sum_scores l
   <= a * Q2Qc (inject_Z (Z.of_nat (List.length l))))%Qc.
Proof.
  induction 1 as [|v l Hv Hl IH].
  - cbn [QualityScoring.sum_scores foldr List.length].
    change (Q2Qc (inject_Z (Z.of_nat 0))) with (Q2Qc 0).
    replace (a * Q2Qc 0)%Qc with (Q2Qc 0) by ring. apply Qcle_refl.
  - cbn [QualityScoring.sum_scores foldr List.length].
    rewrite Qc_of_nat_S.
    replace (a * (Q2Qc (inject_Z (Z.of_nat (List.length l))) + Q2Qc 1))%Qc
      with (a + a * Q2Qc (inject_Z (Z.of_nat (List.length l))))%Qc by ring.
    apply Qcplus_le_compat; assumption.
Qed.

Lemma sum_scores_ge (a : Qc) (l : list Qc) :
  Forall (fun v => (a <= v)%Qc) l ->
  (a * Q2Qc (inject_Z (Z.of_nat (List.length l)))
   <= QualityScoring.sum_scores l)%Qc.
Proof.
  induction 1 as [|v l Hv Hl IH].
  - cbn [QualityScoring.sum_scores foldr List.length].
    change (Q2Qc (inject_Z (Z.of_nat 0))) with (Q2Qc 0).
    replace (a * Q2Qc 0)%Qc with (Q2Qc 0) by ring. apply Qcle_refl.
  - cbn [QualityScoring.sum_scores foldr List.length].
    rewrite Qc_of_nat_S.
    replace (a * (Q2Qc (inject_Z (Z.of_nat (List.length l))) + Q2Qc 1))%Qc
      with (a + a * Q2Qc (inject_Z (Z.of_nat (List.length l))))%Qc by ring.
    apply Qcplus_le_compat; assumption.
Qed.

(** The mean of values that are at most [a] is at most [a]. *)
Lemma mean_le (a : Qc) (l : list Qc) :
  l <> [] -> Forall (fun v => (v <= a)%Qc) l ->
  (QualityScoring.mean l <= a)%Qc.
Proof.
  intros Hne Hl.
  apply Qcmult_lt_0_le_reg_r
    with (z := Q2Qc (inject_Z (Z.of_nat (List.length l)))).
  - apply Qc_of_nat_pos. destruct l; [congruence|discriminate].
  - rewrite mean_times_length by exact Hne. apply sum_scores_le. exact Hl.
Qed.

Lemma mean_ge (a : Qc) (l : list Qc) :
  l <> [] -> Forall (fun v => (a <= v)%Qc) l ->
  (a <= QualityScoring.mean l)%Qc.
Proof.
  intros Hne Hl.
  apply Qcmult_lt_0_le_reg_r
    with (z := Q2Qc (inject_Z (Z.of_nat (List.length l)))).
  - apply Qc_of_nat_pos. destruct l; [congruence|discriminate].
  - rewrite mean_times_length by exact Hne. apply sum_scores_ge. exact Hl.
Qed.

Lemma Qcopp_lt (p q : Qc) : (p < q)%Qc -> (- q < - p)%Qc.
Proof.
  intros H. apply Qclt_minus_iff. apply Qclt_minus_iff in H.
  replace (- p + - - q)%Qc with (q + - p)%Qc by ring. exact H.
Qed.

Lemma halves_nonempty (scores : list Qc) :
  (2 <= List.length scores)%nat ->
  take (List.length scores / 2) scores <> []
  /\ drop (List.length scores / 2) scores <> [].
Proof.
  intros Hlen.
  assert (Hmid : (1 <= List.length scores / 2 < List.length scores)%nat).
  { split.
    - apply Nat.div_le_lower_bound; lia.
    - apply Nat.div_lt; lia. }
  split; intros E; apply (f_equal (@List.length Qc)) in E;
    rewrite ?length_take, ?length_drop in E; cbn [List.length] in E; lia.
Qed.

(** X22: the trend compares the halves of the series: for a series of two
    values or more, cut at half its length (the first half being the
    shorter one), when every value of the second half is at least [b],
    every value of the first half is at most [a] and [b - a] is more than
    one half, the trend is "improving"; with the halves exchanged it is
    "declining". A shorter series has the trend "insufficient_data". *)
Theorem trend_of_separated_halves (scores : list Qc) (a b : Qc) :
  (Q2Qc (1 # 2) < b - a)%Qc ->
  let mid := (List.length scores / 2)%nat in
  ((List.length scores < 2)%nat ->
   Reports._calculate_trend scores = "insufficient_data")
  /\ ((2 <= List.length scores)%nat ->
      Forall (fun v => (v <= a)%Qc) (take mid scores) ->
      Forall (fun v => (b <= v)%Qc) (drop mid scores) ->
      Reports._calculate_trend scores = "improving")
  /\ ((2 <= List.length scores)%nat ->
      Forall (fun v => (b <= v)%Qc) (take mid scores) ->
      Forall (fun v => (v <= a)%Qc) (drop mid scores) ->
      Reports._calculate_trend scores = "declining").
Proof.
  intros Hgap. cbv zeta. unfold Reports._calculate_trend.
  split; [|split].
  - intros Hlen. apply Nat.ltb_lt in Hlen. rewrite Hlen. reflexivity.
  - intros Hlen Hfirst Hsecond.
    destruct (halves_nonempty scores Hlen) as [Hn1 Hn2].
    apply Nat.ltb_ge in Hlen. rewrite Hlen.
    pose proof (mean_le a _ Hn1 Hfirst) as H1.
    pose proof (mean_ge b _ Hn2 Hsecond) as H2.
    rewrite bool_decide_eq_true_2; [reflexivity|].
    eapply Qclt_le_trans; [exact Hgap|].
    unfold Qcminus. apply Qcplus_le_compat; [exact H2|].
    apply Qcopp_le_compat. exact H1.
  - intros Hlen Hfirst Hsecond.
    destruct (halves_nonempty scores Hlen) as [Hn1 Hn2].
    apply Nat.ltb_ge in Hlen. rewrite Hlen.
    pose proof (mean_ge b _ Hn1 Hfirst) as H1.
    pose proof (mean_le a _ Hn2 Hsecond) as H2.
    assert (Hd : (QualityScoring.mean (drop (List.length scores / 2) scores)
                  - QualityScoring.mean (take (List.length scores / 2) scores)
                  < - Q2Qc (1 # 2))%Qc).
    { eapply Qcle_lt_trans.
      - unfold Qcminus. apply Qcplus_le_compat; [exact H2|].
        apply Qcopp_le_compat. exact H1.
      - replace (a + - b)%Qc with (- (b - a))%Qc by ring.
        apply Qcopp_lt. exact Hgap. }
    rewrite bool_decide_eq_false_2.
    + rewrite bool_decide_eq_true_2; [reflexivity|exact Hd].
    + intros Hc.
      assert (Hlt : (Q2Qc (1 # 2) < Q2Qc (1 # 2))%Qc).
      { eapply Qclt_trans; [exact Hc|]. eapply Qclt_trans; [exact Hd|].
        unfold Qclt. vm_compute. reflexivity. }
      apply Qclt_not_eq in Hlt. congruence.
Qed.

Lemma trend_of_separated_halves_witness :
  Reports._calculate_trend [Q2Qc 5; Q2Qc 6; Q2Qc 7; Q2Qc 8; Q2Qc 9]
  = "improving".
Proof.
  destruct (trend_of_separated_halves
              [Q2Qc 5; Q2Qc 6; Q2Qc 7; Q2Qc 8; Q2Qc 9] (Q2Qc 6) (Q2Qc 7))
    as (_ & H & _).
  - unfold Qclt. vm_compute. reflexivity.
  - apply H.
    + cbn. lia.
    + cbn. repeat constructor; unfold Qcle; vm_compute; discriminate.
    + cbn. repeat constructor; unfold Qcle; vm_compute; discriminate.
Defined.

(** ** Summarization *)

Lemma truthy_message (prefix : string) (e : string) :
  prefix <> "" -> Py.truthy (Some (prefix +:+ e)) = true.
Proof. destruct prefix; [congruence|reflexivity]. Qed.

(** X23: a call whose summarization fails is not stored: for a state
    without error that holds call data, when producing the summary raises,
    the agent sets the error "Summarization Agent error: ..." and leaves
    the summary as it was; the orchestrator still goes on to quality
    scoring and to storage, but both nodes return the state as it is, so no
    score is computed and no file is touched, whatever the scoring model
    would reply and whichever file operations would fail. *)
Theorem summarization_failure_drops_call
    (parse_summary : string -> Exc CallSummary)
    (parse_quality : string -> Exc QualityScore)
    (reply quality_reply : Exc string) (fails : FileOp -> bool)
    (read_name : list string -> string -> Cell) (now : Clock)
    (state : GraphState) (s : Storage) (cd : CallData) (e : string) :
  Py.truthy (error state) = false ->
  call_data state = Some cd ->
  Summarization._generate_summary parse_summary reply cd = Raise e ->
  let state1 := Nodes._summarization_node parse_summary reply state in
  let state2 :=
    Nodes._quality_scoring_node parse_quality quality_reply state1 in
  let out := Nodes._data_storage_node fails read_name now state2 s in
  error state1 = Some ("Summarization Agent error: " +:+ e)
  /\ summary state1 = summary state
  /\ Workflow.next_node Workflow.summarization state1
     = Some Workflow.quality_scoring
  /\ state2 = state1
  /\ Workflow.next_node Workflow.quality_scoring state2
     = Some Workflow.data_storage
  /\ out = (state1, s).
Proof.
  intros Herr Hcd Hraise. cbv zeta.
  unfold Nodes._summarization_node, Summarization.process.
  rewrite Herr, Hcd, Hraise.
  unfold Nodes._quality_scoring_node, Nodes._data_storage_node.
  cbn [error set_error].
  rewrite truthy_message by discriminate.
  unfold Workflow.next_node, Workflow._should_do_quality_scoring.
  cbn. rewrite Hcd. cbn. repeat split.
Qed.

Lemma summarization_failure_drops_call_witness :
  let state1 :=
    Nodes._summarization_node SampleRun.parse_summary
      (Ok SampleReply.plain_key_point) SampleRun.summarized_state in
  error state1
  = Some "Summarization Agent error: tuple for startswith must only contain str, not type"
  /\ Nodes._data_storage_node SampleRun.no_fault SampleStore.read_name
       SampleStore.noon
       (Nodes._quality_scoring_node SampleRun.parse_quality
          (Ok "Overall: 9") state1)
       SampleStore.empty_store
     = (state1, SampleStore.empty_store).
Proof.
  cbv zeta.
  destruct (summarization_failure_drops_call SampleRun.parse_summary
              SampleRun.parse_quality (Ok SampleReply.plain_key_point)
              (Ok "Overall: 9") SampleRun.no_fault SampleStore.read_name
              SampleStore.noon SampleRun.summarized_state
              SampleStore.empty_store
              (SampleStore.call (Some "Dana"))
              "tuple for startswith must only contain str, not type")
    as (He & _ & _ & _ & _ & Hout);
    [reflexivity|reflexivity|vm_compute; reflexivity|].
  split; [exact He|exact Hout].
Defined.

Lemma scan_lines_raises (lines : list string) (d : Summarization.Draft)
    (e : string) :
  Summarization.scan_lines d lines = Raise e ->
  e = "tuple for startswith must only contain str, not type".
Proof.
  revert d. induction lines as [|line lines IH]; intros d; cbn;
    [discriminate|].
  destruct (Summarization.scan_line d line) as [e'|d'] eqn:E; cbn.
  - intros [= <-]. revert E. unfold Summarization.scan_line.
    repeat match goal with
           | |- context [if ?b then _ else _] => destruct b
           end; try discriminate.
    unfold Summarization.add_content, Summarization.starts_with_marker.
    destruct (Summarization.current_section d) as [[]|]; cbn;
      repeat match goal with
             | |- context [if ?b then _ else _] => destruct b
             end; cbn; try discriminate; intros [= <-]; reflexivity.
  - apply IH.
Qed.

(** X24: the fallback summary either is complete or fails in one way: a
    summary it returns has a brief summary that is not empty and at least
    one key point, and the only exception it raises is the TypeError of
    [startswith]. *)
Theorem fallback_summary_outcomes (raw_text : string) (call_data : CallData) :
  match Summarization._create_fallback_summary raw_text call_data with
  | Ok summary => brief_summary summary <> "" /\ key_points summary <> []
  | Raise e => e = "tuple for startswith must only contain str, not type"
  end.
Proof.
  unfold Summarization._create_fallback_summary.
  destruct (Summarization.scan_lines _ _) as [e|d] eqn:E; cbn.
  - eapply scan_lines_raises. exact E.
  - split.
    + destruct (Py.is_empty (Summarization.draft_brief_summary d)) eqn:Eb.
      * discriminate.
      * intros Hs. rewrite Hs in Eb. discriminate.
    + destruct (Summarization.draft_key_points d); discriminate.
Qed.

(** ** Transcription *)

(** X25: the audio file is checked before it is sent: for a state without
    error, when the path is empty, the file does not exist or its
    extension, in lower case, is not a supported one, the agent sets an
    error whatever the speech-to-text service would answer and leaves the
    transcript as it was; the content safety node then returns the state
    as it is and the run ends without moderation. When the checks pass and
    the service answers, its text becomes the transcript and no error is
    set. *)
Theorem transcription_checks_file (path_exists : string -> bool)
    (splitext_ext : string -> string) (reply : Exc string)
    (moderation : Exc ModerationResult) (state : GraphState) :
  Py.truthy (error state) = false ->
  let path := input_content state in
  let accepted :=
    negb (Py.is_empty path) && path_exists path
    && bool_decide (Py.lower (splitext_ext path)
                    ∈ Transcription.SUPPORTED_AUDIO_FORMATS) in
  let state1 := Nodes._transcription_node path_exists splitext_ext reply state in
  (accepted = false ->
   Py.truthy (error state1) = true
   /\ transcript state1 = transcript state
   /\ (forall reply',
          Nodes._transcription_node path_exists splitext_ext reply' state
          = state1)
   /\ Workflow._content_safety_node moderation state1 = state1
   /\ (default true (content_safety_passed state) = true ->
       Workflow.next_node Workflow.content_safety state1 = Some Workflow.END))
  /\ (accepted = true ->
      forall t, reply = Ok t ->
                transcript state1 = Some t /\ error state1 = error state).
Proof.
  intros Herr. cbv zeta.
  unfold Nodes._transcription_node, Transcription.process. rewrite Herr.
  unfold Workflow._content_safety_node, Workflow.next_node,
    Workflow._should_continue_after_safety_check.
  destruct (Py.is_empty (input_content state)) eqn:Ee; cbn [negb andb].
  { split; [intros _|discriminate]. cbn.
    repeat split. intros ->. reflexivity. }
  destruct (path_exists (input_content state)) eqn:Ep; cbn [negb andb].
  2:{ split; [intros _|discriminate]. cbn [error set_error transcript].
      rewrite truthy_message by discriminate. cbn.
      repeat split. intros ->. reflexivity. }
  destruct (bool_decide _) eqn:Ex; cbn [negb].
  - split; [discriminate|]. intros _ t ->. cbn. split; reflexivity.
  - split; [intros _|discriminate]. cbn [error set_error transcript].
    rewrite truthy_message by discriminate. cbn.
    repeat split. intros ->. reflexivity.
Qed.

Lemma transcription_checks_file_witness :
  error (Nodes._transcription_node SampleRun.path_exists
           SampleRun.splitext_ext (Ok "Hello, this is Dana.")
           (Workflow.initial_state "audio" "notes.txt"))
  = Some "Unsupported audio format: .txt".
Proof.
  destruct (transcription_checks_file SampleRun.path_exists
              SampleRun.splitext_ext (Ok "Hello, this is Dana.")
              (Ok SampleRun.flagged_result)
              (Workflow.initial_state "audio" "notes.txt"))
    as [H _]; [reflexivity|].
  destruct H as (_ & _ & Hany & _); [vm_compute; reflexivity|].
  rewrite <- (Hany (Raise "unreachable")). vm_compute. reflexivity.
Defined.

(** ** Witnesses of earlier properties *)

Lemma fallback_none_iff_witness :
  QualityScoring._create_fallback_score "The call went well." = None.
Proof.
  apply (proj2 (fallback_none_iff "The call went well.")).
  split; vm_compute; reflexivity.
Defined.

Lemma moderation_failure_passes_witness :
  content_safety_passed
    (Workflow._content_safety_node (Raise "Connection error")
       (Workflow.initial_state "text" Sample.dialogue))
  = Some true.
Proof.
  apply (moderation_failure_passes "Connection error"
           (Workflow.initial_state "text" Sample.dialogue));
    reflexivity.
Defined.

Lemma flagged_record_written_first_witness :
  snd (DataStorage.process (fun _ => true) SampleStore.read_name
         SampleStore.noon
         (Workflow._content_safety_node (Ok SampleRun.flagged_result)
            (Workflow.initial_state "text" Sample.dialogue))
         SampleStore.empty_store)
  = SampleStore.empty_store.
Proof.
  apply (flagged_record_written_first (fun _ => true) SampleStore.read_name
           SampleStore.noon
           (Workflow._content_safety_node (Ok SampleRun.flagged_result)
              (Workflow.initial_state "text" Sample.dialogue))
           SampleStore.empty_store);
    reflexivity.
Defined.
